(** * Isoform collapsing (pbtranscript.collapsing)

    A shallow embedding of [pbtranscript/collapsing/common.py] and
    [pbtranscript/collapsing/CollapseIsoforms.py]: the output-file naming
    scheme [CollapsedFiles] and [FilteredFiles], the streaming collapser
    [Branch] and the pipeline driver [CollapseIsoformsRunner]; and of the
    input checks of [pbtranscript/Polish.py] ([Polish.validate_inputs])
    and [pbtranscript/tofu_wrap.py] ([_sanity_check_args] and the choice
    of the input isoforms in [args_runner]), which have exceptions of
    their own.

    Python values are embedded as follows.
    - [str] is [string]; ["%s.%s" % (a, b)] is string concatenation.
    - [int] is [Z]; the coverage and identity fractions are rationals [Q]
      (only their comparison with a threshold is ever used).
    - An exception is a value of [exn]; a call that may raise returns a
      [result].
    - The file system is a finite map from paths to nodes; code that reads
      and writes files lives in the state-and-error monad [M], whose state
      also carries a journal of the calls to external collaborators, so
      that ordering properties can be stated.
    - Helpers that live in modules outside the embedded sources
      ([pbtranscript.io], [pbtranscript.Utils],
      [pbtranscript.collapsing.CollapsingUtils]) are either parameters of a
      [Section] or definitions marked [Modelled from the spec]. *)

From Stdlib Require Import ZArith QArith String Ascii List Lia Permutation.
From stdpp Require Import gmap strings list fin_maps sorting pretty.

Open Scope string_scope.
Open Scope list_scope.
Open Scope Z_scope.

(** ** Exceptions and results *)

(** The exceptions that can escape the embedded code.  [AssertionError] and
    [IOError] are raised by the sources themselves; the others are raised by
    collaborators and named as the design document names them. *)
Inductive exn : Type :=
| AssertionError
| IOError (msg : string)
| NonUniqueIdsError (name : string)
| ParseError (path : string)
| UnsortedInputError (name : string)
| ExonChainError (name : string)
| EmptyGroupError (cuff_index isoform_index : Z)
| MissingSequenceError (name : string).

Inductive result (A : Type) : Type :=
| Ok (a : A)
| Raise (e : exn).

Arguments Ok {A} a.
Arguments Raise {A} e.

Definition is_ok {A} (r : result A) : bool :=
  match r with Ok _ => true | Raise _ => false end.

(** ** Output file names: [common.py] *)

Module CollapsedFiles.

(** [class CollapsedFiles(object)]: [__init__] stores the two attributes. *)
Record t : Type := mk {
  prefix : string;
  allow_extra_5exon : bool
}.

(** [has_5merge_str]: ["5merge" if self.allow_extra_5exon else "no5merge"]. *)
Definition has_5merge_str (self : t) : string :=
  if allow_extra_5exon self then "5merge" else "no5merge".

(** [_collapsed_prefix]: ["%s.%s.collapsed" % (self.prefix, self.has_5merge_str)]. *)
Definition _collapsed_prefix (self : t) : string :=
  prefix self +:+ "." +:+ has_5merge_str self +:+ ".collapsed".

(** The tuple of the [assert] in [rep_fn]. *)
Definition rep_suffixes : list string := ["fasta"; "fastq"; "contigset.xml"].

(** [rep_fn(self, suffix)]: the assertion, then
    ["%s.rep.%s" % (self._collapsed_prefix, suffix)]. *)
Definition rep_fn (self : t) (suffix : string) : result string :=
  if bool_decide (suffix ∈ rep_suffixes)
  then Ok (_collapsed_prefix self +:+ ".rep." +:+ suffix)
  else Raise AssertionError.

Definition gff_fn (self : t) : string := _collapsed_prefix self +:+ ".gff".
Definition good_gff_fn (self : t) : string := _collapsed_prefix self +:+ ".good.gff".
Definition bad_gff_fn (self : t) : string := _collapsed_prefix self +:+ ".bad.gff".
Definition group_fn (self : t) : string := _collapsed_prefix self +:+ ".group.txt".
Definition read_stat_fn (self : t) : string := _collapsed_prefix self +:+ ".read_stat.txt".
Definition ignored_ids_txt_fn (self : t) : string :=
  _collapsed_prefix self +:+ ".ignored_ids.txt".
Definition abundance_fn (self : t) : string := _collapsed_prefix self +:+ ".abundance.txt".
Definition good_fuzzy_gff_fn (self : t) : string := good_gff_fn self +:+ ".fuzzy".
Definition good_unfuzzy_gff_fn (self : t) : string := good_gff_fn self +:+ ".unfuzzy".
Definition bad_fuzzy_gff_fn (self : t) : string := bad_gff_fn self +:+ ".fuzzy".
Definition bad_unfuzzy_gff_fn (self : t) : string := bad_gff_fn self +:+ ".unfuzzy".
Definition fuzzy_group_fn (self : t) : string := group_fn self +:+ ".fuzzy".
Definition unfuzzy_group_fn (self : t) : string := group_fn self +:+ ".unfuzzy".

End CollapsedFiles.

Module FilteredFiles.

(** [class FilteredFiles(CollapsedFiles)].  [base] is the [CollapsedFiles]
    part, which [__init__] sets through [super().__init__]; [min_count] is
    [int(min_count)] and [filter_out_subsets] is [bool(filter_out_subsets)]. *)
Record t : Type := mk {
  base : CollapsedFiles.t;
  min_count : Z;
  filter_out_subsets : bool
}.

(** ["%d" % n]: the decimal digits of [n], after a ["-"] when [n] is
    negative. *)
Definition format_d (n : Z) : string := pretty n.

(** [_filtered_prefix]:
    [".".join([self._collapsed_prefix, "min_fl_%d" % self.min_count])],
    followed by [".no_subsets"] when [self.filter_out_subsets]. *)
Definition _filtered_prefix (self : t) : string :=
  let _prefix := CollapsedFiles._collapsed_prefix (base self) +:+ "."
                 +:+ ("min_fl_" +:+ format_d (min_count self)) in
  if filter_out_subsets self then _prefix +:+ ".no_subsets" else _prefix.

(** [filtered_rep_fn(self, suffix)]; unlike [rep_fn] it asserts nothing
    about the suffix. *)
Definition filtered_rep_fn (self : t) (suffix : string) : string :=
  _filtered_prefix self +:+ ".rep." +:+ suffix.

Definition filtered_gff_fn (self : t) : string := _filtered_prefix self +:+ ".gff".
Definition filtered_abundance_fn (self : t) : string :=
  _filtered_prefix self +:+ ".abundance.txt".

End FilteredFiles.

(** ** Data model *)

Inductive Strand : Type := Plus | Minus.

Definition Strand_eqb (a b : Strand) : bool :=
  match a, b with
  | Plus, Plus | Minus, Minus => true
  | _, _ => false
  end.

(** One alignment of a query isoform to the reference, as the SAM reader
    hands it to [Branch]: query id, reference id, strand, 0-based half-open
    reference span, exon chain, and the coverage and identity fractions the
    aligner computed. *)
Record SamRecord : Type := mkSam {
  qID : string;
  sID : string;
  strand : Strand;
  sStart : Z;
  sEnd : Z;
  segments : list (Z * Z);
  qCoverage : Q;
  identity : Q
}.

(** The id of a collapsed candidate: the [cuff_index] that [Branch.run]
    hands to the collapsing engine for the candidate's overlap group, and
    the candidate's discovery position inside that group. *)
Record CandId : Type := mkId {
  cuff : Z;
  isoform : Z
}.

Definition CandId_eqb (a b : CandId) : bool :=
  (cuff a =? cuff b) && (isoform a =? isoform b).


(** One annotation record of a collapsed GFF file. *)
Record GffRecord : Type := mkGff {
  gff_id : CandId;
  gff_seqid : string;
  gff_strand : Strand;
  gff_exons : list (Z * Z)
}.

(** One line of a group file: a candidate id and its member query ids, in
    insertion order. *)
Record GroupRecord : Type := mkGroup {
  group_name : CandId;
  group_members : list string
}.

(** One record of the representative sequence file. *)
Record RepRecord : Type := mkRep {
  rep_group : CandId;
  rep_qid : string;
  rep_seq : string
}.

(** ** Files *)

(** What a file holds, by format. *)
Inductive content : Type :=
| Isoforms (seqs : list (string * string))
| SamFile (recs : list SamRecord)
| IdList (ids : list string)
| GffFile (recs : list GffRecord)
| GroupFile (groups : list GroupRecord)
| RepFile (reps : list RepRecord).

Inductive node : Type :=
| Regular (c : content)
| Symlink (target : string).

(** Symbolic links are followed at most [link_depth] times, as a kernel
    gives up with ELOOP. *)
Definition link_depth : nat := 40.

Fixpoint resolve_n (n : nat) (fs : gmap string node) (path : string) : option content :=
  match fs !! path with
  | None => None
  | Some (Regular c) => Some c
  | Some (Symlink target) =>
      match n with
      | O => None
      | S n' => resolve_n n' fs target
      end
  end.

Definition resolve (fs : gmap string node) (path : string) : option content :=
  resolve_n link_depth fs path.

(** [os.path.exists]: true when the path, links followed, names a file. *)
Definition op_exists (fs : gmap string node) (path : string) : bool :=
  match resolve fs path with Some _ => true | None => false end.

Arguments resolve : simpl never.
Arguments op_exists : simpl never.

(** ** The journal of external calls *)

(** Every call [CollapseIsoformsRunner.run] makes to code outside itself,
    with the arguments it passes. *)
Inductive call : Type :=
| CheckIdsUnique (isoform_filename : string)
| BranchNew (isoform_filename sam_filename : string) (cov_threshold : Z)
            (min_aln_coverage min_aln_identity : Q)
| BranchRun (allow_extra_5exon skip_5_exon_alt : bool)
            (ignored_ids_fn good_gff_fn bad_gff_fn group_fn : string)
| CollapseFuzzyJunctions (gff_filename group_filename
                          fuzzy_gff_filename fuzzy_group_filename : string)
                         (allow_extra_5exon : bool) (max_fuzzy_junction : Z)
| Ln (src dst : string)
| PickRep (isoform_filename gff_filename group_filename output_filename : string)
          (pick_least_err_instead : bool) (bad_gff_filename : string).

Record world : Type := mkWorld {
  files : gmap string node;
  journal : list call
}.

(** ** The state-and-error monad *)

(** A computation over a state [S] that returns or raises; the state
    survives an exception. *)
Definition St (S A : Type) : Type := S -> result A * S.

Definition ret {S A} (a : A) : St S A := fun s => (Ok a, s).

Definition raise {S A} (e : exn) : St S A := fun s => (Raise e, s).

Definition bind {S A B} (m : St S A) (k : A -> St S B) : St S B :=
  fun s =>
    match m s with
    | (Ok a, s') => k a s'
    | (Raise e, s') => (Raise e, s')
    end.

(** stdpp's monad notation: [x ← m; k] and [m ;; k]. *)
#[global] Instance St_ret {S} : MRet (St S) := @ret S.
#[global] Instance St_bind {S} : MBind (St S) := fun A B k m => bind m k.

Definition lift {S A} (r : result A) : St S A := fun s => (r, s).

(** The runner's code runs over files and journal; its collaborators are
    given the files only. *)
Abbreviation M := (St world).
Abbreviation F := (St (gmap string node)).

Definition on_files {A} (f : F A) : M A :=
  fun w => let '(r, fs) := f (files w) in (r, mkWorld fs (journal w)).

Definition log (c : call) : M unit :=
  fun w => (Ok tt, mkWorld (files w) (journal w ++ [c])).

Definition get_files : M (gmap string node) := fun w => (Ok (files w), w).

(** [open(path, 'w')] with what is written until the file is closed, as
    one step: [path] then names a regular file with this content.  A path
    is written as the file it names: a symbolic link found at [path] is
    replaced, not written through, and opening is taken to succeed. *)
Definition write_file (path : string) (c : content) : F unit :=
  fun fs => (Ok tt, <[path := Regular c]> fs).

(** [open(path)] and reading to the end: symbolic links are followed, and
    a path that names no file is an [IOError]. *)
Definition read_file (path : string) : F content :=
  fun fs =>
    match resolve fs path with
    | Some c => (Ok c, fs)
    | None => (Raise (IOError path), fs)
    end.

(** ** Buffered writers *)

(** An output writer ([open(fn, 'w')], [CollapseGffWriter], [GroupWriter]):
    the path it was opened on and the records written so far.  The buffer
    reaches the file when the writer is closed or finalised. *)
Record Writer (T : Type) : Type := mkWriter {
  w_path : string;
  w_buf : list T
}.

Arguments mkWriter {T} w_path w_buf.
Arguments w_path {T} w.
Arguments w_buf {T} w.

(** [Writer(fn) if fn else None]: an empty path is falsy. *)
Definition open_writer {T} (fn : string) : option (Writer T) :=
  if String.eqb fn "" then None else Some (mkWriter fn []).

(** [writer.writeRecord(x)] on a writer that may be [None]. *)
Definition put_record {T} (w : option (Writer T)) (x : T) : option (Writer T) :=
  match w with
  | Some w' => Some (mkWriter (w_path w') (w_buf w' ++ [x]))
  | None => None
  end.

Definition put_records {T} (w : option (Writer T)) (xs : list T) : option (Writer T) :=
  fold_left put_record xs w.

Definition buffer {T} (w : option (Writer T)) : list T :=
  match w with Some w' => w_buf w' | None => [] end.

(** The four writers [Branch.run] opens. *)
Record Writers : Type := mkWriters {
  ignored_ids_writer : option (Writer string);
  good_gff_writer : option (Writer GffRecord);
  bad_gff_writer : option (Writer GffRecord);
  group_writer : option (Writer GroupRecord)
}.

Definition flush_writer {T} (kind : list T -> content) (w : option (Writer T)) : F unit :=
  match w with
  | Some w' => write_file (w_path w') (kind (w_buf w'))
  | None => mret tt
  end.

Definition flush_writers (ws : Writers) : F unit :=
  flush_writer IdList (ignored_ids_writer ws) ;;
  flush_writer GffFile (good_gff_writer ws) ;;
  flush_writer GffFile (bad_gff_writer ws) ;;
  flush_writer GroupFile (group_writer ws).

(** ** The alignment stream *)

(** What one iteration of [iter_gmap_sam] yields: a dict from strand to the
    records of that strand, kept as its items in iteration order. *)
Definition recs_dict : Type := list (Strand * list SamRecord).

(** [recs.itervalues()]. *)
Definition itervalues (recs : recs_dict) : list (list SamRecord) := map snd recs.

(** What the generator [iter_gmap_sam] does between two reads of its input:
    it writes one id to the ignored-ids writer, or it yields one dict. *)
Inductive sam_event : Type :=
| Ignore (qid : string)
| Yield (recs : recs_dict).

(** A run of the generator: its events in order, and the exception that
    ended it, if one did. *)
Record Stream : Type := mkStream {
  events : list sam_event;
  failure : option exn
}.


(** ** [class Branch] *)

Module Branch.

(** The attributes [__init__] sets ([self.exons = None] is never read). *)
Record t : Type := mk {
  isoform_filename : string;
  isoform_len_dict : gmap string Z;
  sam_filename : string;
  cov_threshold : Z;
  min_aln_coverage : Q;
  min_aln_identity : Q
}.

(** The loop variables of [run]: the counter and the writers, whose buffers
    the collapsing engine extends. *)
Record loop_state : Type := mkLoop {
  cuff_index : Z;
  writers : Writers
}.

Section Run.

(** [ContigSetReaderWrapper.name_to_len_dict], [iter_gmap_sam] and
    [collapse_sam_records] are imported from modules outside the embedded
    sources; [Branch] is embedded for any such collaborators.  A call of
    [collapse_sam_records] can only write records to the three writers it
    is handed: it is given by the records it writes to [good_gff_writer],
    to [bad_gff_writer] and to [group_writer], or by the exception it
    raises. *)
Variable name_to_len_dict : string -> F (gmap string Z).
Variable iter_gmap_sam :
  gmap string node -> string -> gmap string Z -> Q -> Q -> Stream.
Variable collapse_sam_records :
  list SamRecord -> Z -> Z -> bool -> bool -> Z ->
  result (list GffRecord * list GffRecord * list GroupRecord).

(** [Branch.__init__]. *)
Definition init (isoform_filename sam_filename : string) (cov_threshold : Z)
    (min_aln_coverage min_aln_identity : Q) : M t :=
  d ← on_files (name_to_len_dict isoform_filename);
  mret (mk isoform_filename d sam_filename cov_threshold
           min_aln_coverage min_aln_identity).

Section Loop.

Variable self : t.
Variables allow_extra_5exon skip_5_exon_alt : bool.
Variable tolerate_end : Z.

(** The inner loop, [for records in recs.itervalues()]: the engine is
    called on a non-empty list only, and the counter advances after each
    call.  An exception of the engine leaves the loop at once. *)
Fixpoint run_values (values : list (list SamRecord)) (st : loop_state)
    : loop_state * option exn :=
  match values with
  | [] => (st, None)
  | records :: rest =>
      if 0 <? Z.of_nat (length records) then
        let ws := writers st in
        match collapse_sam_records records (cuff_index st) (cov_threshold self)
                allow_extra_5exon skip_5_exon_alt tolerate_end with
        | Ok (good, bad, group) =>
            run_values rest
              (mkLoop (cuff_index st + 1)
                      (mkWriters (ignored_ids_writer ws)
                                 (put_records (good_gff_writer ws) good)
                                 (put_records (bad_gff_writer ws) bad)
                                 (put_records (group_writer ws) group)))
        | Raise e => (st, Some e)
        end
      else run_values rest st
  end.

(** The outer loop, [for recs in iter_gmap_sam(...)], over the events of
    the generator. *)
Fixpoint run_events (evs : list sam_event) (st : loop_state)
    : loop_state * option exn :=
  match evs with
  | [] => (st, None)
  | Ignore qid :: rest =>
      let ws := writers st in
      run_events rest
        (mkLoop (cuff_index st)
                (mkWriters (put_record (ignored_ids_writer ws) qid)
                           (good_gff_writer ws) (bad_gff_writer ws)
                           (group_writer ws)))
  | Yield recs :: rest =>
      match run_values (itervalues recs) st with
      | (st', None) => run_events rest st'
      | (st', Some e) => (st', Some e)
      end
  end.

(** The whole of the two loops on one run of the generator: an exception
    of the engine wins over a later one of the generator. *)
Definition run_stream (s : Stream) (st : loop_state) : loop_state * option exn :=
  match run_events (events s) st with
  | (st', None) => (st', failure s)
  | (st', Some e) => (st', Some e)
  end.

(** [Branch.run]: open the writers, [cuff_index = 1], the loops, close the
    writers.  Opening a path for writing leaves an empty file there at
    once, before the generator reads its input.  The source closes
    [bad_gff_writer] twice and never [group_writer]; every buffer reaches
    its file when [run] is left, by [close] or by finalisation, also when
    an exception leaves it. *)
Definition run (ignored_ids_fn good_gff_fn bad_gff_fn group_fn : string) : M unit :=
  let ws := mkWriters (open_writer ignored_ids_fn) (open_writer good_gff_fn)
                      (open_writer bad_gff_fn) (open_writer group_fn) in
  on_files (flush_writers ws) ;;
  fs ← get_files;
  let s := iter_gmap_sam fs (sam_filename self) (isoform_len_dict self)
                         (min_aln_coverage self) (min_aln_identity self) in
  let '(st, err) := run_stream s (mkLoop 1 ws) in
  on_files (flush_writers (writers st)) ;;
  match err with
  | Some e => raise e
  | None => mret tt
  end.

End Loop.
End Run.
End Branch.

(** ** [class CollapseIsoformsRunner(CollapsedFiles)] *)

Module CollapseIsoformsRunner.

(** The attributes of a runner.  [base] is the [CollapsedFiles] part:
    [self.prefix] and [self.allow_extra_5exon], which [__init__] sets
    through [super().__init__] and then sets again to
    [bool(allow_extra_5exon)]. *)
Record t : Type := mk {
  base : CollapsedFiles.t;
  suffix : string;
  isoform_filename : string;
  sam_filename : string;
  min_aln_coverage : Q;
  min_aln_identity : Q;
  min_flnc_coverage : Z;
  max_fuzzy_junction : Z;
  skip_5_exon_alt : bool
}.

Definition allow_extra_5exon (self : t) : bool :=
  CollapsedFiles.allow_extra_5exon (base self).

(** [shall_collapse_fuzzy_junctions]: [self.max_fuzzy_junction > 0]. *)
Definition shall_collapse_fuzzy_junctions (self : t) : bool :=
  0 <? max_fuzzy_junction self.

(** The default [tolerate_end=100] of [Branch.run], which [run] leaves. *)
Definition default_tolerate_end : Z := 100.

Section Run.

(** Collaborators from modules outside the embedded sources. *)
Variable parse_ds_filename : string -> string * string.
Variable check_ids_unique : string -> F unit.
Variable name_to_len_dict : string -> F (gmap string Z).
Variable iter_gmap_sam :
  gmap string node -> string -> gmap string Z -> Q -> Q -> Stream.
Variable collapse_sam_records :
  list SamRecord -> Z -> Z -> bool -> bool -> Z ->
  result (list GffRecord * list GffRecord * list GroupRecord).
Variable collapse_fuzzy_junctions :
  string -> string -> string -> string -> bool -> Z -> F unit.
Variable ln : string -> string -> F unit.
Variable pick_rep : string -> string -> string -> string -> bool -> string -> F unit.

(** [CollapseIsoformsRunner.__init__]; the numeric and boolean conversions
    are the identity on typed arguments. *)
Definition init (isoform_filename sam_filename output_prefix : string)
    (min_aln_coverage min_aln_identity : Q)
    (min_flnc_coverage max_fuzzy_junction : Z)
    (allow_extra_5exon skip_5_exon_alt : bool) : t :=
  mk (CollapsedFiles.mk output_prefix allow_extra_5exon)
     (snd (parse_ds_filename isoform_filename))
     isoform_filename sam_filename min_aln_coverage min_aln_identity
     min_flnc_coverage max_fuzzy_junction skip_5_exon_alt.

(** [validate_inputs]. *)
Definition validate_inputs (self : t) : M unit :=
  fs ← get_files;
  if negb (op_exists fs (isoform_filename self)) then
    raise (IOError ("Input isoforms file " +:+ isoform_filename self
                    +:+ " does not exist"))
  else if negb (op_exists fs (sam_filename self)) then
    raise (IOError ("Input SAM file " +:+ sam_filename self
                    +:+ " does not exist"))
  else
    log (CheckIdsUnique (isoform_filename self)) ;;
    on_files (check_ids_unique (isoform_filename self)).

(** The three links of one branch of [run]. *)
Definition link_outputs (self : t) (good_src group_src : string) : M unit :=
  let c := base self in
  log (Ln good_src (CollapsedFiles.good_gff_fn c)) ;;
  on_files (ln good_src (CollapsedFiles.good_gff_fn c)) ;;
  log (Ln good_src (CollapsedFiles.gff_fn c)) ;;
  on_files (ln good_src (CollapsedFiles.gff_fn c)) ;;
  log (Ln group_src (CollapsedFiles.group_fn c)) ;;
  on_files (ln group_src (CollapsedFiles.group_fn c)).

(** [run]; the [logging.info] calls have no effect on the files and are
    left out. *)
Definition run (self : t) : M unit :=
  let c := base self in
  validate_inputs self ;;
  log (BranchNew (isoform_filename self) (sam_filename self)
                 (min_flnc_coverage self) (min_aln_coverage self)
                 (min_aln_identity self)) ;;
  b ← Branch.init name_to_len_dict (isoform_filename self) (sam_filename self)
        (min_flnc_coverage self) (min_aln_coverage self) (min_aln_identity self);
  log (BranchRun (allow_extra_5exon self) (skip_5_exon_alt self)
                 (CollapsedFiles.ignored_ids_txt_fn c)
                 (CollapsedFiles.good_unfuzzy_gff_fn c)
                 (CollapsedFiles.bad_unfuzzy_gff_fn c)
                 (CollapsedFiles.unfuzzy_group_fn c)) ;;
  Branch.run iter_gmap_sam collapse_sam_records b
    (allow_extra_5exon self) (skip_5_exon_alt self) default_tolerate_end
    (CollapsedFiles.ignored_ids_txt_fn c)
    (CollapsedFiles.good_unfuzzy_gff_fn c)
    (CollapsedFiles.bad_unfuzzy_gff_fn c)
    (CollapsedFiles.unfuzzy_group_fn c) ;;
  (if shall_collapse_fuzzy_junctions self then
     log (CollapseFuzzyJunctions
            (CollapsedFiles.good_unfuzzy_gff_fn c)
            (CollapsedFiles.unfuzzy_group_fn c)
            (CollapsedFiles.good_fuzzy_gff_fn c)
            (CollapsedFiles.fuzzy_group_fn c)
            (allow_extra_5exon self) (max_fuzzy_junction self)) ;;
     on_files (collapse_fuzzy_junctions
                 (CollapsedFiles.good_unfuzzy_gff_fn c)
                 (CollapsedFiles.unfuzzy_group_fn c)
                 (CollapsedFiles.good_fuzzy_gff_fn c)
                 (CollapsedFiles.fuzzy_group_fn c)
                 (allow_extra_5exon self) (max_fuzzy_junction self)) ;;
     link_outputs self (CollapsedFiles.good_fuzzy_gff_fn c)
                       (CollapsedFiles.fuzzy_group_fn c)
   else
     link_outputs self (CollapsedFiles.good_unfuzzy_gff_fn c)
                       (CollapsedFiles.unfuzzy_group_fn c)) ;;
  let pick_least_err_instead := negb (allow_extra_5exon self) in
  output_filename ← lift (CollapsedFiles.rep_fn c (suffix self));
  log (PickRep (isoform_filename self) (CollapsedFiles.good_gff_fn c)
               (CollapsedFiles.group_fn c) output_filename
               pick_least_err_instead (CollapsedFiles.bad_gff_fn c)) ;;
  on_files (pick_rep (isoform_filename self) (CollapsedFiles.good_gff_fn c)
                     (CollapsedFiles.group_fn c) output_filename
                     pick_least_err_instead (CollapsedFiles.bad_gff_fn c)).

End Run.
End CollapseIsoformsRunner.

(** ** Python's path and string helpers *)

(** [s.endswith(ext)]. *)
Definition endswith (s ext : string) : bool :=
  (String.length ext <=? String.length s)%nat
  && String.eqb (substring (String.length s - String.length ext)
                           (String.length ext) s) ext.

(** [s.startswith(ext)]. *)
Definition startswith (s ext : string) : bool := String.prefix ext s.

(** [posixpath.join(a, b)]. *)
Definition op_join (a b : string) : string :=
  if startswith b "/" then b
  else if String.eqb a "" || endswith a "/" then a +:+ b
  else a +:+ "/" +:+ b.

(** ** [Polish.validate_inputs]: [Polish.py] *)

Module Polish.

(** The exceptions that leave [validate_inputs]: the [ValueError] it
    raises, and the [TypeError] of [os.stat(None)], which
    [os.path.exists] lets through. *)
Inductive error : Type :=
| ValueError (msg : string)
| TypeError.

(** One call of [self.add_log]: the message, and whether it was given
    [level=logging.ERROR]. *)
Record entry : Type := mkEntry {
  entry_msg : string;
  entry_is_error : bool
}.

(** The attributes [validate_inputs] reads.  They are set by
    [IceFiles.__init__] and through [realpath], outside the embedded
    sources; each is a string or [None]. *)
Record t : Type := mk {
  root_dir : option string;
  nfl_fa : option string;
  bas_fofn : option string
}.

(** [str(x)] of such an attribute, as [format] renders it. *)
Definition str (x : option string) : string :=
  match x with Some s => s | None => "None" end.

Section Validate.

(** [os.path.exists] on a string. *)
Variable path_exists : string -> bool.

(** [op.exists(x)] for an attribute. *)
Definition op_exists (x : option string) : error + bool :=
  match x with
  | Some p => inr (path_exists p)
  | None => inl TypeError
  end.

(** [validate_inputs]: what it logs, and how it ends. *)
Definition validate_inputs (self : t) : list entry * (error + unit) :=
  let log := [mkEntry "Validating inputs." false] in
  let errMsg := "" in
  match op_exists (root_dir self) with
  | inl e => (log, inl e)
  | inr found =>
      let errMsg :=
        if negb found
        then "Root dir " +:+ str (root_dir self) +:+ " is not an existing directory!"
        else errMsg in
      match op_exists (nfl_fa self) with
      | inl e => (log, inl e)
      | inr found =>
          let errMsg :=
            if negb found
            then "Failed to find non-full-length reads " +:+ str (nfl_fa self) +:+ "!"
            else errMsg in
          let errMsg :=
            match bas_fofn self with
            | None => "bas_fofn must be specified."
            | Some _ => errMsg
            end in
          match op_exists (bas_fofn self) with
          | inl e => (log, inl e)
          | inr found =>
              let errMsg :=
                if negb found
                then "Failed to find bas fofn " +:+ str (bas_fofn self) +:+ "!"
                else errMsg in
              if negb (String.eqb errMsg "")
              then (log ++ [mkEntry errMsg true], inl (ValueError errMsg))
              else (log, inr tt)
          end
      end
  end.

End Validate.
End Polish.

(** ** The argument checks of [tofu_wrap.py] *)

Module TofuWrap.

(** The exceptions that leave [_sanity_check_args]: those it raises
    ([IOError] is given the format string and the value as two arguments),
    the [TypeError] of [os.path.exists(None)], the [AttributeError] of
    [os.path.join] on [None], and whatever a helper raises. *)
Inductive error : Type :=
| ValueError (msg : string)
| IOError (msg arg : string)
| TypeError
| AttributeError
| HelperError (helper : string).

(** The attributes of [args] that [_sanity_check_args] reads or sets. *)
Record Args : Type := mkArgs {
  nfl_fa : option string;
  bas_fofn : option string;
  quiver : bool;
  gmap_db : option string;
  gmap_name : option string;
  gmap_ds : option string;
  collapsed_filtered_fn : string
}.

(** The tuple of the output format check. *)
Definition output_extensions : list string := [".fa"; ".fasta"; ".fq"; ".fastq"].

Section Checks.

(** Helpers from modules outside the embedded sources:
    [gmap_db_and_name_from_ds], [os.path.exists],
    [guess_file_format(x) == FILE_FORMATS.BAM] and [check_blasr()]. *)
Variable gmap_db_and_name_from_ds : string -> error + (option string * option string).
Variable path_exists : string -> bool.
Variable guess_is_bam : string -> error + bool.
Variable check_blasr : error + unit.

(** [_sanity_check_args(args)]: the exception it raises, or [args] as it
    leaves them. *)
Definition _sanity_check_args (args : Args) : error + Args :=
  match nfl_fa args with
  | None => inl (ValueError "--nfl_fa must be provided for tofu_wrap. Quit.")
  | Some _ =>
  match bas_fofn args with
  | None => inl (ValueError "--bas_fofn must be provided for polishing isoforms. Quit.")
  | Some bas =>
  let args := mkArgs (nfl_fa args) (bas_fofn args) true (gmap_db args)
                     (gmap_name args) (gmap_ds args) (collapsed_filtered_fn args) in
  match gmap_db args, gmap_name args, gmap_ds args with
  | None, None, None => inl (ValueError "GMAP reference Database is not set! Quit.")
  | _, _, _ =>
  match
    match gmap_ds args with
    | Some ds =>
        match gmap_db_and_name_from_ds ds with
        | inl e => inl e
        | inr (db, name) =>
            inr (mkArgs (nfl_fa args) (bas_fofn args) (quiver args) db name
                        (gmap_ds args) (collapsed_filtered_fn args))
        end
    | None => inr args
    end
  with
  | inl e => inl e
  | inr args =>
  match gmap_db args with
  | None => inl TypeError
  | Some db =>
  if negb (path_exists db)
  then inl (IOError "GMAP DB location not valid: %s. Quit." db)
  else
  match gmap_name args with
  | None => inl AttributeError
  | Some name =>
  if negb (path_exists (op_join db name))
  then inl (IOError "GMAP name not valid: %s. Quit." name)
  else
  match guess_is_bam bas with
  | inl e => inl e
  | inr false =>
      inl (ValueError ("--bas_fofn " +:+ bas +:+ " must be either BAM or subreadset.xml."
                       +:+ "Bax.h5 must be converted to BAM using bax2bam first! "
                       +:+ "Multiple BAM files can be merged to a BAM FOFN or dataset xml."))
  | inr true =>
  if negb (existsb (endswith (collapsed_filtered_fn args)) output_extensions)
  then inl (ValueError ("Output file " +:+ collapsed_filtered_fn args
                        +:+ " must be FASTA or FASTQ!"))
  else
  match check_blasr with
  | inl e => inl e
  | inr _ => inr args
  end end end end end end end end.

End Checks.

(** [args_runner], step (5): the choice of [in_isoforms] from the name of
    the output file; [all_hq_fa] and [all_hq_fq] are the two candidates. *)
Definition select_in_isoforms (all_hq_fa all_hq_fq out_isoforms : string)
    : error + string :=
  if existsb (endswith out_isoforms) [".fa"; ".fasta"] then inr all_hq_fa
  else if existsb (endswith out_isoforms) [".fq"; ".fastq"] then inr all_hq_fq
  else inl (ValueError ("Output file " +:+ out_isoforms +:+ " must be FASTA or FASTQ!")).

End TofuWrap.

(** ** The collaborators, from the design document *)

Module Collaborators.

(** Modelled from the spec: [pbtranscript.Utils.ln], which is not among the
    embedded sources.  "Files symlinked rather than regenerated": [dst]
    becomes a symbolic link to [src], replacing what was there. *)
Definition ln (src dst : string) : F unit :=
  fun fs => (Ok tt, <[dst := Symlink src]> fs).

(** The records of an isoform file: query id and sequence. *)
Definition read_isoforms (path : string) : F (list (string * string)) :=
  c ← read_file path;
  match c with
  | Isoforms seqs => mret seqs
  | _ => raise (ParseError path)
  end.

(** Modelled from the spec: part of [check_ids_unique] below.  The first
    name that occurs twice, if one does. *)
Fixpoint first_duplicate (names : list string) : option string :=
  match names with
  | [] => None
  | n :: rest =>
      if bool_decide (n ∈ rest) then Some n else first_duplicate rest
  end.

(** Modelled from the spec: [ContigSetReaderWrapper.check_ids_unique], which
    is not among the embedded sources.  "Ensure input reads have unique
    ids": it raises when a query id occurs twice in the isoform file. *)
Definition check_ids_unique (isoform_filename : string) : F unit :=
  seqs ← read_isoforms isoform_filename;
  match first_duplicate (map fst seqs) with
  | Some n => raise (NonUniqueIdsError n)
  | None => mret tt
  end.

(** Modelled from the spec: [ContigSetReaderWrapper.name_to_len_dict], which
    is not among the embedded sources.  The query-length lookup: query id to
    sequence length. *)
Definition name_to_len_dict (isoform_filename : string) : F (gmap string Z) :=
  seqs ← read_isoforms isoform_filename;
  mret (list_to_map (map (fun p => (fst p, Z.of_nat (String.length (snd p)))) seqs)).

(** *** The alignment stream reader (design document, 4.1) *)

(** [a < b] on fractions. *)
Definition Qltb (a b : Q) : bool := negb (Qle_bool b a).

(** Modelled from the spec: part of [iter_gmap_sam] below.  "A record's
    (reference id, reference start) is smaller than the previous emitted
    record's": the pairs are compared as Python compares tuples. *)
Definition key_ltb (a b : SamRecord) : bool :=
  String.ltb (sID a) (sID b)
  || (String.eqb (sID a) (sID b) && (sStart a <? sStart b)).

(** Modelled from the spec: part of [iter_gmap_sam] below.  "Coverage <
    min_aln_coverage or identity < min_aln_identity". *)
Definition below_thresholds (min_aln_coverage min_aln_identity : Q) (r : SamRecord) : bool :=
  Qltb (qCoverage r) min_aln_coverage || Qltb (identity r) min_aln_identity.

(** Modelled from the spec: part of [iter_gmap_sam] below.  The dict a
    flush yields, whose values [Branch.run] iterates over: the records of
    the open group by strand, an overlap group sharing reference id and
    strand. *)
Definition sep_by_strand (records : list SamRecord) : recs_dict :=
  [ (Plus, List.filter (fun r => Strand_eqb (strand r) Plus) records);
    (Minus, List.filter (fun r => Strand_eqb (strand r) Minus) records) ].

(** Modelled from the spec: part of [iter_gmap_sam] below.  The reader
    between two records: the previous emitted record, the one open group
    with its maximum reference end, and the events so far. *)
Record reader_state : Type := mkReader {
  prev_emitted : option SamRecord;
  open_group : list SamRecord;
  max_end : Z;
  emitted : list sam_event
}.

(** Modelled from the spec: part of [iter_gmap_sam] below.  Before the
    first record: nothing emitted, no open group. *)
Definition reader_start : reader_state := mkReader None [] 0 [].

(** Modelled from the spec: part of [iter_gmap_sam] below.  The record
    precedes the previous emitted record. *)
Definition out_of_order (st : reader_state) (r : SamRecord) : bool :=
  match prev_emitted st with
  | Some p => key_ltb r p
  | None => false
  end.

(** Modelled from the spec: part of [iter_gmap_sam] below.  The record
    joins the open group: same reference, and "its start lies within the
    group's current max end", spans being half-open. *)
Definition joins (st : reader_state) (r : SamRecord) : bool :=
  match open_group st with
  | [] => false
  | first :: _ => String.eqb (sID r) (sID first) && (sStart r <? max_end st)
  end.

(** Modelled from the spec: part of [iter_gmap_sam] below.  "Flush the
    current group (yield it downstream)"; "a final flush emits any
    still-open group". *)
Definition flush (st : reader_state) : list sam_event :=
  match open_group st with
  | [] => emitted st
  | _ :: _ => emitted st ++ [Yield (sep_by_strand (open_group st))]
  end.

(** Modelled from the spec: part of [iter_gmap_sam] below.  One record:
    the sortedness check against the previous emitted record, which is the
    reader's contract; then the coverage and identity filter, which appends
    the id to the ignored ids and discards the record; then the grouping. *)
Definition reader_step (min_aln_coverage min_aln_identity : Q)
    (st : reader_state) (r : SamRecord) : result reader_state :=
  if out_of_order st r then Raise (UnsortedInputError (qID r))
  else if below_thresholds min_aln_coverage min_aln_identity r then
    Ok (mkReader (prev_emitted st) (open_group st) (max_end st)
                 (emitted st ++ [Ignore (qID r)]))
  else if joins st r then
    Ok (mkReader (Some r) (open_group st ++ [r]) (Z.max (max_end st) (sEnd r))
                 (emitted st))
  else
    Ok (mkReader (Some r) [r] (sEnd r) (flush st)).

(** Modelled from the spec: part of [iter_gmap_sam] below.  The records in
    order; an exception ends the stream without the final flush. *)
Fixpoint read_records (min_aln_coverage min_aln_identity : Q)
    (records : list SamRecord) (st : reader_state) : Stream :=
  match records with
  | [] => mkStream (flush st) None
  | r :: rest =>
      match reader_step min_aln_coverage min_aln_identity st r with
      | Ok st' => read_records min_aln_coverage min_aln_identity rest st'
      | Raise e => mkStream (emitted st) (Some e)
      end
  end.

(** Modelled from the spec: [pbtranscript.io.iter_gmap_sam], which is not
    among the embedded sources.  The Alignment Stream Reader of 4.1 on the
    records of the SAM file.  The query lengths serve the aligner's coverage
    figure, which a record here already carries. *)
Definition iter_gmap_sam (fs : gmap string node) (sam_filename : string)
    (query_len_dict : gmap string Z) (min_aln_coverage min_aln_identity : Q) : Stream :=
  match resolve fs sam_filename with
  | Some (SamFile records) =>
      read_records min_aln_coverage min_aln_identity records reader_start
  | Some _ => mkStream [] (Some (ParseError sam_filename))
  | None => mkStream [] (Some (IOError sam_filename))
  end.

(** *** The unfuzzy collapsing engine (design document, 4.3) *)

(** Modelled from the spec: part of [collapse_sam_records] below.  An exon
    chain is well formed: not empty, every exon non-empty, and the
    exons sorted and disjoint. *)
Fixpoint chain_sorted (last_end : Z) (chain : list (Z * Z)) : bool :=
  match chain with
  | [] => true
  | (s, e) :: rest => (last_end <=? s) && (s <? e) && chain_sorted e rest
  end.

(** Modelled from the spec: part of [collapse_sam_records] below.  "A
    malformed exon chain (empty, or violating the disjoint/sorted
    invariant)" is one for which this is false. *)
Definition chain_ok (chain : list (Z * Z)) : bool :=
  match chain with
  | [] => false
  | (s, e) :: rest => (s <? e) && chain_sorted e rest
  end.

Section Engine.

(** Structural compatibility of two exon chains (exact match within
    [tolerate_end], or 5'-containment when [allow_extra_5exon] is set, under
    [skip_5_exon_alt]) and the choice of a candidate's representative chain
    are left open: the engine is modelled for any such pair. *)
Variable compatible : bool -> bool -> Z -> SamRecord -> SamRecord -> bool.
Variable representative_chain : list SamRecord -> list (Z * Z).

Section Group.

Variables allow_extra_5exon skip_5_exon_alt : bool.
Variable tolerate_end : Z.

(** Modelled from the spec: part of [collapse_sam_records] below.  The
    record is compatible with a member of the candidate; a candidate under
    construction is its members in arrival order. *)
Definition touches (r : SamRecord) (members : list SamRecord) : bool :=
  existsb (compatible allow_extra_5exon skip_5_exon_alt tolerate_end r) members.

(** Modelled from the spec: part of [collapse_sam_records] below.
    "Records found compatible are unioned into one candidate": the record
    joins the first candidate it is compatible with, together with every
    later candidate it is compatible with; with none, it opens a new
    candidate after the others. *)
Fixpoint add_record (r : SamRecord) (cands : list (list SamRecord))
    : list (list SamRecord) :=
  match cands with
  | [] => [[r]]
  | c :: rest =>
      if touches r c then
        (c ++ concat (List.filter (touches r) rest) ++ [r])
          :: List.filter (fun c' => negb (touches r c')) rest
      else c :: add_record r rest
  end.

(** Modelled from the spec: part of [collapse_sam_records] below.  The
    candidates of one overlap group, in discovery order. *)
Definition cluster (records : list SamRecord) : list (list SamRecord) :=
  fold_left (fun cands r => add_record r cands) records [].

End Group.

(** Modelled from the spec: part of [collapse_sam_records] below.  The
    annotation record of a candidate: id, reference id, strand and the
    representative chain. *)
Definition annotate (id : CandId) (members : list SamRecord) : GffRecord :=
  match members with
  | [] => mkGff id "" Plus (representative_chain members)
  | first :: _ => mkGff id (sID first) (strand first) (representative_chain members)
  end.

(** Modelled from the spec: part of [collapse_sam_records] below.  The
    candidates of one group with their ids: the group's [cuff_index]
    and the discovery position, from [from] on. *)
Fixpoint number (cuff_index from : Z) (cands : list (list SamRecord))
    : list (CandId * list SamRecord) :=
  match cands with
  | [] => []
  | c :: rest => (mkId cuff_index from, c) :: number cuff_index (from + 1) rest
  end.

(** Modelled from the spec: part of [collapse_sam_records] below.
    "Candidates with member count >= cov_threshold are good". *)
Definition is_good (cov_threshold : Z) (c : CandId * list SamRecord) : bool :=
  cov_threshold <=? Z.of_nat (length (snd c)).

(** Modelled from the spec: part of [collapse_sam_records] below.  The
    membership line of a candidate: its id and its member query ids. *)
Definition membership (c : CandId * list SamRecord) : GroupRecord :=
  mkGroup (fst c) (map qID (snd c)).

(** Modelled from the spec: [CollapsingUtils.collapse_sam_records], which is
    not among the embedded sources.  The Unfuzzy Collapsing Engine of 4.3
    on one overlap group: a malformed exon chain is fatal; otherwise the
    candidates are numbered in discovery order, the annotation of each goes
    to the good or to the bad writer by its member count, and its
    membership to the group writer. *)
Definition collapse_sam_records (records : list SamRecord)
    (cuff_index cov_threshold : Z) (allow_extra_5exon skip_5_exon_alt : bool)
    (tolerate_end : Z)
    : result (list GffRecord * list GffRecord * list GroupRecord) :=
  match find (fun r => negb (chain_ok (segments r))) records with
  | Some r => Raise (ExonChainError (qID r))
  | None =>
      let cands :=
        number cuff_index 1
          (cluster allow_extra_5exon skip_5_exon_alt tolerate_end records) in
      Ok (map (fun c => annotate (fst c) (snd c))
              (List.filter (is_good cov_threshold) cands),
          map (fun c => annotate (fst c) (snd c))
              (List.filter (fun c => negb (is_good cov_threshold c)) cands),
          map membership cands)
  end.

End Engine.

(** *** The fuzzy-junction merger (design document, 4.4) *)

(** Modelled from the spec: part of [collapse_fuzzy_junctions] below.  The
    internal junctions of an exon chain: the end of an exon with the start
    of the next one. *)
Fixpoint junctions (chain : list (Z * Z)) : list (Z * Z) :=
  match chain with
  | [] => []
  | (_, e) :: rest =>
      match rest with
      | [] => []
      | (s, _) :: _ => (e, s) :: junctions rest
      end
  end.

(** Modelled from the spec: part of [collapse_fuzzy_junctions] below.
    "Every corresponding internal junction coordinate differs by at most
    [max_fuzzy_junction] bases". *)
Fixpoint junctions_close (max_fuzzy_junction : Z) (a b : list (Z * Z)) : bool :=
  match a, b with
  | [], [] => true
  | (d1, a1) :: a', (d2, a2) :: b' =>
      (Z.abs (d1 - d2) <=? max_fuzzy_junction)
      && (Z.abs (a1 - a2) <=? max_fuzzy_junction)
      && junctions_close max_fuzzy_junction a' b'
  | _, _ => false
  end.

(** Modelled from the spec: part of [collapse_fuzzy_junctions] below.  "Two
    candidates on the same reference id and strand are merge-eligible if
    they have the same exon count and every corresponding internal junction
    coordinate differs by at most [max_fuzzy_junction] bases"; the outer
    boundaries are not constrained. *)
Definition merge_eligible (max_fuzzy_junction : Z) (a b : GffRecord) : bool :=
  String.eqb (gff_seqid a) (gff_seqid b)
  && Strand_eqb (gff_strand a) (gff_strand b)
  && (length (gff_exons a) =? length (gff_exons b))%nat
  && junctions_close max_fuzzy_junction (junctions (gff_exons a))
                     (junctions (gff_exons b)).

(** Modelled from the spec: part of [collapse_fuzzy_junctions] below.  The
    candidate is merge-eligible with a member of the set. *)
Definition fuzzy_touches (max_fuzzy_junction : Z) (g : GffRecord)
    (set : list GffRecord) : bool :=
  existsb (merge_eligible max_fuzzy_junction g) set.

(** Modelled from the spec: part of [collapse_fuzzy_junctions] below.
    "Merge is transitive: candidates are unioned via a disjoint-set
    grouping": the candidate joins the first set it is eligible with,
    together with every later set it is eligible with; with none, it opens
    a new set after the others. *)
Fixpoint add_candidate (max_fuzzy_junction : Z) (g : GffRecord)
    (sets : list (list GffRecord)) : list (list GffRecord) :=
  match sets with
  | [] => [[g]]
  | c :: rest =>
      if fuzzy_touches max_fuzzy_junction g c then
        (c ++ concat (List.filter (fuzzy_touches max_fuzzy_junction g) rest) ++ [g])
          :: List.filter (fun c' => negb (fuzzy_touches max_fuzzy_junction g c')) rest
      else c :: add_candidate max_fuzzy_junction g rest
  end.

(** Modelled from the spec: part of [collapse_fuzzy_junctions] below.  The
    sets of the good candidates, taken in id order. *)
Definition fuzzy_sets (max_fuzzy_junction : Z) (gff : list GffRecord)
    : list (list GffRecord) :=
  fold_left (fun sets g => add_candidate max_fuzzy_junction g sets) gff [].

(** Modelled from the spec: part of [collapse_fuzzy_junctions] below.  The
    candidates of a set "in the order their source candidates were emitted
    in 4.3", which is the order of the good GFF. *)
Definition in_emission_order (gff set : list GffRecord) : list GffRecord :=
  List.filter (fun g => existsb (fun x => CandId_eqb (gff_id x) (gff_id g)) set) gff.

(** Modelled from the spec: part of [collapse_fuzzy_junctions] below.  The
    members of a candidate in the membership map; a candidate the map does
    not know is an error. *)
Definition members_of (groups : list GroupRecord) (g : GffRecord)
    : option (list string) :=
  match find (fun grp => CandId_eqb (group_name grp) (gff_id g)) groups with
  | Some grp => Some (group_members grp)
  | None => None
  end.

(** Modelled from the spec: part of [collapse_fuzzy_junctions] below.  The
    members of the candidates of a set, candidate after candidate. *)
Fixpoint union_members (groups : list GroupRecord) (set : list GffRecord)
    : option (list string) :=
  match set with
  | [] => Some []
  | g :: rest =>
      match members_of groups g, union_members groups rest with
      | Some ms, Some more => Some (ms ++ more)
      | _, _ => None
      end
  end.

Section Merger.

(** The key of a merged candidate ("a re-keyed set of merged candidates")
    and its chain ("the most complete chain among constituents", which may
    depend on [allow_extra_5exon]) are left open: the merger is modelled
    for any such pair. *)
Variable merged_id : list GffRecord -> CandId.
Variable merged_chain : bool -> list GffRecord -> list (Z * Z).

(** Modelled from the spec: part of [collapse_fuzzy_junctions] below.  One
    set becomes one merged candidate: its annotation, and its membership,
    the union of the memberships of its constituents. *)
Definition merge_set (allow_extra_5exon : bool) (groups : list GroupRecord)
    (set : list GffRecord) : option (GffRecord * GroupRecord) :=
  match set with
  | [] => None
  | first :: _ =>
      match union_members groups set with
      | Some members =>
          Some (mkGff (merged_id set) (gff_seqid first) (gff_strand first)
                      (merged_chain allow_extra_5exon set),
                mkGroup (merged_id set) members)
      | None => None
      end
  end.

(** Modelled from the spec: part of [collapse_fuzzy_junctions] below.  All
    sets, in the order of their first constituents. *)
Fixpoint merge_sets (allow_extra_5exon : bool) (groups : list GroupRecord)
    (sets : list (list GffRecord)) : option (list (GffRecord * GroupRecord)) :=
  match sets with
  | [] => Some []
  | set :: rest =>
      match merge_set allow_extra_5exon groups set,
            merge_sets allow_extra_5exon groups rest with
      | Some m, Some ms => Some (m :: ms)
      | _, _ => None
      end
  end.

(** Modelled from the spec: [CollapsingUtils.collapse_fuzzy_junctions], which
    is not among the embedded sources.  The Fuzzy-Junction Merger of 4.4 on
    the good candidates and the membership map of the unfuzzy stage: it
    writes the merged candidates and their membership map. *)
Definition collapse_fuzzy_junctions (gff_filename group_filename
                                     fuzzy_gff_filename fuzzy_group_filename : string)
    (allow_extra_5exon : bool) (max_fuzzy_junction : Z) : F unit :=
  gff ← read_file gff_filename;
  groups ← read_file group_filename;
  match gff, groups with
  | GffFile gff', GroupFile groups' =>
      match merge_sets allow_extra_5exon groups'
              (map (in_emission_order gff') (fuzzy_sets max_fuzzy_junction gff')) with
      | Some merged =>
          write_file fuzzy_gff_filename (GffFile (map fst merged)) ;;
          write_file fuzzy_group_filename (GroupFile (map snd merged))
      | None => raise (ParseError group_filename)
      end
  | GffFile _, _ => raise (ParseError group_filename)
  | _, _ => raise (ParseError gff_filename)
  end.

End Merger.

(** *** The representative picker (design document, 4.5) *)

(** Modelled from the spec: part of [pick_rep] below.  [a] is picked
    before [b]: a smaller score, or the same score and a
    lexicographically smaller query id. *)
Definition better (score : string -> Z) (a b : string) : bool :=
  (score a <? score b) || ((score a =? score b) && String.ltb a b).

(** Modelled from the spec: part of [pick_rep] below.  The member no
    member is picked before. *)
Definition pick_best (score : string -> Z) (first : string) (rest : list string) : string :=
  fold_left (fun best x => if better score x best then x else best) rest first.

(** Modelled from the spec: part of [pick_rep] below.  The representative
    of one group; a group without members is an
    [EmptyGroupError]. *)
Definition pick_rep_group (score : string -> Z) (g : GroupRecord) : result string :=
  match group_members g with
  | [] => Raise (EmptyGroupError (cuff (group_name g)) (isoform (group_name g)))
  | first :: rest => Ok (pick_best score first rest)
  end.

Section Picker.

(** The boundary deviation of a member from the group's representative
    chain, which the design document leaves open. *)
Variable discrepancy : GffRecord -> string -> Z.

(** Modelled from the spec: part of [pick_rep] below.  Longest-first: the
    greatest sequence length has the smallest score. *)
Definition length_score (seqs : gmap string string) (q : string) : Z :=
  match seqs !! q with
  | Some s => - Z.of_nat (String.length s)
  | None => 0
  end.

(** Modelled from the spec: part of [pick_rep] below.  The score of the
    policy the flag selects. *)
Definition policy_score (pick_least_err_instead : bool) (seqs : gmap string string)
    (g : GffRecord) : string -> Z :=
  if pick_least_err_instead then discrepancy g else length_score seqs.

(** Modelled from the spec: part of [pick_rep] below.  One final good
    group: its representative and the representative's
    sequence.  Longest-first needs the length of every member. *)
Definition pick_one (pick_least_err_instead : bool) (seqs : gmap string string)
    (g : GffRecord) (grp : GroupRecord) : result RepRecord :=
  match pick_rep_group (policy_score pick_least_err_instead seqs g) grp with
  | Raise e => Raise e
  | Ok q =>
      match (if pick_least_err_instead then None
             else find (fun m => negb (bool_decide (is_Some (seqs !! m))))
                       (group_members grp)) with
      | Some m => Raise (MissingSequenceError m)
      | None =>
          match seqs !! q with
          | Some s => Ok (mkRep (group_name grp) q s)
          | None => Raise (MissingSequenceError q)
          end
      end
  end.

(** Modelled from the spec: part of [pick_rep] below.  The groups in file
    order; a group is final and good when the good GFF
    annotates it, and only such a group is picked from. *)
Fixpoint pick_all (pick_least_err_instead : bool) (seqs : gmap string string)
    (gff : list GffRecord) (groups : list GroupRecord) : result (list RepRecord) :=
  match groups with
  | [] => Ok []
  | grp :: rest =>
      match find (fun g => CandId_eqb (gff_id g) (group_name grp)) gff with
      | None => pick_all pick_least_err_instead seqs gff rest
      | Some g =>
          match pick_one pick_least_err_instead seqs g grp with
          | Raise e => Raise e
          | Ok r =>
              match pick_all pick_least_err_instead seqs gff rest with
              | Raise e => Raise e
              | Ok rs => Ok (r :: rs)
              end
          end
      end
  end.

(** Modelled from the spec: [CollapsingUtils.pick_rep], which is not among
    the embedded sources.  The Representative Picker of 4.5 on the final
    good GFF and group files; the design document gives the bad GFF no role
    in picking. *)
Definition pick_rep (isoform_filename gff_filename group_filename
                     output_filename : string) (pick_least_err_instead : bool)
    (bad_gff_filename : string) : F unit :=
  seqs ← read_isoforms isoform_filename;
  gff ← read_file gff_filename;
  groups ← read_file group_filename;
  match gff, groups with
  | GffFile gff', GroupFile groups' =>
      reps ← lift (pick_all pick_least_err_instead (list_to_map seqs) gff' groups');
      write_file output_filename (RepFile reps)
  | GffFile _, _ => raise (ParseError group_filename)
  | _, _ => raise (ParseError gff_filename)
  end.

End Picker.
End Collaborators.

(** * Properties *)

(** ** Strings *)

Lemma append_assoc (a b c : string) : (a +:+ b) +:+ c = a +:+ (b +:+ c).
Proof.
  induction a as [|ch a IH]; [reflexivity|].
  change (String ch ((a +:+ b) +:+ c) = String ch (a +:+ (b +:+ c))).
  by rewrite IH.
Qed.

Lemma append_empty_inv (a b : string) : a +:+ b = "" -> a = "" /\ b = "".
Proof.
  destruct a as [|ch a]; intros H.
  - split; [reflexivity|exact H].
  - change (String ch (a +:+ b) = "") in H. discriminate.
Qed.

Lemma eqb_append_nonempty (a : string) (ch : ascii) (b : string) :
  String.eqb (a +:+ String ch b) "" = false.
Proof.
  apply String.eqb_neq. intros H.
  apply append_empty_inv in H as [_ H]. discriminate.
Qed.

(** Two names built on the same stem differ when their endings do. *)
Lemma append_ne (stem a b : string) : a <> b -> stem +:+ a <> stem +:+ b.
Proof. intros Hne H. apply Hne. by apply (inj (String.append stem)). Qed.

Lemma ltb_le (a b : string) : String.ltb a b = true -> String.le a b.
Proof.
  unfold String.ltb, String.le, String.leb.
  destruct (String.compare a b); done.
Qed.

Lemma ltb_irrefl (a : string) : String.ltb a a = false.
Proof.
  unfold String.ltb.
  destruct (String.compare a a) eqn:E; try reflexivity.
  pose proof (String.compare_antisym a a) as H. rewrite E in H. discriminate.
Qed.

Lemma ltb_false_le (a b : string) : String.ltb a b = false -> String.le b a.
Proof.
  unfold String.ltb, String.le, String.leb.
  rewrite (String.compare_antisym a b).
  destruct (String.compare b a); done.
Qed.

Lemma le_ltb_false (a b : string) : String.le b a -> String.ltb a b = false.
Proof.
  unfold String.ltb, String.le, String.leb.
  rewrite (String.compare_antisym a b).
  destruct (String.compare b a); done.
Qed.

(** ** C10: the representative file name *)

Section RepFn.

Import CollapsedFiles.

(** C10.  [rep_fn] returns a name exactly for the suffixes ["fasta"],
    ["fastq"] and ["contigset.xml"]; the name is
    [<prefix>.<5merge|no5merge>.collapsed.rep.<suffix>], with [5merge]
    exactly when [allow_extra_5exon] is true; for every other suffix the
    assertion fails. *)
Theorem rep_fn_defined_on_three_suffixes (self : CollapsedFiles.t) (suffix : string) :
  (suffix = "fasta" \/ suffix = "fastq" \/ suffix = "contigset.xml" ->
     rep_fn self suffix =
       Ok (prefix self +:+ "."
           +:+ (if allow_extra_5exon self then "5merge" else "no5merge")
           +:+ ".collapsed.rep." +:+ suffix))
  /\ (~ (suffix = "fasta" \/ suffix = "fastq" \/ suffix = "contigset.xml") ->
        rep_fn self suffix = Raise AssertionError)
  /\ (has_5merge_str self = "5merge" <-> allow_extra_5exon self = true).
Proof.
  split; [|split].
  - intros Hs. unfold rep_fn.
    rewrite bool_decide_eq_true_2.
    + unfold _collapsed_prefix, has_5merge_str.
      by rewrite !append_assoc.
    + unfold rep_suffixes. rewrite !elem_of_cons, elem_of_nil. tauto.
  - intros Hs. unfold rep_fn.
    rewrite bool_decide_eq_false_2; [reflexivity|].
    unfold rep_suffixes. rewrite !elem_of_cons, elem_of_nil. tauto.
  - unfold has_5merge_str. destruct (allow_extra_5exon self); split; done.
Qed.

(** The three names and one refusal, for the prefix ["out"]. *)
Lemma rep_fn_defined_on_three_suffixes_witness :
  rep_fn (CollapsedFiles.mk "out" true) "fasta" = Ok "out.5merge.collapsed.rep.fasta"
  /\ rep_fn (CollapsedFiles.mk "out" false) "contigset.xml"
     = Ok "out.no5merge.collapsed.rep.contigset.xml"
  /\ rep_fn (CollapsedFiles.mk "out" false) "gff" = Raise AssertionError.
Proof.
  split; [|split].
  - apply (proj1 (rep_fn_defined_on_three_suffixes (CollapsedFiles.mk "out" true) "fasta")).
    by left.
  - apply (proj1 (rep_fn_defined_on_three_suffixes
                    (CollapsedFiles.mk "out" false) "contigset.xml")).
    by right; right.
  - apply (proj1 (proj2 (rep_fn_defined_on_three_suffixes
                           (CollapsedFiles.mk "out" false) "gff"))).
    intros [H|[H|H]]; discriminate.
Defined.

End RepFn.

(** ** The monad *)

Lemma bind_unfold {S A B} (m : St S A) (k : A -> St S B) (s : S) :
  (m ≫= k) s =
  match m s with
  | (Ok a, s') => k a s'
  | (Raise e, s') => (Raise e, s')
  end.
Proof. reflexivity. Qed.

Lemma bind_raise {S A B} (m : St S A) (k : A -> St S B) (s s' : S) (e : exn) :
  m s = (Raise e, s') -> (m ≫= k) s = (Raise e, s').
Proof. intros H. by rewrite bind_unfold, H. Qed.

Lemma bind_ok {S A B} (m : St S A) (k : A -> St S B) (s s' : S) (a : A) :
  m s = (Ok a, s') -> (m ≫= k) s = k a s'.
Proof. intros H. by rewrite bind_unfold, H. Qed.

Lemma bind_ok_inv {S A B} (m : St S A) (k : A -> St S B) (s s' : S) (b : B) :
  (m ≫= k) s = (Ok b, s') ->
  exists a s1, m s = (Ok a, s1) /\ k a s1 = (Ok b, s').
Proof.
  rewrite bind_unfold. destruct (m s) as [[a|e] s1]; [eauto|discriminate].
Qed.

(** ** What a computation adds to the journal *)

(** [m] adds a prefix of [l] to the journal, and the whole of [l] when it
    returns. *)
Definition journals {A} (m : M A) (l : list call) : Prop :=
  forall w r w', m w = (r, w') ->
    (exists l', l' `prefix_of` l /\ journal w' = journal w ++ l')
    /\ (forall a, r = Ok a -> journal w' = journal w ++ l).

Lemma journals_log (c : call) : journals (log c) [c].
Proof.
  intros w r w' [= <- <-]. cbn. split; [|done].
  exists [c]. done.
Qed.

Lemma journals_on_files {A} (f : F A) : journals (on_files f) [].
Proof.
  intros w r w'. unfold on_files. destruct (f (files w)) as [r0 fs].
  intros [= <- <-]. cbn. rewrite app_nil_r. split; [|done].
  exists []. by rewrite app_nil_r.
Qed.

Lemma journals_get_files : journals get_files [].
Proof.
  intros w r w' [= <- <-]. rewrite app_nil_r. split; [|done].
  exists []. by rewrite app_nil_r.
Qed.

Lemma journals_ret {A} (a : A) : journals (mret a) [].
Proof.
  intros w r w' [= <- <-]. rewrite app_nil_r. split; [|done].
  exists []. by rewrite app_nil_r.
Qed.

Lemma journals_raise {A} (e : exn) (l : list call) : journals (raise (A:=A) e) l.
Proof.
  intros w r w' [= <- <-]. split; [|done].
  exists []. split; [apply prefix_nil|by rewrite app_nil_r].
Qed.

Lemma journals_bind {A B} (m : M A) (k : A -> M B) (l1 l2 : list call) :
  journals m l1 -> (forall a, journals (k a) l2) ->
  journals (m ≫= k) (l1 ++ l2).
Proof.
  intros Hm Hk w r w'. rewrite bind_unfold.
  destruct (m w) as [[a|e] w1] eqn:Em.
  - destruct (Hm _ _ _ Em) as [_ Hw1]. specialize (Hw1 a eq_refl).
    intros Ek. destruct (Hk a _ _ _ Ek) as [(l' & Hpre & Hj) Hok].
    split.
    + exists (l1 ++ l'). split; [by apply prefix_app|].
      by rewrite Hj, Hw1, app_assoc.
    + intros b Hb. by rewrite (Hok b Hb), Hw1, app_assoc.
  - intros [= <- <-]. destruct (Hm _ _ _ Em) as [(l' & Hpre & Hj) _].
    split; [|done].
    exists l'. split; [|done]. by apply prefix_app_r.
Qed.

Lemma journals_lift_bind {A B} (r : result A) (k : A -> M B) (l : list call) :
  (forall a, r = Ok a -> journals (k a) l) ->
  journals (lift r ≫= k) l.
Proof.
  intros Hk w r' w'. rewrite bind_unfold. unfold lift.
  destruct r as [a|e].
  - apply (Hk a eq_refl).
  - intros [= <- <-]. split; [|done].
    exists []. split; [apply prefix_nil|by rewrite app_nil_r].
Qed.

Lemma journals_eq {A} (m : M A) (l l' : list call) :
  journals m l -> l = l' -> journals m l'.
Proof. by intros H <-. Qed.

(** ** The calls of a run *)

Section RunnerJournal.

Import CollapseIsoformsRunner.

Variable check_ids_unique : string -> F unit.
Variable name_to_len_dict : string -> F (gmap string Z).
Variable iter_gmap_sam :
  gmap string node -> string -> gmap string Z -> Q -> Q -> Stream.
Variable collapse_sam_records :
  list SamRecord -> Z -> Z -> bool -> bool -> Z ->
  result (list GffRecord * list GffRecord * list GroupRecord).
Variable collapse_fuzzy_junctions :
  string -> string -> string -> string -> bool -> Z -> F unit.
Variable ln : string -> string -> F unit.
Variable pick_rep : string -> string -> string -> string -> bool -> string -> F unit.

(** The calls of the collapsing stages of a run, in the order of the
    source. *)
Definition collapsing_calls (self : t) : list call :=
  let c := base self in
  [ CheckIdsUnique (isoform_filename self);
    BranchNew (isoform_filename self) (sam_filename self)
              (min_flnc_coverage self) (min_aln_coverage self)
              (min_aln_identity self);
    BranchRun (allow_extra_5exon self) (skip_5_exon_alt self)
              (CollapsedFiles.ignored_ids_txt_fn c)
              (CollapsedFiles.good_unfuzzy_gff_fn c)
              (CollapsedFiles.bad_unfuzzy_gff_fn c)
              (CollapsedFiles.unfuzzy_group_fn c) ]
  ++ (if 0 <? max_fuzzy_junction self then
        [ CollapseFuzzyJunctions
            (CollapsedFiles.good_unfuzzy_gff_fn c)
            (CollapsedFiles.unfuzzy_group_fn c)
            (CollapsedFiles.good_fuzzy_gff_fn c)
            (CollapsedFiles.fuzzy_group_fn c)
            (allow_extra_5exon self) (max_fuzzy_junction self);
          Ln (CollapsedFiles.good_fuzzy_gff_fn c) (CollapsedFiles.good_gff_fn c);
          Ln (CollapsedFiles.good_fuzzy_gff_fn c) (CollapsedFiles.gff_fn c);
          Ln (CollapsedFiles.fuzzy_group_fn c) (CollapsedFiles.group_fn c) ]
      else
        [ Ln (CollapsedFiles.good_unfuzzy_gff_fn c) (CollapsedFiles.good_gff_fn c);
          Ln (CollapsedFiles.good_unfuzzy_gff_fn c) (CollapsedFiles.gff_fn c);
          Ln (CollapsedFiles.unfuzzy_group_fn c) (CollapsedFiles.group_fn c) ]).

(** The call of the picker, when [rep_fn] accepts the suffix. *)
Definition picking_calls (self : t) : list call :=
  let c := base self in
  match CollapsedFiles.rep_fn c (suffix self) with
  | Ok output_filename =>
      [ PickRep (isoform_filename self) (CollapsedFiles.good_gff_fn c)
                (CollapsedFiles.group_fn c) output_filename
                (negb (allow_extra_5exon self)) (CollapsedFiles.bad_gff_fn c) ]
  | Raise _ => []
  end.

Lemma journals_validate_inputs (self : t) :
  journals (validate_inputs check_ids_unique self)
           [CheckIdsUnique (isoform_filename self)].
Proof.
  unfold validate_inputs.
  apply (journals_bind _ _ [] _ journals_get_files). intros fs.
  destruct (negb _); [apply journals_raise|].
  destruct (negb _); [apply journals_raise|].
  apply (journals_bind _ _ [_] [] (journals_log _)). intros _.
  apply journals_on_files.
Qed.

Lemma journals_branch_init (iso sam : string) (cov : Z) (c i : Q) :
  journals (Branch.init name_to_len_dict iso sam cov c i) [].
Proof.
  unfold Branch.init.
  apply (journals_bind _ _ [] [] (journals_on_files _)). intros d.
  apply journals_ret.
Qed.

Lemma journals_branch_run (b : Branch.t) (a s : bool) (tol : Z) (f1 f2 f3 f4 : string) :
  journals (Branch.run iter_gmap_sam collapse_sam_records b a s tol f1 f2 f3 f4) [].
Proof.
  unfold Branch.run. cbn zeta.
  apply (journals_bind _ _ [] [] (journals_on_files _)). intros _.
  apply (journals_bind _ _ [] [] journals_get_files). intros fs.
  destruct (Branch.run_stream _ _ _ _ _ _ _) as [st err].
  apply (journals_bind _ _ [] [] (journals_on_files _)). intros _.
  destruct err; [apply journals_raise|apply journals_ret].
Qed.

Lemma journals_link_outputs (self : t) (good_src group_src : string) :
  journals (link_outputs ln self good_src group_src)
    [ Ln good_src (CollapsedFiles.good_gff_fn (base self));
      Ln good_src (CollapsedFiles.gff_fn (base self));
      Ln group_src (CollapsedFiles.group_fn (base self)) ].
Proof.
  unfold link_outputs. cbn zeta.
  apply (journals_bind _ _ [_] [_; _] (journals_log _)). intros _.
  apply (journals_bind _ _ [] [_; _] (journals_on_files _)). intros _.
  apply (journals_bind _ _ [_] [_] (journals_log _)). intros _.
  apply (journals_bind _ _ [] [_] (journals_on_files _)). intros _.
  apply (journals_bind _ _ [_] [] (journals_log _)). intros _.
  apply journals_on_files.
Qed.

Lemma journals_run (self : t) :
  journals (run check_ids_unique name_to_len_dict iter_gmap_sam
                collapse_sam_records collapse_fuzzy_junctions ln pick_rep self)
           (collapsing_calls self ++ picking_calls self).
Proof.
  unfold run, collapsing_calls, shall_collapse_fuzzy_junctions.
  cbn zeta.
  eapply journals_eq.
  - eapply journals_bind; [apply journals_validate_inputs|intros _].
    eapply journals_bind; [apply journals_log|intros _].
    eapply journals_bind; [apply journals_branch_init|intros b].
    eapply journals_bind; [apply journals_log|intros _].
    eapply journals_bind; [apply journals_branch_run|intros _].
    eapply (journals_bind _ _
              (if 0 <? max_fuzzy_junction self then _ else _)).
    + destruct (0 <? max_fuzzy_junction self).
      * eapply journals_bind; [apply journals_log|intros _].
        eapply journals_bind; [apply journals_on_files|intros _].
        apply journals_link_outputs.
      * apply journals_link_outputs.
    + intros _. apply (journals_lift_bind _ _ (picking_calls self)).
      intros out Hout. unfold picking_calls. cbn zeta. rewrite Hout.
      apply (journals_bind _ _ [_] [] (journals_log _)). intros _.
      apply journals_on_files.
  - unfold picking_calls. cbn zeta.
    destruct (0 <? max_fuzzy_junction self); reflexivity.
Qed.

End RunnerJournal.

(** ** C9: validation comes first *)

Lemma first_duplicate_None (names : list string) :
  Collaborators.first_duplicate names = None <-> NoDup names.
Proof.
  induction names as [|n rest IH]; cbn.
  - split; [constructor|done].
  - destruct (bool_decide (n ∈ rest)) eqn:E.
    + apply bool_decide_eq_true in E. split; [done|].
      intros H. apply NoDup_cons in H as [H _]. done.
    + apply bool_decide_eq_false in E. rewrite IH.
      split; [by constructor|]. intros H. by apply NoDup_cons in H as [_ H].
Qed.

Section Validation.

Import CollapseIsoformsRunner.

Variable name_to_len_dict : string -> F (gmap string Z).
Variable iter_gmap_sam :
  gmap string node -> string -> gmap string Z -> Q -> Q -> Stream.
Variable collapse_sam_records :
  list SamRecord -> Z -> Z -> bool -> bool -> Z ->
  result (list GffRecord * list GffRecord * list GroupRecord).
Variable collapse_fuzzy_junctions :
  string -> string -> string -> string -> bool -> Z -> F unit.
Variable ln : string -> string -> F unit.
Variable pick_rep : string -> string -> string -> string -> bool -> string -> F unit.

(** C9.  [run] validates before anything else.  When the isoform file or
    the SAM file does not exist it raises [IOError]; when the isoform ids
    are not unique it raises too.  In each case the files are left as they
    were, and no call beyond the id check is made: no collapsing stage has
    run and no output exists. *)
Theorem validation_precedes_all_work (self : t) (w : world) :
  let go := run Collaborators.check_ids_unique name_to_len_dict iter_gmap_sam
                collapse_sam_records collapse_fuzzy_junctions ln pick_rep self in
  (op_exists (files w) (isoform_filename self) = false ->
     go w = (Raise (IOError ("Input isoforms file " +:+ isoform_filename self
                             +:+ " does not exist")), w))
  /\ (op_exists (files w) (isoform_filename self) = true ->
      op_exists (files w) (sam_filename self) = false ->
      go w = (Raise (IOError ("Input SAM file " +:+ sam_filename self
                              +:+ " does not exist")), w))
  /\ (forall seqs,
        op_exists (files w) (sam_filename self) = true ->
        resolve (files w) (isoform_filename self) = Some (Isoforms seqs) ->
        ~ NoDup (map fst seqs) ->
        exists n,
          go w = (Raise (NonUniqueIdsError n),
                  mkWorld (files w)
                          (journal w ++ [CheckIdsUnique (isoform_filename self)]))).
Proof.
  cbn zeta. unfold run. cbn zeta. split; [|split].
  - intros H. apply bind_raise. unfold validate_inputs.
    rewrite bind_unfold. cbn. by rewrite H.
  - intros H1 H2. apply bind_raise. unfold validate_inputs.
    rewrite bind_unfold. cbn. by rewrite H1, H2.
  - intros seqs Hsam Hiso Hdup.
    destruct (Collaborators.first_duplicate (map fst seqs)) as [n|] eqn:E;
      [|by apply first_duplicate_None in E].
    exists n. apply bind_raise. unfold validate_inputs.
    rewrite bind_unfold. cbn.
    unfold op_exists. rewrite Hiso. unfold op_exists in Hsam.
    destruct (resolve (files w) (sam_filename self)); [|discriminate]. cbn.
    rewrite bind_unfold. cbn.
    unfold on_files, Collaborators.check_ids_unique, Collaborators.read_isoforms.
    rewrite !bind_unfold. unfold read_file. cbn [files journal].
    rewrite Hiso. cbn. by rewrite E.
Qed.

End Validation.

(** ** Writers *)

(** The writer is open on [path]. *)
Definition open_on {T} (path : string) (w : option (Writer T)) : Prop :=
  exists buf, w = Some (mkWriter path buf).

Lemma open_writer_open_on {T} (fn : string) :
  fn <> "" -> open_on (T:=T) fn (open_writer fn).
Proof.
  intros H. unfold open_writer.
  apply String.eqb_neq in H. rewrite H. by exists [].
Qed.

Lemma put_record_open_on {T} (path : string) (w : option (Writer T)) (x : T) :
  open_on path w -> open_on path (put_record w x).
Proof. intros [buf ->]. by eexists. Qed.

Lemma put_records_open_on {T} (path : string) (xs : list T) (w : option (Writer T)) :
  open_on path w -> open_on path (put_records w xs).
Proof.
  revert w. induction xs as [|x xs IH]; intros w H; [done|].
  apply IH. by apply put_record_open_on.
Qed.

Lemma buffer_put_record {T} (path : string) (w : option (Writer T)) (x : T) :
  open_on path w -> buffer (put_record w x) = buffer w ++ [x].
Proof. by intros [buf ->]. Qed.

Lemma buffer_put_records {T} (path : string) (xs : list T) (w : option (Writer T)) :
  open_on path w -> buffer (put_records w xs) = buffer w ++ xs.
Proof.
  revert w. induction xs as [|x xs IH]; intros w H; cbn.
  - by rewrite app_nil_r.
  - change (buffer (put_records (put_record w x) xs) = buffer w ++ x :: xs).
    rewrite (IH _ (put_record_open_on _ _ x H)), (buffer_put_record path _ _ H).
    by rewrite <- app_assoc.
Qed.

(** The four writers are open on the four paths. *)
Definition writers_on (f1 f2 f3 f4 : string) (ws : Writers) : Prop :=
  open_on f1 (ignored_ids_writer ws) /\ open_on f2 (good_gff_writer ws)
  /\ open_on f3 (bad_gff_writer ws) /\ open_on f4 (group_writer ws).

Lemma flush_writers_on (f1 f2 f3 f4 : string) (ws : Writers) (fs : gmap string node) :
  writers_on f1 f2 f3 f4 ws ->
  flush_writers ws fs =
    (Ok tt,
     <[f4 := Regular (GroupFile (buffer (group_writer ws)))]>
       (<[f3 := Regular (GffFile (buffer (bad_gff_writer ws)))]>
          (<[f2 := Regular (GffFile (buffer (good_gff_writer ws)))]>
             (<[f1 := Regular (IdList (buffer (ignored_ids_writer ws)))]> fs)))).
Proof.
  destruct ws as [w1 w2 w3 w4]. unfold writers_on, open_on. cbn.
  intros ([b1 ->] & [b2 ->] & [b3 ->] & [b4 ->]). reflexivity.
Qed.

Lemma buffer_open_writer {T} (fn : string) :
  fn <> "" -> buffer (open_writer (T:=T) fn) = [].
Proof. intros H%String.eqb_neq. unfold open_writer. by rewrite H. Qed.

(** The files right after [Branch.run] has opened its four writers: an
    empty file at each of the four paths. *)
Definition opened (f1 f2 f3 f4 : string) (fs : gmap string node) : gmap string node :=
  <[f4 := Regular (GroupFile [])]>
    (<[f3 := Regular (GffFile [])]>
       (<[f2 := Regular (GffFile [])]>
          (<[f1 := Regular (IdList [])]> fs))).

(** Writing the four paths again leaves the last writes only. *)
Lemma insert_four_twice (f1 f2 f3 f4 : string) (a1 a2 a3 a4 b1 b2 b3 b4 : node)
    (fs : gmap string node) :
  <[f4 := b4]> (<[f3 := b3]> (<[f2 := b2]> (<[f1 := b1]>
    (<[f4 := a4]> (<[f3 := a3]> (<[f2 := a2]> (<[f1 := a1]> fs)))))))
  = <[f4 := b4]> (<[f3 := b3]> (<[f2 := b2]> (<[f1 := b1]> fs))).
Proof.
  apply map_eq. intros i. rewrite !lookup_insert.
  repeat case_decide; done.
Qed.

(** ** The loops of [Branch.run] *)

Section BranchLoops.

Variable iter_gmap_sam :
  gmap string node -> string -> gmap string Z -> Q -> Q -> Stream.
Variable collapse_sam_records :
  list SamRecord -> Z -> Z -> bool -> bool -> Z ->
  result (list GffRecord * list GffRecord * list GroupRecord).
Variable self : Branch.t.
Variables allow_extra_5exon skip_5_exon_alt : bool.
Variable tolerate_end : Z.

Let run_values :=
  Branch.run_values collapse_sam_records self allow_extra_5exon
                    skip_5_exon_alt tolerate_end.
Let run_events :=
  Branch.run_events collapse_sam_records self allow_extra_5exon
                    skip_5_exon_alt tolerate_end.

Lemma run_values_writers_on (f1 f2 f3 f4 : string) (values : list (list SamRecord))
    (st st' : Branch.loop_state) (err : option exn) :
  writers_on f1 f2 f3 f4 (Branch.writers st) ->
  run_values values st = (st', err) ->
  writers_on f1 f2 f3 f4 (Branch.writers st').
Proof.
  revert st. induction values as [|records rest IH]; intros st Hon; cbn.
  - by intros [= <- <-].
  - destruct (0 <? Z.of_nat (length records)); [|by apply IH].
    destruct (collapse_sam_records _ _ _ _ _ _) as [[[good bad] group]|e].
    + apply IH. destruct Hon as (H1 & H2 & H3 & H4). cbn.
      repeat split; [done|by apply put_records_open_on..].
    + by intros [= <- <-].
Qed.

Lemma run_events_writers_on (f1 f2 f3 f4 : string) (evs : list sam_event)
    (st st' : Branch.loop_state) (err : option exn) :
  writers_on f1 f2 f3 f4 (Branch.writers st) ->
  run_events evs st = (st', err) ->
  writers_on f1 f2 f3 f4 (Branch.writers st').
Proof.
  revert st. induction evs as [|[qid|recs] rest IH]; intros st Hon; cbn.
  - by intros [= <- <-].
  - apply IH. destruct Hon as (H1 & H2 & H3 & H4). cbn.
    repeat split; [by apply put_record_open_on|done..].
  - destruct (Branch.run_values _ _ _ _ _ _ st) as [st1 [e|]] eqn:E.
    + intros [= <- <-]. by eapply run_values_writers_on.
    + apply IH. by eapply run_values_writers_on.
Qed.

(** [Branch.run] leaves the journal alone and writes the four files, the
    buffers the loops ended with; the generator read the files as they
    were once the writers were open; the run returns exactly when the
    loops ended without an exception. *)
Lemma branch_run_files (f1 f2 f3 f4 : string) (w w' : world) (r : result unit) :
  f1 <> "" -> f2 <> "" -> f3 <> "" -> f4 <> "" ->
  Branch.run iter_gmap_sam collapse_sam_records self allow_extra_5exon
             skip_5_exon_alt tolerate_end f1 f2 f3 f4 w = (r, w') ->
  exists st err,
    Branch.run_stream collapse_sam_records self allow_extra_5exon
      skip_5_exon_alt tolerate_end
      (iter_gmap_sam (opened f1 f2 f3 f4 (files w)) (Branch.sam_filename self)
         (Branch.isoform_len_dict self) (Branch.min_aln_coverage self)
         (Branch.min_aln_identity self))
      (Branch.mkLoop 1 (mkWriters (open_writer f1) (open_writer f2)
                                  (open_writer f3) (open_writer f4)))
    = (st, err)
    /\ r = match err with Some e => Raise e | None => Ok tt end
    /\ journal w' = journal w
    /\ files w' =
       <[f4 := Regular (GroupFile (buffer (group_writer (Branch.writers st))))]>
         (<[f3 := Regular (GffFile (buffer (bad_gff_writer (Branch.writers st))))]>
            (<[f2 := Regular (GffFile (buffer (good_gff_writer (Branch.writers st))))]>
               (<[f1 := Regular (IdList (buffer (ignored_ids_writer (Branch.writers st))))]>
                  (files w)))).
Proof.
  intros N1 N2 N3 N4. unfold Branch.run. cbn zeta.
  rewrite bind_unfold. unfold on_files at 1.
  rewrite (flush_writers_on f1 f2 f3 f4)
    by (repeat split; by apply open_writer_open_on).
  cbn [ignored_ids_writer good_gff_writer bad_gff_writer group_writer].
  rewrite !buffer_open_writer by done. fold (opened f1 f2 f3 f4 (files w)).
  rewrite bind_unfold. cbn [get_files files journal].
  destruct (Branch.run_stream _ _ _ _ _ _ _) as [st err] eqn:E.
  intros H. exists st, err. split; [done|].
  assert (Hon : writers_on f1 f2 f3 f4 (Branch.writers st)).
  { unfold Branch.run_stream in E.
    destruct (Branch.run_events _ _ _ _ _ _ _) as [st1 e1] eqn:E1.
    assert (writers_on f1 f2 f3 f4 (Branch.writers st1)) as Hon1.
    { eapply run_events_writers_on; [|exact E1]. cbn.
      repeat split; by apply open_writer_open_on. }
    destruct e1; by injection E as <- _. }
  rewrite bind_unfold in H. unfold on_files in H. cbn [files journal] in H.
  rewrite (flush_writers_on _ _ _ _ _ _ Hon) in H.
  unfold opened in H. rewrite insert_four_twice in H.
  destruct err; injection H as <- <-; done.
Qed.

End BranchLoops.

(** ** File names *)

Lemma append_nonempty (a b : string) : b <> "" -> a +:+ b <> "".
Proof. intros Hb H. by apply append_empty_inv in H as [_ H]. Qed.

(** The names of one [CollapsedFiles] object share a stem and differ in
    their endings. *)
Ltac unfold_names :=
  unfold CollapsedFiles.good_fuzzy_gff_fn, CollapsedFiles.good_unfuzzy_gff_fn,
    CollapsedFiles.bad_fuzzy_gff_fn, CollapsedFiles.bad_unfuzzy_gff_fn,
    CollapsedFiles.fuzzy_group_fn, CollapsedFiles.unfuzzy_group_fn,
    CollapsedFiles.gff_fn, CollapsedFiles.good_gff_fn, CollapsedFiles.bad_gff_fn,
    CollapsedFiles.group_fn, CollapsedFiles.ignored_ids_txt_fn in *;
  rewrite ?append_assoc in *.

Ltac names_ne :=
  unfold_names;
  first
    [ apply append_ne; let H := fresh in intros H; vm_compute in H; discriminate H
    | apply append_nonempty; let H := fresh in intros H; vm_compute in H; discriminate H ].

Lemma rep_fn_ok (c : CollapsedFiles.t) (suffix out : string) :
  CollapsedFiles.rep_fn c suffix = Ok out ->
  exists ending,
    out = CollapsedFiles._collapsed_prefix c +:+ ending
    /\ (ending = ".rep.fasta" \/ ending = ".rep.fastq"
        \/ ending = ".rep.contigset.xml").
Proof.
  unfold CollapsedFiles.rep_fn. case_bool_decide as Hs; [|discriminate].
  intros [= <-]. exists (".rep." +:+ suffix). split; [done|].
  unfold CollapsedFiles.rep_suffixes in Hs.
  rewrite !elem_of_cons, elem_of_nil in Hs.
  destruct Hs as [->|[->|[->|[]]]]; auto.
Qed.

Section Names.

Variable c : CollapsedFiles.t.

Lemma good_gff_fn_ne_gff_fn : CollapsedFiles.good_gff_fn c <> CollapsedFiles.gff_fn c.
Proof. names_ne. Qed.

Lemma good_gff_fn_ne_group_fn : CollapsedFiles.good_gff_fn c <> CollapsedFiles.group_fn c.
Proof. names_ne. Qed.

Lemma gff_fn_ne_group_fn : CollapsedFiles.gff_fn c <> CollapsedFiles.group_fn c.
Proof. names_ne. Qed.

(** No final name, and no name of a representative file, is the name of an
    intermediate file of the collapsing stages. *)
Definition intermediate_names : list string :=
  [ CollapsedFiles.ignored_ids_txt_fn c;
    CollapsedFiles.good_unfuzzy_gff_fn c; CollapsedFiles.bad_unfuzzy_gff_fn c;
    CollapsedFiles.unfuzzy_group_fn c;
    CollapsedFiles.good_fuzzy_gff_fn c; CollapsedFiles.bad_fuzzy_gff_fn c;
    CollapsedFiles.fuzzy_group_fn c ].

Definition final_names : list string :=
  [ CollapsedFiles.good_gff_fn c; CollapsedFiles.gff_fn c;
    CollapsedFiles.group_fn c; CollapsedFiles.bad_gff_fn c ].

Lemma final_not_intermediate (a b : string) :
  a ∈ final_names -> b ∈ intermediate_names -> a <> b.
Proof.
  unfold final_names, intermediate_names.
  rewrite !elem_of_cons, !elem_of_nil.
  intros [->|[->|[->|[->|[]]]]] [->|[->|[->|[->|[->|[->|[->|[]]]]]]]]; names_ne.
Qed.

Lemma rep_not_final (suffix out a : string) :
  CollapsedFiles.rep_fn c suffix = Ok out -> a ∈ final_names -> out <> a.
Proof.
  intros (e & -> & He)%rep_fn_ok. unfold final_names.
  rewrite !elem_of_cons, !elem_of_nil.
  destruct He as [->|[->| ->]]; intros [->|[->|[->|[->|[]]]]]; names_ne.
Qed.

Lemma rep_not_intermediate (suffix out a : string) :
  CollapsedFiles.rep_fn c suffix = Ok out -> a ∈ intermediate_names -> out <> a.
Proof.
  intros (e & -> & He)%rep_fn_ok. unfold intermediate_names.
  rewrite !elem_of_cons, !elem_of_nil.
  destruct He as [->|[->| ->]];
    intros [->|[->|[->|[->|[->|[->|[->|[]]]]]]]]; names_ne.
Qed.

Lemma intermediate_nonempty (a : string) : a ∈ intermediate_names -> a <> "".
Proof.
  unfold intermediate_names. rewrite !elem_of_cons, !elem_of_nil.
  intros [->|[->|[->|[->|[->|[->|[->|[]]]]]]]]; names_ne.
Qed.

End Names.

(** ** The collaborators' effect on files *)

Lemma log_inv (c : call) (w w' : world) (r : result unit) :
  log c w = (r, w') -> w' = mkWorld (files w) (journal w ++ [c]).
Proof. by intros [= _ <-]. Qed.

Lemma link_outputs_files (self : CollapseIsoformsRunner.t) (good_src group_src : string)
    (w : world) :
  let c := CollapseIsoformsRunner.base self in
  exists j,
    CollapseIsoformsRunner.link_outputs Collaborators.ln self good_src group_src w =
      (Ok tt,
       mkWorld
         (<[CollapsedFiles.group_fn c := Symlink group_src]>
            (<[CollapsedFiles.gff_fn c := Symlink good_src]>
               (<[CollapsedFiles.good_gff_fn c := Symlink good_src]> (files w))))
         j).
Proof. cbn zeta. eexists. reflexivity. Qed.

Lemma pick_rep_files (discrepancy : GffRecord -> string -> Z)
    (iso gff grp out : string) (p : bool) (bad : string)
    (fs fs' : gmap string node) (r : result unit) :
  Collaborators.pick_rep discrepancy iso gff grp out p bad fs = (r, fs') ->
  match r with
  | Ok _ => exists reps, fs' = <[out := Regular (RepFile reps)]> fs
  | Raise _ => fs' = fs
  end.
Proof.
  unfold Collaborators.pick_rep, Collaborators.read_isoforms, read_file, write_file.
  rewrite !bind_unfold.
  destruct (resolve fs iso) as [[]|]; cbn; try by intros [= <- <-].
  rewrite !bind_unfold.
  destruct (resolve fs gff) as [cg|]; cbn; [|by intros [= <- <-]].
  rewrite !bind_unfold.
  destruct (resolve fs grp) as [cr|]; cbn; [|by intros [= <- <-]].
  destruct cg; try by intros [= <- <-].
  destruct cr; try by intros [= <- <-].
  rewrite bind_unfold. unfold lift.
  destruct (Collaborators.pick_all _ _ _ _ _) as [reps|e];
    intros [= <- <-]; eauto.
Qed.

Lemma resolve_regular (fs : gmap string node) (path : string) (c : content) :
  fs !! path = Some (Regular c) -> resolve fs path = Some c.
Proof. intros H. unfold resolve, link_depth. cbn [resolve_n]. by rewrite H. Qed.

Lemma resolve_symlink (fs : gmap string node) (path target : string) (c : content) :
  fs !! path = Some (Symlink target) -> fs !! target = Some (Regular c) ->
  resolve fs path = Some c.
Proof.
  intros H1 H2. unfold resolve, link_depth.
  change (resolve_n 40 fs path)
    with (match fs !! path with
          | None => None
          | Some (Regular c) => Some c
          | Some (Symlink target) => resolve_n 39 fs target
          end).
  rewrite H1.
  change (resolve_n 39 fs target)
    with (match fs !! target with
          | None => None
          | Some (Regular c) => Some c
          | Some (Symlink target) => resolve_n 38 fs target
          end).
  by rewrite H2.
Qed.

(** ** C1: the fuzzy-junction stage is gated by [max_fuzzy_junction] *)

Section FuzzyGate.

Import CollapseIsoformsRunner.

Variable check_ids_unique : string -> F unit.
Variable name_to_len_dict : string -> F (gmap string Z).
Variable iter_gmap_sam :
  gmap string node -> string -> gmap string Z -> Q -> Q -> Stream.
Variable collapse_sam_records :
  list SamRecord -> Z -> Z -> bool -> bool -> Z ->
  result (list GffRecord * list GffRecord * list GroupRecord).
Variable collapse_fuzzy_junctions :
  string -> string -> string -> string -> bool -> Z -> F unit.
Variable discrepancy : GffRecord -> string -> Z.

Let go :=
  run check_ids_unique name_to_len_dict iter_gmap_sam collapse_sam_records
      collapse_fuzzy_junctions Collaborators.ln (Collaborators.pick_rep discrepancy).

(** A run that returns went through the stages; the files after the links
    are those before them with the three links added, and the picker then
    wrote the representative file. *)
Lemma run_ok_files (self : t) (fs : gmap string node) (w' : world) :
  go self (mkWorld fs []) = (Ok tt, w') ->
  let c := base self in
  exists (st : Branch.loop_state) (fs0 fs1 : gmap string node)
         (reps : list RepRecord) (out : string),
    CollapsedFiles.rep_fn c (suffix self) = Ok out
    /\ fs1 =
       <[CollapsedFiles.unfuzzy_group_fn c :=
           Regular (GroupFile (buffer (group_writer (Branch.writers st))))]>
         (<[CollapsedFiles.bad_unfuzzy_gff_fn c :=
              Regular (GffFile (buffer (bad_gff_writer (Branch.writers st))))]>
            (<[CollapsedFiles.good_unfuzzy_gff_fn c :=
                 Regular (GffFile (buffer (good_gff_writer (Branch.writers st))))]>
               (<[CollapsedFiles.ignored_ids_txt_fn c :=
                    Regular (IdList (buffer (ignored_ids_writer (Branch.writers st))))]>
                  fs0)))
    /\ files w' =
       <[out := Regular (RepFile reps)]>
         (<[CollapsedFiles.group_fn c :=
              Symlink (if 0 <? max_fuzzy_junction self
                       then CollapsedFiles.fuzzy_group_fn c
                       else CollapsedFiles.unfuzzy_group_fn c)]>
            (<[CollapsedFiles.gff_fn c :=
                 Symlink (if 0 <? max_fuzzy_junction self
                          then CollapsedFiles.good_fuzzy_gff_fn c
                          else CollapsedFiles.good_unfuzzy_gff_fn c)]>
               (<[CollapsedFiles.good_gff_fn c :=
                    Symlink (if 0 <? max_fuzzy_junction self
                             then CollapsedFiles.good_fuzzy_gff_fn c
                             else CollapsedFiles.good_unfuzzy_gff_fn c)]>
                  (if 0 <? max_fuzzy_junction self
                   then snd (collapse_fuzzy_junctions
                               (CollapsedFiles.good_unfuzzy_gff_fn c)
                               (CollapsedFiles.unfuzzy_group_fn c)
                               (CollapsedFiles.good_fuzzy_gff_fn c)
                               (CollapsedFiles.fuzzy_group_fn c)
                               (allow_extra_5exon self)
                               (max_fuzzy_junction self) fs1)
                   else fs1)))).
Proof.
  unfold go, run. cbn zeta. intros H.
  apply bind_ok_inv in H as (? & w1 & _ & H).
  apply bind_ok_inv in H as (? & w2 & _ & H).
  apply bind_ok_inv in H as (b & w3 & _ & H).
  apply bind_ok_inv in H as (? & w4 & Hlog & H).
  apply log_inv in Hlog as ->.
  apply bind_ok_inv in H as (? & w5 & Hrun & H).
  apply branch_run_files in Hrun as (st & err & _ & _ & _ & Hfiles);
    [|apply (intermediate_nonempty (base self)); unfold intermediate_names;
      rewrite !elem_of_cons; auto 10..].
  cbn [files] in Hfiles.
  apply bind_ok_inv in H as (? & w6 & Hlink & H).
  apply bind_ok_inv in H as (out & w7 & Hout & H).
  unfold lift in Hout.
  destruct (CollapsedFiles.rep_fn _ _) as [out'|] eqn:Erep; [|discriminate].
  injection Hout as -> ->.
  apply bind_ok_inv in H as (? & w8 & Hlog & H).
  apply log_inv in Hlog as ->. unfold on_files in H. cbn [files journal] in H.
  destruct (Collaborators.pick_rep _ _ _ _ _ _ _ _) as [r fs'] eqn:Epick.
  injection H as -> <-.
  apply pick_rep_files in Epick as [reps ->].
  exists st, (files w3), (files w5), reps, out.
  split; [done|]. split; [done|]. cbn [files]. f_equal.
  unfold shall_collapse_fuzzy_junctions in Hlink.
  destruct (0 <? max_fuzzy_junction self).
  - apply bind_ok_inv in Hlink as (? & w9 & Hlog & Hlink).
    apply log_inv in Hlog as ->.
    apply bind_ok_inv in Hlink as (? & w10 & Hfz & Hlink).
    unfold on_files in Hfz. cbn [files journal] in Hfz.
    destruct (collapse_fuzzy_junctions _ _ _ _ _ _ _) as [rf fsf].
    injection Hfz as _ <-.
    destruct (link_outputs_files self (CollapsedFiles.good_fuzzy_gff_fn (base self))
                (CollapsedFiles.fuzzy_group_fn (base self))
                (mkWorld fsf (journal w5 ++
                   [CollapseFuzzyJunctions
                      (CollapsedFiles.good_unfuzzy_gff_fn (base self))
                      (CollapsedFiles.unfuzzy_group_fn (base self))
                      (CollapsedFiles.good_fuzzy_gff_fn (base self))
                      (CollapsedFiles.fuzzy_group_fn (base self))
                      (allow_extra_5exon self) (max_fuzzy_junction self)])))
      as [j Hj].
    rewrite Hj in Hlink. apply (f_equal snd) in Hlink. cbn [snd] in Hlink.
    by subst w7.
  - destruct (link_outputs_files self (CollapsedFiles.good_unfuzzy_gff_fn (base self))
                (CollapsedFiles.unfuzzy_group_fn (base self)) w5) as [j Hj].
    rewrite Hj in Hlink. apply (f_equal snd) in Hlink. cbn [snd] in Hlink.
    by subst w7.
Qed.

Ltac lookup_names :=
  repeat (rewrite lookup_insert_ne by names_ne); rewrite lookup_insert_eq.

(** C1.  A run that returns with [max_fuzzy_junction <= 0] never called
    [collapse_fuzzy_junctions]; its final good GFF, GFF and group files are
    links to the files of the unfuzzy stage and read as those files do,
    record for record.  With [max_fuzzy_junction > 0] the run called
    [collapse_fuzzy_junctions] on the good unfuzzy GFF and the unfuzzy
    groups, and the final files are links to the fuzzy files. *)
Theorem fuzzy_stage_is_gated (self : t) (fs : gmap string node) (w' : world) :
  go self (mkWorld fs []) = (Ok tt, w') ->
  let c := base self in
  (max_fuzzy_junction self <= 0 ->
     (forall a b c' d e f, CollapseFuzzyJunctions a b c' d e f ∉ journal w')
     /\ files w' !! CollapsedFiles.good_gff_fn c
        = Some (Symlink (CollapsedFiles.good_unfuzzy_gff_fn c))
     /\ files w' !! CollapsedFiles.gff_fn c
        = Some (Symlink (CollapsedFiles.good_unfuzzy_gff_fn c))
     /\ files w' !! CollapsedFiles.group_fn c
        = Some (Symlink (CollapsedFiles.unfuzzy_group_fn c))
     /\ exists good groups,
          resolve (files w') (CollapsedFiles.good_unfuzzy_gff_fn c) = Some (GffFile good)
          /\ resolve (files w') (CollapsedFiles.good_gff_fn c) = Some (GffFile good)
          /\ resolve (files w') (CollapsedFiles.gff_fn c) = Some (GffFile good)
          /\ resolve (files w') (CollapsedFiles.unfuzzy_group_fn c)
             = Some (GroupFile groups)
          /\ resolve (files w') (CollapsedFiles.group_fn c) = Some (GroupFile groups))
  /\ (0 < max_fuzzy_junction self ->
        CollapseFuzzyJunctions
          (CollapsedFiles.good_unfuzzy_gff_fn c) (CollapsedFiles.unfuzzy_group_fn c)
          (CollapsedFiles.good_fuzzy_gff_fn c) (CollapsedFiles.fuzzy_group_fn c)
          (allow_extra_5exon self) (max_fuzzy_junction self) ∈ journal w'
        /\ files w' !! CollapsedFiles.good_gff_fn c
           = Some (Symlink (CollapsedFiles.good_fuzzy_gff_fn c))
        /\ files w' !! CollapsedFiles.gff_fn c
           = Some (Symlink (CollapsedFiles.good_fuzzy_gff_fn c))
        /\ files w' !! CollapsedFiles.group_fn c
           = Some (Symlink (CollapsedFiles.fuzzy_group_fn c))).
Proof.
  intros H. cbn zeta.
  pose proof (proj2 (journals_run _ _ _ _ _ _ _ self _ _ _ H) tt eq_refl) as Hj.
  cbn [journal app] in Hj.
  destruct (run_ok_files self fs w' H)
    as (st & fs0 & fs1 & reps & out & Hout & Hfs1 & Hfiles).
  cbn zeta in Hfiles.
  unfold collapsing_calls, picking_calls in Hj. cbn zeta in Hj. rewrite Hout in Hj.
  apply rep_fn_ok in Hout as (ending & -> & Hending).
  split.
  - intros Hle. apply Z.ltb_ge in Hle. rewrite Hle in Hfiles, Hj.
    split.
    { intros a b c' d e f. rewrite Hj. cbn [app].
      rewrite !elem_of_cons, elem_of_nil. intros Hin.
      repeat (destruct Hin as [Hin|Hin]; [discriminate|]). done. }
    assert (Hgood : files w' !! CollapsedFiles.good_gff_fn (base self)
                    = Some (Symlink (CollapsedFiles.good_unfuzzy_gff_fn (base self)))).
    { rewrite Hfiles. destruct Hending as [->|[->| ->]]; by lookup_names. }
    assert (Hgff : files w' !! CollapsedFiles.gff_fn (base self)
                   = Some (Symlink (CollapsedFiles.good_unfuzzy_gff_fn (base self)))).
    { rewrite Hfiles. destruct Hending as [->|[->| ->]]; by lookup_names. }
    assert (Hgroup : files w' !! CollapsedFiles.group_fn (base self)
                     = Some (Symlink (CollapsedFiles.unfuzzy_group_fn (base self)))).
    { rewrite Hfiles. destruct Hending as [->|[->| ->]]; by lookup_names. }
    assert (Hug : files w' !! CollapsedFiles.unfuzzy_group_fn (base self)
                  = Some (Regular (GroupFile (buffer (group_writer (Branch.writers st)))))).
    { rewrite Hfiles, Hfs1. destruct Hending as [->|[->| ->]]; by lookup_names. }
    assert (Hgu : files w' !! CollapsedFiles.good_unfuzzy_gff_fn (base self)
                  = Some (Regular (GffFile (buffer (good_gff_writer (Branch.writers st)))))).
    { rewrite Hfiles, Hfs1. destruct Hending as [->|[->| ->]]; by lookup_names. }
    do 3 (split; [done|]).
    exists (buffer (good_gff_writer (Branch.writers st))),
           (buffer (group_writer (Branch.writers st))).
    split; [by apply resolve_regular|].
    split; [by eapply resolve_symlink|].
    split; [by eapply resolve_symlink|].
    split; [by apply resolve_regular|by eapply resolve_symlink].
  - intros Hlt. apply Z.ltb_lt in Hlt. rewrite Hlt in Hfiles, Hj.
    split.
    { rewrite Hj. cbn [app]. rewrite !elem_of_cons. auto 10. }
    rewrite Hfiles.
    split; [|split]; destruct Hending as [->|[->| ->]]; by lookup_names.
Qed.

End FuzzyGate.

(** ** The representative picker *)

Section PickBest.

Import Collaborators.

Variable score : string -> Z.

(** [a] is at least as good as [b]: the order the picker minimises. *)
Definition no_worse (a b : string) : Prop :=
  score a < score b \/ (score a = score b /\ String.le a b).

Lemma no_worse_refl (a : string) : no_worse a a.
Proof. right. split; [done|]. reflexivity. Qed.

Lemma no_worse_trans (a b c : string) : no_worse a b -> no_worse b c -> no_worse a c.
Proof.
  intros [H1|[H1 L1]] [H2|[H2 L2]]; [left; lia..|].
  right. split; [lia|]. by transitivity b.
Qed.

Lemma no_worse_antisym (a b : string) : no_worse a b -> no_worse b a -> a = b.
Proof.
  intros [H1|[H1 L1]] [H2|[H2 L2]]; [lia..|].
  by apply (anti_symm String.le).
Qed.

Lemma better_no_worse (a b : string) : better score a b = true -> no_worse a b.
Proof.
  unfold better. intros [H|[H1 H2]%andb_true_iff]%orb_true_iff.
  - left. by apply Z.ltb_lt.
  - right. split; [by apply Z.eqb_eq|by apply ltb_le].
Qed.

Lemma not_better_no_worse (a b : string) : better score a b = false -> no_worse b a.
Proof.
  unfold better. intros [H1 H2]%orb_false_iff. apply Z.ltb_ge in H1.
  destruct (Z.eqb_spec (score a) (score b)) as [E|E]; cbn in H2.
  - right. split; [done|]. by apply ltb_false_le.
  - left. lia.
Qed.

Lemma pick_best_cons (first x : string) (rest : list string) :
  pick_best score first (x :: rest)
  = pick_best score (if better score x first then x else first) rest.
Proof. reflexivity. Qed.

Lemma pick_best_elem (first : string) (rest : list string) :
  pick_best score first rest ∈ first :: rest.
Proof.
  revert first. induction rest as [|x rest IH]; intros first.
  - apply list_elem_of_here.
  - rewrite pick_best_cons.
    specialize (IH (if better score x first then x else first)).
    apply elem_of_cons in IH as [->|IH].
    + destruct (better score x first); [right; left|left].
    + right. by right.
Qed.

Lemma pick_best_no_worse (first : string) (rest : list string) (x : string) :
  x ∈ first :: rest -> no_worse (pick_best score first rest) x.
Proof.
  revert first x. induction rest as [|y rest IH]; intros first x.
  - intros ->%list_elem_of_singleton. apply no_worse_refl.
  - intros Hx. rewrite pick_best_cons.
    set (best := if better score y first then y else first).
    assert (no_worse best first /\ no_worse best y) as [Hf Hy].
    { unfold best. destruct (better score y first) eqn:E.
      - split; [by apply better_no_worse|apply no_worse_refl].
      - split; [apply no_worse_refl|by apply not_better_no_worse]. }
    assert (no_worse (pick_best score best rest) best) as Hb
      by (apply IH; left).
    apply elem_of_cons in Hx as [->|Hx]; [by eapply no_worse_trans|].
    apply elem_of_cons in Hx as [->|Hx]; [by eapply no_worse_trans|].
    apply IH. by right.
Qed.

(** The representative does not depend on the order of the members. *)
Lemma pick_best_perm (f1 f2 : string) (r1 r2 : list string) :
  f1 :: r1 ≡ₚ f2 :: r2 -> pick_best score f1 r1 = pick_best score f2 r2.
Proof.
  intros Hp. apply no_worse_antisym.
  - apply pick_best_no_worse. rewrite Hp. apply pick_best_elem.
  - apply pick_best_no_worse. rewrite <- Hp. apply pick_best_elem.
Qed.

Lemma pick_rep_group_empty (g : GroupRecord) :
  group_members g = [] <->
  pick_rep_group score g
  = Raise (EmptyGroupError (cuff (group_name g)) (isoform (group_name g))).
Proof.
  unfold pick_rep_group. destruct (group_members g); split; done.
Qed.

Lemma pick_rep_group_ok (g : GroupRecord) :
  group_members g <> [] ->
  exists q, pick_rep_group score g = Ok q
            /\ q ∈ group_members g
            /\ forall x, x ∈ group_members g -> no_worse q x.
Proof.
  unfold pick_rep_group. destruct (group_members g) as [|first rest]; [done|].
  intros _. eexists. split; [done|].
  split; [apply pick_best_elem|apply pick_best_no_worse].
Qed.

Lemma pick_rep_group_perm (g1 g2 : GroupRecord) :
  group_name g1 = group_name g2 ->
  group_members g1 ≡ₚ group_members g2 ->
  pick_rep_group score g1 = pick_rep_group score g2.
Proof.
  unfold pick_rep_group. intros -> Hp.
  destruct (group_members g1) as [|f1 r1], (group_members g2) as [|f2 r2].
  - done.
  - by apply Permutation_nil_l in Hp.
  - by apply Permutation_nil_r in Hp.
  - f_equal. by apply pick_best_perm.
Qed.

End PickBest.

(** ** What the runner calls *)

Section RunnerCalls.

Import CollapseIsoformsRunner.

Variable check_ids_unique : string -> F unit.
Variable name_to_len_dict : string -> F (gmap string Z).
Variable iter_gmap_sam :
  gmap string node -> string -> gmap string Z -> Q -> Q -> Stream.
Variable collapse_sam_records :
  list SamRecord -> Z -> Z -> bool -> bool -> Z ->
  result (list GffRecord * list GffRecord * list GroupRecord).
Variable collapse_fuzzy_junctions :
  string -> string -> string -> string -> bool -> Z -> F unit.
Variable ln : string -> string -> F unit.
Variable pick_rep : string -> string -> string -> string -> bool -> string -> F unit.

Let go :=
  run check_ids_unique name_to_len_dict iter_gmap_sam collapse_sam_records
      collapse_fuzzy_junctions ln pick_rep.

(** Every call of a run, returned or not, is one of the expected calls. *)
Lemma run_calls_expected (self : t) (fs : gmap string node) (r : result unit)
    (w' : world) (c : call) :
  go self (mkWorld fs []) = (r, w') ->
  c ∈ journal w' -> c ∈ collapsing_calls self ++ picking_calls self.
Proof.
  intros H Hc.
  destruct (proj1 (journals_run _ _ _ _ _ _ _ self _ _ _ H)) as (l' & [k Hk] & Hj).
  cbn [journal app] in Hj. rewrite Hk. rewrite Hj in Hc.
  apply elem_of_app. by left.
Qed.

Lemma pick_rep_call_inv (self : t) (i g gr o : string) (p : bool) (b : string) :
  PickRep i g gr o p b ∈ collapsing_calls self ++ picking_calls self ->
  i = isoform_filename self
  /\ g = CollapsedFiles.good_gff_fn (base self)
  /\ gr = CollapsedFiles.group_fn (base self)
  /\ CollapsedFiles.rep_fn (base self) (suffix self) = Ok o
  /\ p = negb (allow_extra_5exon self)
  /\ b = CollapsedFiles.bad_gff_fn (base self).
Proof.
  unfold collapsing_calls, picking_calls. cbn zeta.
  rewrite elem_of_app. intros [Hin|Hin].
  - exfalso. revert Hin. cbn [app].
    destruct (0 <? max_fuzzy_junction self); cbn [app];
      rewrite !elem_of_cons, elem_of_nil; intros Hin;
      repeat (destruct Hin as [Hin|Hin]; [discriminate|]); done.
  - destruct (CollapsedFiles.rep_fn _ _) as [out|]; [|by apply elem_of_nil in Hin].
    apply list_elem_of_singleton in Hin. by injection Hin as -> -> -> -> -> ->.
Qed.

Lemma ln_call_inv (self : t) (src dst : string) :
  Ln src dst ∈ collapsing_calls self ++ picking_calls self ->
  src ∈ intermediate_names (base self) /\ dst ∈ final_names (base self).
Proof.
  unfold collapsing_calls, picking_calls, intermediate_names, final_names. cbn zeta.
  rewrite elem_of_app. intros [Hin|Hin].
  - revert Hin. cbn [app].
    destruct (0 <? max_fuzzy_junction self); cbn [app];
      rewrite !elem_of_cons, !elem_of_nil; intros Hin;
      repeat (destruct Hin as [Hin|Hin];
              [try discriminate; injection Hin as -> ->; auto 10|]); done.
  - destruct (CollapsedFiles.rep_fn _ _) as [out|]; [|by apply elem_of_nil in Hin].
    apply list_elem_of_singleton in Hin. discriminate.
Qed.

End RunnerCalls.

(** ** The calls of the collapsing engine *)

(** The record lists of a stream on which [Branch.run] calls the engine:
    the non-empty values of the yielded dicts, in arrival order. *)
Definition nonempty (values : list (list SamRecord)) : list (list SamRecord) :=
  List.filter (fun records => 0 <? Z.of_nat (length records)) values.

Fixpoint nonempty_lists (evs : list sam_event) : list (list SamRecord) :=
  match evs with
  | [] => []
  | Ignore _ :: rest => nonempty_lists rest
  | Yield recs :: rest => nonempty (itervalues recs) ++ nonempty_lists rest
  end.

(** The ids the generator writes to the ignored-ids writer. *)
Fixpoint ignored_of (evs : list sam_event) : list string :=
  match evs with
  | [] => []
  | Ignore qid :: rest => qid :: ignored_of rest
  | Yield _ :: rest => ignored_of rest
  end.

(** Record lists with the [cuff_index] of their call, counting from [from]. *)
Fixpoint number_calls (from : Z) (ls : list (list SamRecord))
    : list (Z * list SamRecord) :=
  match ls with
  | [] => []
  | l :: rest => (from, l) :: number_calls (from + 1) rest
  end.

Lemma number_calls_app (from : Z) (l1 l2 : list (list SamRecord)) :
  number_calls from (l1 ++ l2)
  = number_calls from l1 ++ number_calls (from + Z.of_nat (length l1)) l2.
Proof.
  revert from. induction l1 as [|l l1 IH]; intros from; cbn [number_calls app length].
  - by rewrite Z.add_0_r.
  - rewrite IH. do 3 f_equal. lia.
Qed.

Lemma number_calls_fst (from : Z) (ls : list (list SamRecord)) :
  map fst (number_calls from ls) = seqZ from (Z.of_nat (length ls)).
Proof.
  revert from. induction ls as [|l ls IH]; intros from; cbn [number_calls map length].
  - reflexivity.
  - rewrite IH, (seqZ_cons from) by lia. do 2 f_equal. lia.
Qed.

Lemma number_calls_snd (from : Z) (ls : list (list SamRecord)) :
  map snd (number_calls from ls) = ls.
Proof.
  revert from. induction ls as [|l ls IH]; intros from; cbn; [done|by rewrite IH].
Qed.

Lemma put_records_app {T} (w : option (Writer T)) (xs ys : list T) :
  put_records (put_records w xs) ys = put_records w (xs ++ ys).
Proof. unfold put_records. by rewrite fold_left_app. Qed.

Lemma put_records_nil {T} (w : option (Writer T)) : put_records w [] = w.
Proof. reflexivity. Qed.

Section EngineCalls.

Variable collapse_sam_records :
  list SamRecord -> Z -> Z -> bool -> bool -> Z ->
  result (list GffRecord * list GffRecord * list GroupRecord).
Variable self : Branch.t.
Variables allow_extra_5exon skip_5_exon_alt : bool.
Variable tolerate_end : Z.

(** The call on [records] with [cuff_index], as [run_values] makes it. *)
Definition engine_call (c : Z * list SamRecord) :=
  collapse_sam_records (snd c) (fst c) (Branch.cov_threshold self)
                       allow_extra_5exon skip_5_exon_alt tolerate_end.

Definition good_of (c : Z * list SamRecord) : list GffRecord :=
  match engine_call c with Ok (good, _, _) => good | Raise _ => [] end.
Definition bad_of (c : Z * list SamRecord) : list GffRecord :=
  match engine_call c with Ok (_, bad, _) => bad | Raise _ => [] end.
Definition group_of (c : Z * list SamRecord) : list GroupRecord :=
  match engine_call c with Ok (_, _, group) => group | Raise _ => [] end.

(** The loops have called the engine on [done], a prefix of the expected
    lists (all of them when no exception ended the loops), with the indices
    [from], [from + 1], ...; every call returned, and what the calls wrote
    is in the writers. *)
Definition called (from : Z) (expected done : list (list SamRecord))
    (st st' : Branch.loop_state) (err : option exn) : Prop :=
  let calls := number_calls from done in
  done `prefix_of` expected
  /\ (err = None -> done = expected)
  /\ Forall (fun c => is_ok (engine_call c) = true) calls
  /\ Branch.cuff_index st' = from + Z.of_nat (length done)
  /\ good_gff_writer (Branch.writers st')
     = put_records (good_gff_writer (Branch.writers st)) (flat_map good_of calls)
  /\ bad_gff_writer (Branch.writers st')
     = put_records (bad_gff_writer (Branch.writers st)) (flat_map bad_of calls)
  /\ group_writer (Branch.writers st')
     = put_records (group_writer (Branch.writers st)) (flat_map group_of calls).

Lemma run_values_called (values : list (list SamRecord))
    (st st' : Branch.loop_state) (err : option exn) :
  Branch.run_values collapse_sam_records self allow_extra_5exon skip_5_exon_alt
                    tolerate_end values st = (st', err) ->
  ignored_ids_writer (Branch.writers st') = ignored_ids_writer (Branch.writers st)
  /\ exists done,
       called (Branch.cuff_index st) (nonempty values) done st st' err.
Proof.
  revert st. induction values as [|records rest IH]; intros st;
    cbn [Branch.run_values nonempty List.filter].
  - intros [= <- <-]. split; [done|]. exists []. unfold called. cbn.
    rewrite Z.add_0_r. repeat split; try done; try constructor.
  - destruct (0 <? Z.of_nat (length records)) eqn:Elen; [|by apply IH].
    destruct (collapse_sam_records records _ _ _ _ _) as [[[good bad] group]|e] eqn:Ecall.
    + intros H. apply IH in H as [Hig (done & Hpre & Hall & Hok & Hidx & Hg & Hb & Hgr)].
      cbn [Branch.cuff_index Branch.writers ignored_ids_writer good_gff_writer
             bad_gff_writer group_writer] in *.
      split; [done|]. exists (records :: done). unfold called.
      cbn [number_calls flat_map length].
      assert (Ec : engine_call (Branch.cuff_index st, records) = Ok (good, bad, group))
        by exact Ecall.
      unfold good_of, bad_of, group_of at 1. rewrite !Ec.
      rewrite <- !put_records_app.
      split; [by apply prefix_cons|].
      split; [intros He; by rewrite (Hall He)|].
      split; [constructor; [by rewrite Ec|done]|].
      split; [lia|]. done.
    + intros [= <- <-]. split; [done|]. exists []. unfold called. cbn.
      rewrite Z.add_0_r. repeat split; try done; try apply prefix_nil; try constructor.
Qed.

Lemma run_events_called (evs : list sam_event)
    (st st' : Branch.loop_state) (err : option exn) :
  Branch.run_events collapse_sam_records self allow_extra_5exon skip_5_exon_alt
                    tolerate_end evs st = (st', err) ->
  (exists ids, ids `prefix_of` ignored_of evs
               /\ (err = None -> ids = ignored_of evs)
               /\ ignored_ids_writer (Branch.writers st')
                  = put_records (ignored_ids_writer (Branch.writers st)) ids)
  /\ exists done,
       called (Branch.cuff_index st) (nonempty_lists evs) done st st' err.
Proof.
  revert st. induction evs as [|[qid|recs] rest IH]; intros st;
    cbn [Branch.run_events nonempty_lists ignored_of].
  - intros [= <- <-]. split; [by exists []|]. exists []. unfold called. cbn.
    rewrite Z.add_0_r. repeat split; try done; try constructor.
  - intros H. apply IH in H as [(ids & Hpre & Hall & Hig) Hcalled].
    cbn [Branch.cuff_index Branch.writers ignored_ids_writer good_gff_writer
           bad_gff_writer group_writer] in *.
    split; [|done]. exists (qid :: ids).
    split; [by apply prefix_cons|].
    split; [intros He; by rewrite (Hall He)|]. exact Hig.
  - destruct (Branch.run_values _ _ _ _ _ _ st) as [st1 e1] eqn:E1.
    apply run_values_called in E1 as [Hig1 (d1 & Hp1 & Ha1 & Hok1 & Hi1 & Hg1 & Hb1 & Hr1)].
    destruct e1 as [e|].
    + intros [= <- <-]. split.
      * exists []. rewrite Hig1. split; [apply prefix_nil|done].
      * exists d1. unfold called. split; [by apply prefix_app_r|]. done.
    + intros H. apply IH in H as [(ids & Hpre & Hall & Hig)
                                    (d2 & Hp2 & Ha2 & Hok2 & Hi2 & Hg2 & Hb2 & Hr2)].
      split; [exists ids; by rewrite Hig, Hig1|].
      specialize (Ha1 eq_refl). subst d1.
      exists (nonempty (itervalues recs) ++ d2). unfold called.
      rewrite number_calls_app, !flat_map_app, <- !put_records_app, <- Hi1.
      rewrite <- Hg1, <- Hb1, <- Hr1.
      split; [by apply prefix_app|].
      split; [intros He; by rewrite (Ha2 He)|].
      split; [by apply Forall_app|].
      split; [rewrite length_app; lia|]. done.
Qed.

End EngineCalls.

(** ** The collapsing engine *)

Lemma concat_filter_split {A} (p : list A -> bool) (ls : list (list A)) :
  concat (List.filter p ls) ++ concat (List.filter (fun l => negb (p l)) ls)
  ≡ₚ concat ls.
Proof.
  induction ls as [|l ls IH]; cbn [List.filter concat]; [done|].
  destruct (p l); cbn [negb concat].
  - by rewrite <- app_assoc, IH.
  - rewrite Permutation_app_swap_app. by apply Permutation_app_head.
Qed.

Section EngineFacts.

Import Collaborators.

Variable compatible : bool -> bool -> Z -> SamRecord -> SamRecord -> bool.
Variable representative_chain : list SamRecord -> list (Z * Z).
Variables allow_extra_5exon skip_5_exon_alt : bool.
Variable tolerate_end : Z.

Let add_record_ := add_record compatible allow_extra_5exon skip_5_exon_alt tolerate_end.
Let cluster_ := cluster compatible allow_extra_5exon skip_5_exon_alt tolerate_end.

Lemma add_record_nonempty (r : SamRecord) (cands : list (list SamRecord)) :
  Forall (fun c => c <> []) cands -> Forall (fun c => c <> []) (add_record_ r cands).
Proof.
  induction cands as [|c rest IH]; intros Hall; cbn.
  - by constructor.
  - apply Forall_cons in Hall as [Hc Hrest].
    destruct (touches _ _ _ _ r c).
    + constructor; [by destruct c|].
      apply Forall_forall. intros x Hx%list_elem_of_In%filter_In.
      destruct Hx as [Hx%list_elem_of_In _].
      by apply (proj1 (Forall_forall _ _) Hrest).
    + constructor; [done|by apply IH].
Qed.

Lemma add_record_members (r : SamRecord) (cands : list (list SamRecord)) :
  concat (add_record_ r cands) ≡ₚ r :: concat cands.
Proof.
  induction cands as [|c rest IH]; cbn [add_record_ add_record concat].
  - done.
  - unfold add_record_ in *. cbn [add_record].
    destruct (touches _ _ _ _ r c); cbn [concat].
    + rewrite <- !app_assoc.
      rewrite (Permutation_app_comm [r]), app_assoc, app_assoc.
      rewrite <- (app_assoc c), concat_filter_split.
      by rewrite <- Permutation_cons_append.
    + rewrite IH. by rewrite Permutation_middle.
Qed.

Lemma cluster_from (records : list SamRecord) (acc : list (list SamRecord)) :
  Forall (fun c => c <> []) acc ->
  Forall (fun c => c <> [])
         (fold_left (fun cands r => add_record_ r cands) records acc)
  /\ concat (fold_left (fun cands r => add_record_ r cands) records acc)
     ≡ₚ concat acc ++ records.
Proof.
  revert acc. induction records as [|r records IH]; intros acc Hacc; cbn [fold_left].
  - by rewrite app_nil_r.
  - destruct (IH (add_record_ r acc) (add_record_nonempty r acc Hacc)) as [H1 H2].
    split; [done|]. rewrite H2, add_record_members.
    exact (Permutation_middle _ _ _).
Qed.


Lemma cluster_members (records : list SamRecord) :
  concat (cluster_ records) ≡ₚ records.
Proof. apply (cluster_from records []). constructor. Qed.


Lemma number_snd (i from : Z) (cands : list (list SamRecord)) :
  map snd (number i from cands) = cands.
Proof.
  revert from. induction cands as [|c cands IH]; intros from; cbn; [done|by rewrite IH].
Qed.

Lemma collapse_sam_records_ok (records : list SamRecord) (i cov : Z)
    (good bad : list GffRecord) (group : list GroupRecord) :
  collapse_sam_records compatible representative_chain records i cov
    allow_extra_5exon skip_5_exon_alt tolerate_end = Ok (good, bad, group) ->
  let cands := number i 1 (cluster_ records) in
  good = map (fun c => annotate representative_chain (fst c) (snd c))
             (List.filter (is_good cov) cands)
  /\ bad = map (fun c => annotate representative_chain (fst c) (snd c))
               (List.filter (fun c => negb (is_good cov c)) cands)
  /\ group = map membership cands.
Proof.
  unfold collapse_sam_records. destruct (find _ records); [discriminate|].
  by intros [= <- <- <-].
Qed.

End EngineFacts.

(** ** Candidate ids *)









(** ** [Branch.run] with the collapsing engine of the design document *)

Section BranchEngine.

Import Collaborators.

Variable compatible : bool -> bool -> Z -> SamRecord -> SamRecord -> bool.
Variable representative_chain : list SamRecord -> list (Z * Z).
Variable self : Branch.t.
Variables allow_extra_5exon skip_5_exon_alt : bool.
Variable tolerate_end : Z.

Let engine := collapse_sam_records compatible representative_chain.
Let cluster_ := cluster compatible allow_extra_5exon skip_5_exon_alt tolerate_end.

(** The numbered candidates of one call. *)
Definition candidates_of (c : Z * list SamRecord) : list (CandId * list SamRecord) :=
  number (fst c) 1 (cluster_ (snd c)).

Definition annotation (c : CandId * list SamRecord) : GffRecord :=
  annotate representative_chain (fst c) (snd c).

Lemma engine_call_ok (c : Z * list SamRecord) :
  is_ok (engine_call engine self allow_extra_5exon skip_5_exon_alt tolerate_end c) = true ->
  good_of engine self allow_extra_5exon skip_5_exon_alt tolerate_end c
  = map annotation (List.filter (is_good (Branch.cov_threshold self)) (candidates_of c))
  /\ bad_of engine self allow_extra_5exon skip_5_exon_alt tolerate_end c
     = map annotation
           (List.filter (fun c' => negb (is_good (Branch.cov_threshold self) c'))
                        (candidates_of c))
  /\ group_of engine self allow_extra_5exon skip_5_exon_alt tolerate_end c
     = map membership (candidates_of c).
Proof.
  unfold good_of, bad_of, group_of.
  destruct (engine_call _ _ _ _ _ c) as [[[good bad] group]|e] eqn:E; [|discriminate].
  intros _. by apply collapse_sam_records_ok in E as (-> & -> & ->).
Qed.

(** What the loops leave in the writers, for writers opened on non-empty
    paths: the candidates of the calls on [done], a prefix of the non-empty
    record lists of the stream. *)
Lemma run_stream_writers (s : Stream) (f1 f2 f3 f4 : string)
    (st' : Branch.loop_state) (err : option exn) :
  f2 <> "" -> f3 <> "" -> f4 <> "" ->
  Branch.run_stream engine self allow_extra_5exon skip_5_exon_alt tolerate_end s
    (Branch.mkLoop 1 (mkWriters (open_writer f1) (open_writer f2)
                                (open_writer f3) (open_writer f4)))
  = (st', err) ->
  exists done,
    done `prefix_of` nonempty_lists (events s)
    /\ (err = None -> done = nonempty_lists (events s))
    /\ let cands := flat_map candidates_of (number_calls 1 done) in
       buffer (good_gff_writer (Branch.writers st'))
       = map annotation (List.filter (is_good (Branch.cov_threshold self)) cands)
       /\ buffer (bad_gff_writer (Branch.writers st'))
          = map annotation
                (List.filter (fun c => negb (is_good (Branch.cov_threshold self) c)) cands)
       /\ buffer (group_writer (Branch.writers st')) = map membership cands.
Proof.
  intros N2 N3 N4. unfold Branch.run_stream.
  destruct (Branch.run_events _ _ _ _ _ _ _) as [st1 e1] eqn:E.
  apply run_events_called in E as [_ (done & Hpre & Hall & Hok & _ & Hg & Hb & Hgr)].
  cbn [Branch.writers Branch.cuff_index good_gff_writer bad_gff_writer group_writer]
    in Hok, Hg, Hb, Hgr.
  intros Hst. assert (st' = st1 /\ (err = None -> e1 = None)) as [-> He].
  { destruct e1; injection Hst as <- <-; by split. }
  exists done. split; [done|]. split; [by intros ?%He%Hall|]. cbn zeta.
  rewrite Hg, Hb, Hgr.
  rewrite (buffer_put_records f2), (buffer_put_records f3), (buffer_put_records f4)
    by by apply open_writer_open_on.
  assert (Hbuf : forall T (f : string), f <> "" -> buffer (open_writer (T:=T) f) = []).
  { intros T f Hf%String.eqb_neq. unfold open_writer. by rewrite Hf. }
  rewrite !Hbuf by done. cbn [app].
  revert Hok. generalize (number_calls 1 done). intros cs Hok.
  induction Hok as [|c rest Hc _ IH]; [by repeat split|].
  cbn [flat_map]. rewrite !List.filter_app, !map_app.
  destruct (engine_call_ok c Hc) as (-> & -> & ->).
  destruct IH as (-> & -> & ->). done.
Qed.








Lemma nonempty_lists_nonempty (evs : list sam_event) :
  Forall (fun records : list SamRecord => records <> []) (nonempty_lists evs).
Proof.
  induction evs as [|[qid|recs] rest IH]; cbn [nonempty_lists]; [constructor|done|].
  apply Forall_app. split; [|done].
  apply Forall_forall. intros l Hl%list_elem_of_In%filter_In.
  destruct Hl as [_ Hl]. by destruct l.
Qed.



End BranchEngine.

(** ** The alignment stream reader *)

(** The records of the dicts a stream yielded. *)
Fixpoint grouped (evs : list sam_event) : list SamRecord :=
  match evs with
  | [] => []
  | Ignore _ :: rest => grouped rest
  | Yield recs :: rest => concat (itervalues recs) ++ grouped rest
  end.

Lemma grouped_app (e1 e2 : list sam_event) : grouped (e1 ++ e2) = grouped e1 ++ grouped e2.
Proof.
  induction e1 as [|[q|recs] e1 IH]; cbn [grouped app]; [done|done|].
  by rewrite IH, app_assoc.
Qed.

Lemma ignored_of_app (e1 e2 : list sam_event) :
  ignored_of (e1 ++ e2) = ignored_of e1 ++ ignored_of e2.
Proof.
  induction e1 as [|[q|recs] e1 IH]; cbn [ignored_of app]; [done| |done].
  by rewrite IH.
Qed.

Lemma nonempty_lists_grouped (evs : list sam_event) (records : list SamRecord)
    (x : SamRecord) :
  records ∈ nonempty_lists evs -> x ∈ records -> x ∈ grouped evs.
Proof.
  induction evs as [|[q|recs] evs IH]; cbn [nonempty_lists grouped].
  - by intros ?%elem_of_nil.
  - done.
  - intros [Hin|Hin]%elem_of_app Hx; apply elem_of_app; [left|right; by apply IH].
    apply list_elem_of_In, filter_In in Hin as [Hin _].
    apply list_elem_of_In, in_concat. exists records.
    split; [done|by apply list_elem_of_In].
Qed.

Section Reader.

Import Collaborators.

Variables min_aln_coverage min_aln_identity : Q.

Let below := below_thresholds min_aln_coverage min_aln_identity.
Let step := reader_step min_aln_coverage min_aln_identity.
Let read := read_records min_aln_coverage min_aln_identity.

(** The records that pass the filter. *)
Definition kept (records : list SamRecord) : list SamRecord :=
  List.filter (fun r => negb (below r)) records.

(** The reader's state after the records, or at the record that stopped it. *)
Fixpoint steps (records : list SamRecord) (st : reader_state)
    : reader_state * option exn :=
  match records with
  | [] => (st, None)
  | r :: rest =>
      match step st r with
      | Ok st' => steps rest st'
      | Raise e => (st, Some e)
      end
  end.

Lemma read_steps (records : list SamRecord) (st : reader_state) :
  read records st =
  match steps records st with
  | (st', None) => mkStream (flush st') None
  | (st', Some e) => mkStream (emitted st') (Some e)
  end.
Proof.
  revert st. induction records as [|r rest IH]; intros st; cbn; [done|].
  unfold step. destruct (reader_step _ _ st r); [apply IH|done].
Qed.

Lemma steps_app (l1 l2 : list SamRecord) (st : reader_state) :
  steps (l1 ++ l2) st =
  match steps l1 st with
  | (st', None) => steps l2 st'
  | (st', Some e) => (st', Some e)
  end.
Proof.
  revert st. induction l1 as [|r l1 IH]; intros st; cbn [steps app]; [done|].
  destruct (step st r); [apply IH|done].
Qed.

Lemma sep_by_strand_members (records : list SamRecord) :
  concat (itervalues (sep_by_strand records)) ≡ₚ records.
Proof.
  unfold sep_by_strand, itervalues. cbn [map snd concat]. rewrite app_nil_r.
  induction records as [|r records IH]; cbn [List.filter]; [done|].
  destruct (strand r); cbn [Strand_eqb].
  - cbn [app]. by rewrite IH.
  - rewrite <- Permutation_middle. by rewrite IH.
Qed.

Lemma flush_grouped (st : reader_state) :
  grouped (flush st) ≡ₚ grouped (emitted st) ++ open_group st.
Proof.
  unfold flush. destruct (open_group st) as [|r rest] eqn:E.
  - by rewrite app_nil_r.
  - rewrite grouped_app. cbn [grouped]. by rewrite app_nil_r, sep_by_strand_members.
Qed.

Lemma flush_ignored (st : reader_state) : ignored_of (flush st) = ignored_of (emitted st).
Proof.
  unfold flush. destruct (open_group st); [done|].
  rewrite ignored_of_app. cbn. by rewrite app_nil_r.
Qed.

(** One step that returns: a record below a threshold adds its id to the
    ignored ids and nothing to the groups; another record adds itself to
    the groups and becomes the previous emitted record. *)
Lemma step_ok (st st' : reader_state) (r : SamRecord) :
  step st r = Ok st' ->
  out_of_order st r = false
  /\ ignored_of (emitted st')
     = ignored_of (emitted st) ++ (if below r then [qID r] else [])
  /\ grouped (emitted st') ++ open_group st'
     ≡ₚ (grouped (emitted st) ++ open_group st) ++ (if below r then [] else [r])
  /\ prev_emitted st' = if below r then prev_emitted st else Some r.
Proof.
  unfold step, reader_step. fold below.
  destruct (out_of_order st r); [discriminate|].
  destruct (below r).
  - intros [= <-]. cbn. rewrite ignored_of_app, grouped_app. cbn.
    by rewrite !app_nil_r.
  - destruct (joins st r); intros [= <-]; cbn.
    + by rewrite !app_nil_r, app_assoc.
    + rewrite flush_ignored, flush_grouped. by rewrite !app_nil_r.
Qed.

Lemma step_raise (st : reader_state) (r : SamRecord) (e : exn) :
  step st r = Raise e ->
  out_of_order st r = true /\ e = UnsortedInputError (qID r).
Proof.
  unfold step, reader_step.
  destruct (out_of_order st r); [by intros [= <-]|].
  by destruct (below_thresholds _ _ r), (joins st r).
Qed.

Definition last_or {A} (d : option A) (l : list A) : option A :=
  match last l with Some x => Some x | None => d end.

Lemma last_or_snoc {A} (d : option A) (l : list A) (x : A) :
  last_or d (l ++ [x]) = Some x.
Proof. unfold last_or. by rewrite last_snoc. Qed.

(** What the reader has done when it stops: it read [processed] without an
    exception, and then either the input ended or the next record was out
    of order. *)
Lemma steps_processed (records : list SamRecord) (st st' : reader_state)
    (err : option exn) :
  steps records st = (st', err) ->
  exists processed,
    match err with
    | None => records = processed
    | Some e =>
        exists r rest, records = processed ++ r :: rest
                       /\ out_of_order st' r = true
                       /\ e = UnsortedInputError (qID r)
    end
    /\ steps processed st = (st', None)
    /\ ignored_of (emitted st')
       = ignored_of (emitted st) ++ map qID (List.filter below processed)
    /\ grouped (emitted st') ++ open_group st'
       ≡ₚ (grouped (emitted st) ++ open_group st) ++ kept processed
    /\ prev_emitted st' = last_or (prev_emitted st) (kept processed).
Proof.
  revert st. induction records as [|r rest IH]; intros st; cbn [steps].
  - intros [= <- <-]. exists []. cbn. rewrite !app_nil_r. repeat split; reflexivity.
  - destruct (step st r) as [st1|e] eqn:E.
    + intros H. apply IH in H as (processed & Herr & Hsteps & Hig & Hgr & Hprev).
      apply step_ok in E as Hstep. destruct Hstep as (_ & Hig1 & Hgr1 & Hprev1).
      exists (r :: processed). split; [|split; [|split; [|split]]].
      * destruct err as [e|]; [|by rewrite Herr].
        destruct Herr as (r' & rest' & -> & Hout & ->). by exists r', rest'.
      * cbn [steps]. by rewrite E.
      * rewrite Hig, Hig1. unfold kept. cbn [List.filter].
        destruct (below r); cbn [map]; by rewrite <- app_assoc.
      * rewrite Hgr, Hgr1. unfold kept. cbn [List.filter].
        destruct (below r); cbn [negb]; by rewrite <- !app_assoc.
      * rewrite Hprev, Hprev1. unfold kept, last_or. cbn [List.filter].
        destruct (below r); cbn [negb]; [done|].
        generalize (List.filter (fun r0 => negb (below r0)) processed).
        intros [|x l]; [reflexivity|].
        change (r :: x :: l) with ([r] ++ x :: l).
        rewrite last_app. by destruct (last (x :: l)) eqn:El.
    + intros [= <- <-]. apply step_raise in E as [Hout ->].
      exists []. cbn. rewrite !app_nil_r. split; [by exists r, rest|].
      repeat split; reflexivity.
Qed.

Lemma kept_elem (records : list SamRecord) (x : SamRecord) :
  x ∈ kept records <-> x ∈ records /\ below x = false.
Proof.
  unfold kept. rewrite !list_elem_of_In, filter_In, negb_true_iff. done.
Qed.

Lemma iter_gmap_sam_read (fs : gmap string node) (sam_filename : string)
    (query_len_dict : gmap string Z) (records : list SamRecord) :
  resolve fs sam_filename = Some (SamFile records) ->
  iter_gmap_sam fs sam_filename query_len_dict min_aln_coverage min_aln_identity
  = read records reader_start.
Proof. intros H. unfold iter_gmap_sam. by rewrite H. Qed.

(** C5.  A record whose (reference id, reference start) is smaller than
    that of the previous emitted record makes the reader raise
    [UnsortedInputError]: the stream ends with the exception, nothing of
    that record or of a later one is grouped or ignored, and the loops of
    [Branch.run] end with an exception, whatever the engine does. *)
Theorem out_of_order_record_aborts (fs : gmap string node) (sam_filename : string)
    (query_len_dict : gmap string Z) (pre post : list SamRecord) (r p : SamRecord) :
  resolve fs sam_filename = Some (SamFile (pre ++ r :: post)) ->
  failure (read pre reader_start) = None ->
  last (kept pre) = Some p ->
  key_ltb r p = true ->
  let s := iter_gmap_sam fs sam_filename query_len_dict
                         min_aln_coverage min_aln_identity in
  failure s = Some (UnsortedInputError (qID r))
  /\ (forall x, x ∈ grouped (events s) -> x ∈ kept pre)
  /\ ignored_of (events s) = map qID (List.filter below pre)
  /\ (forall engine self allow skip tol st,
        exists e, snd (Branch.run_stream engine self allow skip tol s st) = Some e).
Proof.
  intros Hfile Hpre Hlast Hlt. cbn zeta.
  rewrite (iter_gmap_sam_read _ _ _ _ Hfile).
  rewrite read_steps in Hpre. rewrite read_steps, steps_app.
  destruct (steps pre reader_start) as [st [e|]] eqn:E; [discriminate|].
  apply steps_processed in E as (processed & <- & _ & Hig & Hgr & Hprev).
  cbn [emitted open_group prev_emitted reader_start grouped ignored_of app] in Hig, Hgr, Hprev.
  unfold last_or in Hprev. rewrite Hlast in Hprev.
  assert (Hstep : step st r = Raise (UnsortedInputError (qID r))).
  { unfold step, reader_step, out_of_order. by rewrite Hprev, Hlt. }
  cbn [steps]. rewrite Hstep. cbn [failure events].
  split; [done|]. split; [|split; [done|]].
  - intros x Hx. rewrite <- Hgr. apply elem_of_app. by left.
  - intros engine self allow skip tol st0. unfold Branch.run_stream.
    destruct (Branch.run_events _ _ _ _ _ _ _) as [st1 [e|]]; cbn; eauto.
Qed.

(** C6.  On sorted input the reader does not raise.  The ids of the records
    with coverage below [min_aln_coverage] or identity below
    [min_aln_identity] are written to the ignored ids, in encounter order,
    and nothing else is; the groups hold the other records and only
    those.  So [Branch.run] writes these ids to the ignored-ids writer, and
    every member of every group it writes is a record that passed. *)
Theorem filtered_records_are_ignored (records : list SamRecord) :
  StronglySorted (fun a b => key_ltb b a = false) records ->
  let s := read records reader_start in
  failure s = None
  /\ ignored_of (events s) = map qID (List.filter below records)
  /\ grouped (events s) ≡ₚ kept records
  /\ (forall x, x ∈ grouped (events s) -> below x = false)
  /\ (forall compatible representative_chain self allow skip tol
             f1 f2 f3 f4 st' err,
        f1 <> "" -> f2 <> "" -> f3 <> "" -> f4 <> "" ->
        Branch.run_stream
          (collapse_sam_records compatible representative_chain)
          self allow skip tol s
          (Branch.mkLoop 1 (mkWriters (open_writer f1) (open_writer f2)
                                      (open_writer f3) (open_writer f4)))
        = (st', err) ->
        (err = None ->
           buffer (ignored_ids_writer (Branch.writers st'))
           = map qID (List.filter below records))
        /\ (forall g q,
              g ∈ buffer (group_writer (Branch.writers st')) ->
              q ∈ group_members g ->
              exists x, x ∈ records /\ below x = false /\ qID x = q)).
Proof.
  intros Hsorted. cbn zeta. rewrite read_steps.
  destruct (steps records reader_start) as [st err] eqn:E.
  apply steps_processed in E as (processed & Herr & _ & Hig & Hgr & Hprev).
  cbn [emitted open_group prev_emitted reader_start grouped ignored_of app] in Hig, Hgr, Hprev.
  destruct err as [e|].
  { exfalso. destruct Herr as (r & rest & -> & Hout & _).
    unfold out_of_order in Hout. rewrite Hprev in Hout. unfold last_or in Hout.
    destruct (last (kept processed)) as [p|] eqn:El; [|discriminate].
    apply last_Some_elem_of, kept_elem in El as [Hp _].
    rewrite (StronglySorted_app_1_elem_of _ _ _ p r Hsorted Hp) in Hout;
      [discriminate|left]. }
  subst processed. cbn [failure events].
  assert (Hgrouped : grouped (flush st) ≡ₚ kept records)
    by by rewrite flush_grouped.
  assert (Hignored : ignored_of (flush st) = map qID (List.filter below records))
    by by rewrite flush_ignored.
  split; [done|]. split; [done|]. split; [done|]. split.
  { intros x Hx. rewrite Hgrouped in Hx. by apply kept_elem in Hx as [_ Hx]. }
  intros compatible representative_chain self allow skip tol f1 f2 f3 f4 st' err
         N1 N2 N3 N4 Hrun.
  split.
  - intros ->. unfold Branch.run_stream in Hrun. cbn [events failure] in Hrun.
    destruct (Branch.run_events _ _ _ _ _ _ _) as [st1 e1] eqn:Ev.
    destruct e1; [discriminate|]. injection Hrun as ->.
    apply run_events_called in Ev as [(ids & _ & Hall & Hw) _].
    cbn [Branch.writers ignored_ids_writer] in Hw.
    rewrite Hw, (buffer_put_records f1) by by apply open_writer_open_on.
    rewrite (Hall eq_refl), Hignored.
    apply String.eqb_neq in N1. unfold open_writer. by rewrite N1.
  - intros g q Hg Hq.
    destruct (run_stream_writers compatible representative_chain self allow skip tol
                _ f1 f2 f3 f4 st' err N2 N3 N4 Hrun)
      as (done & Hpre & _ & _ & _ & Hbuf).
    cbn [events] in Hpre. rewrite Hbuf in Hg.
    apply list_elem_of_In, in_map_iff in Hg as (cand & <- & Hcand).
    apply in_flat_map in Hcand as (c & Hc & Hcand).
    unfold membership in Hq. cbn [group_members] in Hq.
    apply list_elem_of_In, in_map_iff in Hq as (x & <- & Hx).
    exists x. assert (Hk : x ∈ kept records); [|by apply kept_elem in Hk as [? ?]].
    rewrite <- Hgrouped.
    apply (nonempty_lists_grouped _ (snd c)).
    + destruct Hpre as [k ->]. apply elem_of_app. left.
      rewrite <- (number_calls_snd 1 done). apply list_elem_of_In, in_map, Hc.
    + rewrite <- (cluster_members compatible allow skip tol (snd c)).
      apply list_elem_of_In, in_concat. exists (snd cand). split; [|done].
      unfold candidates_of in Hcand.
      rewrite <- (number_snd (fst c) 1 (cluster compatible allow skip tol (snd c))).
      by apply in_map.
Qed.

End Reader.

(** * A worked run *)

(** Three alignments on [chr1], strand [+]: two with the same exon chain,
    one further along; a fourth alignment with coverage 0.5.  Collapsing
    uses exact equality of exon chains. *)
Module Demo.

Import Collaborators.

Definition same_chain (allow_extra_5exon skip_5_exon_alt : bool) (tolerate_end : Z)
    (a b : SamRecord) : bool :=
  bool_decide (segments a = segments b).

Definition first_chain (members : list SamRecord) : list (Z * Z) :=
  match members with
  | [] => []
  | m :: _ => segments m
  end.

Definition no_discrepancy (g : GffRecord) (q : string) : Z := 0.

(** A merger that copies its inputs. *)
Definition copy_fuzzy (gff_filename group_filename fuzzy_gff_filename
                       fuzzy_group_filename : string)
    (allow_extra_5exon : bool) (max_fuzzy_junction : Z) : F unit :=
  gff ← read_file gff_filename;
  groups ← read_file group_filename;
  write_file fuzzy_gff_filename gff ;;
  write_file fuzzy_group_filename groups.

Definition fasta_name (isoform_filename : string) : string * string :=
  (isoform_filename, "fasta").

Definition rec1 : SamRecord :=
  mkSam "q1" "chr1" Plus 100 500 [(100, 200); (300, 500)] (99 # 100) (99 # 100).
Definition rec2 : SamRecord :=
  mkSam "q2" "chr1" Plus 100 500 [(100, 200); (300, 500)] (99 # 100) (99 # 100).
Definition rec3 : SamRecord :=
  mkSam "q3" "chr1" Plus 2000 2400 [(2000, 2400)] (99 # 100) (99 # 100).
Definition rec4 : SamRecord :=
  mkSam "q4" "chr1" Plus 2100 2400 [(2100, 2400)] (50 # 100) (99 # 100).

Definition records : list SamRecord := [rec1; rec2; rec3; rec4].

Definition disk : gmap string node :=
  <["in.fasta" := Regular (Isoforms [("q1", "ACGT"); ("q2", "ACGTA");
                                     ("q3", "AC"); ("q4", "A")])]>
    (<["in.sam" := Regular (SamFile records)]> ∅).

(** The same disk with the id [q1] twice in the isoform file. *)
Definition disk_twice : gmap string node :=
  <["in.fasta" := Regular (Isoforms [("q1", "ACGT"); ("q1", "ACGTA")])]> disk.

(** The same disk with the record of [q3] moved to the front. *)
Definition disk_unsorted : gmap string node :=
  <["in.sam" := Regular (SamFile [rec3; rec1; rec2])]> disk.

Definition runner (max_fuzzy_junction : Z) (allow_extra_5exon : bool)
    : CollapseIsoformsRunner.t :=
  CollapseIsoformsRunner.init fasta_name "in.fasta" "in.sam" "out"
    (90 # 100) (90 # 100) 2 max_fuzzy_junction allow_extra_5exon false.

Definition run (max_fuzzy_junction : Z) (allow_extra_5exon : bool)
    (fs : gmap string node) : result unit * world :=
  CollapseIsoformsRunner.run check_ids_unique name_to_len_dict iter_gmap_sam
    (collapse_sam_records same_chain first_chain) copy_fuzzy ln
    (pick_rep no_discrepancy) (runner max_fuzzy_junction allow_extra_5exon)
    (mkWorld fs []).

Definition branch : Branch.t :=
  Branch.mk "in.fasta" ∅ "in.sam" 2 (90 # 100) (90 # 100).

Definition stream : Stream :=
  read_records (90 # 100) (90 # 100) records reader_start.

Definition loops (s : Stream) : Branch.loop_state * option exn :=
  Branch.run_stream (collapse_sam_records same_chain first_chain) branch
    false false 100 s
    (Branch.mkLoop 1 (mkWriters (open_writer "ignored") (open_writer "good")
                                (open_writer "bad") (open_writer "group"))).

End Demo.

Example example_run_returns : fst (Demo.run 0 false Demo.disk) = Ok tt.
Proof. vm_compute. reflexivity. Qed.

Example example_groups :
  resolve (files (snd (Demo.run 0 false Demo.disk))) "out.no5merge.collapsed.group.txt"
  = Some (GroupFile [mkGroup (mkId 1 1) ["q1"; "q2"]; mkGroup (mkId 2 1) ["q3"]]).
Proof. vm_compute. reflexivity. Qed.

Example example_good :
  resolve (files (snd (Demo.run 0 false Demo.disk))) "out.no5merge.collapsed.good.gff"
  = Some (GffFile [mkGff (mkId 1 1) "chr1" Plus [(100, 200); (300, 500)]]).
Proof. vm_compute. reflexivity. Qed.

Example example_bad :
  resolve (files (snd (Demo.run 0 false Demo.disk)))
          "out.no5merge.collapsed.bad.gff.unfuzzy"
  = Some (GffFile [mkGff (mkId 2 1) "chr1" Plus [(2000, 2400)]]).
Proof. vm_compute. reflexivity. Qed.

Example example_ignored :
  resolve (files (snd (Demo.run 0 false Demo.disk)))
          "out.no5merge.collapsed.ignored_ids.txt"
  = Some (IdList ["q4"]).
Proof. vm_compute. reflexivity. Qed.

Example example_representatives :
  resolve (files (snd (Demo.run 0 false Demo.disk))) "out.no5merge.collapsed.rep.fasta"
  = Some (RepFile [mkRep (mkId 1 1) "q1" "ACGT"]).
Proof. vm_compute. reflexivity. Qed.

Example example_unsorted :
  fst (Demo.run 0 false Demo.disk_unsorted) = Raise (UnsortedInputError "q1").
Proof. vm_compute. reflexivity. Qed.

Example example_longest_member :
  resolve (files (snd (Demo.run 0 true Demo.disk))) "out.5merge.collapsed.rep.fasta"
  = Some (RepFile [mkRep (mkId 1 1) "q2" "ACGTA"]).
Proof. vm_compute. reflexivity. Qed.

Example example_fuzzy_links :
  files (snd (Demo.run 5 false Demo.disk)) !! "out.no5merge.collapsed.group.txt"
  = Some (Symlink "out.no5merge.collapsed.group.txt.fuzzy").
Proof. vm_compute. reflexivity. Qed.

Example example_duplicate_ids :
  Demo.run 0 false Demo.disk_twice
  = (Raise (NonUniqueIdsError "q1"),
     mkWorld Demo.disk_twice [CheckIdsUnique "in.fasta"]).
Proof. vm_compute. reflexivity. Qed.

(** ** The theorems on the worked run *)

Lemma validation_precedes_all_work_witness :
  op_exists ∅ "in.fasta" = false
  /\ CollapseIsoformsRunner.run Collaborators.check_ids_unique
       Collaborators.name_to_len_dict Collaborators.iter_gmap_sam
       (Collaborators.collapse_sam_records Demo.same_chain Demo.first_chain)
       Demo.copy_fuzzy Collaborators.ln
       (Collaborators.pick_rep Demo.no_discrepancy)
       (Demo.runner 0 false) (mkWorld ∅ [])
     = (Raise (IOError "Input isoforms file in.fasta does not exist"), mkWorld ∅ []).
Proof.
  split; [reflexivity|].
  apply (proj1 (validation_precedes_all_work
                  Collaborators.name_to_len_dict Collaborators.iter_gmap_sam
                  (Collaborators.collapse_sam_records Demo.same_chain
                                                      Demo.first_chain)
                  Demo.copy_fuzzy Collaborators.ln
                  (Collaborators.pick_rep Demo.no_discrepancy)
                  (Demo.runner 0 false) (mkWorld ∅ []))).
  reflexivity.
Defined.

Lemma fuzzy_stage_is_gated_witness :
  Demo.run 0 false Demo.disk = (Ok tt, snd (Demo.run 0 false Demo.disk))
  /\ files (snd (Demo.run 0 false Demo.disk))
       !! CollapsedFiles.group_fn (CollapseIsoformsRunner.base (Demo.runner 0 false))
     = Some (Symlink (CollapsedFiles.unfuzzy_group_fn
                        (CollapseIsoformsRunner.base (Demo.runner 0 false)))).
Proof.
  assert (H : Demo.run 0 false Demo.disk
              = (Ok tt, snd (Demo.run 0 false Demo.disk)))
    by (vm_compute; reflexivity).
  split; [exact H|].
  refine (proj1 (proj2 (proj2 (proj2
            (proj1 (fuzzy_stage_is_gated
                      Collaborators.check_ids_unique Collaborators.name_to_len_dict
                      Collaborators.iter_gmap_sam
                      (Collaborators.collapse_sam_records Demo.same_chain
                                                          Demo.first_chain)
                      Demo.copy_fuzzy Demo.no_discrepancy
                      (Demo.runner 0 false) Demo.disk _ H) _))))).
  vm_compute. intros E. discriminate E.
Defined.



Lemma out_of_order_record_aborts_witness :
  resolve Demo.disk_unsorted "in.sam"
  = Some (SamFile ([Demo.rec3] ++ Demo.rec1 :: [Demo.rec2]))
  /\ failure (Collaborators.read_records (90 # 100) (90 # 100) [Demo.rec3]
                                         Collaborators.reader_start) = None
  /\ last (kept (90 # 100) (90 # 100) [Demo.rec3]) = Some Demo.rec3
  /\ Collaborators.key_ltb Demo.rec1 Demo.rec3 = true
  /\ failure (Collaborators.iter_gmap_sam Demo.disk_unsorted "in.sam" ∅
                                          (90 # 100) (90 # 100))
     = Some (UnsortedInputError "q1").
Proof.
  assert (H1 : resolve Demo.disk_unsorted "in.sam"
               = Some (SamFile ([Demo.rec3] ++ Demo.rec1 :: [Demo.rec2])))
    by (vm_compute; reflexivity).
  assert (H2 : failure (Collaborators.read_records (90 # 100) (90 # 100) [Demo.rec3]
                                                   Collaborators.reader_start) = None)
    by (vm_compute; reflexivity).
  assert (H3 : last (kept (90 # 100) (90 # 100) [Demo.rec3]) = Some Demo.rec3)
    by (vm_compute; reflexivity).
  assert (H4 : Collaborators.key_ltb Demo.rec1 Demo.rec3 = true)
    by (vm_compute; reflexivity).
  do 4 (split; [assumption|]).
  exact (proj1 (out_of_order_record_aborts
                  (90 # 100) (90 # 100) Demo.disk_unsorted "in.sam" ∅
                  [Demo.rec3] [Demo.rec2] Demo.rec1 Demo.rec3
                  H1 H2 H3 H4)).
Defined.

Lemma filtered_records_are_ignored_witness :
  StronglySorted (fun a b => Collaborators.key_ltb b a = false) Demo.records
  /\ failure Demo.stream = None
  /\ ignored_of (events Demo.stream)
     = map qID (List.filter (Collaborators.below_thresholds (90 # 100) (90 # 100))
                            Demo.records).
Proof.
  assert (H : StronglySorted (fun a b => Collaborators.key_ltb b a = false)
                             Demo.records).
  { unfold Demo.records.
    repeat first [ apply SSorted_nil | apply SSorted_cons
                 | apply List.Forall_nil | apply List.Forall_cons
                 | vm_compute; reflexivity ]. }
  split; [exact H|].
  pose proof (filtered_records_are_ignored (90 # 100) (90 # 100) Demo.records H)
    as (Hf & Hi & _).
  split; [exact Hf|exact Hi].
Defined.

(** * Further properties *)

(** ** All the names of one [CollapsedFiles] *)

(** The thirteen names the properties of a [CollapsedFiles] give, in the
    order of [common.py]. *)
Definition collapsed_names (c : CollapsedFiles.t) : list string :=
  [ CollapsedFiles.gff_fn c; CollapsedFiles.good_gff_fn c; CollapsedFiles.bad_gff_fn c;
    CollapsedFiles.group_fn c; CollapsedFiles.read_stat_fn c;
    CollapsedFiles.ignored_ids_txt_fn c; CollapsedFiles.abundance_fn c;
    CollapsedFiles.good_fuzzy_gff_fn c; CollapsedFiles.good_unfuzzy_gff_fn c;
    CollapsedFiles.bad_fuzzy_gff_fn c; CollapsedFiles.bad_unfuzzy_gff_fn c;
    CollapsedFiles.fuzzy_group_fn c; CollapsedFiles.unfuzzy_group_fn c ].

(** The names [rep_fn] gives, one for each suffix it accepts. *)
Definition rep_names (c : CollapsedFiles.t) : list string :=
  flat_map (fun suffix => match CollapsedFiles.rep_fn c suffix with
                          | Ok out => [out]
                          | Raise _ => []
                          end)
           CollapsedFiles.rep_suffixes.

Definition every_name (c : CollapsedFiles.t) : list string :=
  collapsed_names c ++ rep_names c.

(** What follows [_collapsed_prefix] in the names above. *)
Definition name_endings : list string :=
  [ ".gff"; ".good.gff"; ".bad.gff"; ".group.txt"; ".read_stat.txt";
    ".ignored_ids.txt"; ".abundance.txt";
    ".good.gff.fuzzy"; ".good.gff.unfuzzy"; ".bad.gff.fuzzy"; ".bad.gff.unfuzzy";
    ".group.txt.fuzzy"; ".group.txt.unfuzzy";
    ".rep.fasta"; ".rep.fastq"; ".rep.contigset.xml" ].

Lemma every_name_endings (c : CollapsedFiles.t) :
  every_name c = map (String.append (CollapsedFiles._collapsed_prefix c)) name_endings.
Proof.
  unfold every_name, collapsed_names, rep_names, CollapsedFiles.rep_fn,
    CollapsedFiles.read_stat_fn, CollapsedFiles.abundance_fn.
  unfold_names. reflexivity.
Qed.

Lemma name_endings_NoDup : NoDup name_endings.
Proof. apply (bool_decide_unpack _). vm_compute. reflexivity. Qed.

(** Every ending starts with a dot followed by one of [g b r i a]. *)
Definition ending_head (e : string) : bool :=
  match e with
  | String "." (String a _) =>
      bool_decide (a ∈ ["g"; "b"; "r"; "i"; "a"]%char)
  | _ => false
  end.

Lemma name_endings_head (e : string) : e ∈ name_endings -> ending_head e = true.
Proof.
  unfold name_endings. rewrite !elem_of_cons, elem_of_nil.
  intros H. repeat (destruct H as [->|H]; [reflexivity|]). done.
Qed.

Lemma append_cons (a : ascii) (s t : string) : String a s +:+ t = String a (s +:+ t).
Proof. reflexivity. Qed.

Lemma every_name_NoDup (c : CollapsedFiles.t) : NoDup (every_name c).
Proof.
  rewrite every_name_endings.
  apply (NoDup_fmap_2 _), name_endings_NoDup.
Qed.

Lemma rep_fn_rep_names (c : CollapsedFiles.t) (suffix out : string) :
  CollapsedFiles.rep_fn c suffix = Ok out -> out ∈ rep_names c.
Proof.
  intros H. unfold rep_names. apply list_elem_of_In, in_flat_map.
  exists suffix. split.
  - apply list_elem_of_In. unfold CollapsedFiles.rep_fn in H.
    by case_bool_decide.
  - rewrite H. by left.
Qed.

(** X1.  No two of the names of one [CollapsedFiles] object coincide: the
    thirteen names its properties give and the names [rep_fn] gives for
    the suffixes it accepts are pairwise distinct, none of them is empty,
    and [rep_fn] gives different names for different suffixes.  No output
    of a run can therefore overwrite another. *)
Theorem collapsed_names_pairwise_distinct (c : CollapsedFiles.t) :
  NoDup (every_name c)
  /\ Forall (fun a => a <> "") (every_name c)
  /\ (forall suffix out,
        CollapsedFiles.rep_fn c suffix = Ok out -> out ∉ collapsed_names c)
  /\ (forall s1 s2 out,
        CollapsedFiles.rep_fn c s1 = Ok out -> CollapsedFiles.rep_fn c s2 = Ok out ->
        s1 = s2).
Proof.
  split; [|split; [|split]].
  - apply every_name_NoDup.
  - rewrite every_name_endings. apply Forall_forall. intros a Ha.
    apply list_elem_of_fmap in Ha as (e & -> & He).
    apply name_endings_head in He.
    destruct e as [|x e]; [discriminate|].
    apply append_nonempty. discriminate.
  - intros suffix out Hout Hin.
    pose proof (every_name_NoDup c) as Hnd.
    unfold every_name in Hnd. apply NoDup_app in Hnd as (_ & Hdis & _).
    apply (Hdis out Hin). by eapply rep_fn_rep_names.
  - intros s1 s2 out. unfold CollapsedFiles.rep_fn.
    repeat case_bool_decide; try discriminate.
    intros [= <-] [= E].
    apply (inj (String.append _)) in E.
    by apply (inj (String.append ".rep.")) in E.
Qed.

(** ** With and without 5' merging *)

(** X2.  Runs with and without [allow_extra_5exon] on the same prefix
    never share a file: no name of the object built with
    [allow_extra_5exon = True] is a name of the object built on the same
    prefix with [allow_extra_5exon = False]. *)
Theorem merge_flag_separates_names (p a : string) :
  a ∈ every_name (CollapsedFiles.mk p true) ->
  a ∉ every_name (CollapsedFiles.mk p false).
Proof.
  rewrite !every_name_endings.
  intros (e1 & -> & _)%list_elem_of_fmap (e2 & E & _)%list_elem_of_fmap.
  unfold CollapsedFiles._collapsed_prefix, CollapsedFiles.has_5merge_str in E.
  cbn [CollapsedFiles.prefix CollapsedFiles.allow_extra_5exon] in E.
  rewrite !append_assoc in E.
  apply (inj (String.append p)) in E.
  rewrite !append_cons in E. discriminate E.
Qed.

Lemma merge_flag_separates_names_witness :
  "out.5merge.collapsed.gff" ∈ every_name (CollapsedFiles.mk "out" true)
  /\ "out.5merge.collapsed.gff" ∉ every_name (CollapsedFiles.mk "out" false).
Proof.
  assert (H : "out.5merge.collapsed.gff" ∈ every_name (CollapsedFiles.mk "out" true)).
  { vm_compute. left. }
  split; [exact H|].
  exact (merge_flag_separates_names "out" "out.5merge.collapsed.gff" H).
Defined.

(** ** The names of [FilteredFiles] *)

(** The string has no occurrence of the character. *)
Fixpoint free_of (ch : ascii) (s : string) : Prop :=
  match s with
  | "" => True
  | String a s' => a <> ch /\ free_of ch s'
  end.

(** A string free of [ch] is determined by what it is followed by, when
    that starts with [ch]. *)
Lemma free_of_split (ch : ascii) (d d' t t' : string) :
  free_of ch d -> free_of ch d' ->
  d +:+ String ch t = d' +:+ String ch t' -> d = d' /\ t = t'.
Proof.
  revert d'. induction d as [|a d IH]; intros [|a' d'] Hd Hd' E.
  - by injection E as ->.
  - rewrite append_cons in E. injection E as E _.
    destruct Hd' as [Hd' _]. by destruct Hd'.
  - rewrite append_cons in E. injection E as E _.
    destruct Hd as [Hd _]. by destruct Hd.
  - rewrite !append_cons in E. injection E as -> E.
    destruct Hd as [_ Hd], Hd' as [_ Hd'].
    destruct (IH d' Hd Hd' E) as [-> ->]. done.
Qed.

Lemma pretty_N_go_free (x : N) (s : string) :
  free_of "." s -> free_of "." (pretty_N_go x s).
Proof.
  revert s. induction (N.lt_wf_0 x) as [x _ IH]; intros s Hs.
  assert (x = 0 \/ 0 < x)%N as [->|Hx] by lia.
  - by rewrite pretty_N_go_0.
  - rewrite pretty_N_go_step by done. apply IH.
    + by apply N.div_lt.
    + split; [|done]. unfold pretty_N_char. by repeat case_match.
Qed.

(** The rendering of a number holds no dot. *)
Lemma format_d_free (n : Z) : free_of "." (FilteredFiles.format_d n).
Proof.
  assert (HN : forall x : N, free_of "." (pretty x)).
  { intros x. unfold pretty, pretty_N. case_decide.
    - by split.
    - by apply pretty_N_go_free. }
  unfold FilteredFiles.format_d, pretty, pretty_Z.
  destruct n as [|p|p].
  - by split.
  - apply HN.
  - rewrite append_cons. split; [done|]. apply HN.
Qed.

(** What follows the rendering of [min_count] in a filtered name: the
    subset mark, then the ending of the file. *)
Definition subset_mark (filter_out_subsets : bool) : string :=
  if filter_out_subsets then ".no_subsets" else "".

Lemma filtered_prefix_parts (f : FilteredFiles.t) (ending : string) :
  FilteredFiles._filtered_prefix f +:+ ending
  = CollapsedFiles._collapsed_prefix (FilteredFiles.base f)
    +:+ (".min_fl_"
         +:+ (FilteredFiles.format_d (FilteredFiles.min_count f)
              +:+ (subset_mark (FilteredFiles.filter_out_subsets f) +:+ ending))).
Proof.
  unfold FilteredFiles._filtered_prefix, subset_mark. cbn zeta.
  destruct (FilteredFiles.filter_out_subsets f); by rewrite !append_assoc.
Qed.

Lemma append_nil_l (s : string) : "" +:+ s = s.
Proof. reflexivity. Qed.

(** The mark and the ending start with a dot when the ending does. *)
Lemma subset_mark_dot (b : bool) (ending : string) :
  exists t, subset_mark b +:+ String "." ending = String "." t.
Proof. destruct b; eexists; reflexivity. Qed.

(** The mark can be read back from a name whose ending starts with [".g"],
    [".a"] or [".r"]. *)
Lemma subset_mark_inj (b b' : bool) (x x' : ascii) (e e' : string) :
  x <> "n"%char -> x' <> "n"%char ->
  subset_mark b +:+ String "." (String x e)
  = subset_mark b' +:+ String "." (String x' e') ->
  b = b' /\ String x e = String x' e'.
Proof.
  intros Hx Hx'. destruct b, b'; unfold subset_mark.
  - intros E. apply (inj (String.append ".no_subsets")) in E.
    by injection E as -> ->.
  - rewrite !append_cons, append_nil_l. intros [= E _]. by destruct Hx'.
  - rewrite !append_cons, append_nil_l. intros [= E _]. by destruct Hx.
  - rewrite !append_nil_l. by intros [= -> ->].
Qed.

(** Two filtered names on the same base, each with an ending that starts
    with a dot and a character other than [n], are equal only for equal
    settings and equal endings. *)
Lemma filtered_name_inj (f g : FilteredFiles.t) (x x' : ascii) (e e' : string) :
  FilteredFiles.base f = FilteredFiles.base g ->
  x <> "n"%char -> x' <> "n"%char ->
  FilteredFiles._filtered_prefix f +:+ String "." (String x e)
  = FilteredFiles._filtered_prefix g +:+ String "." (String x' e') ->
  f = g /\ String x e = String x' e'.
Proof.
  intros Hbase Hx Hx'. rewrite !filtered_prefix_parts, Hbase. intros E.
  apply (inj (String.append _)) in E.
  apply (inj (String.append ".min_fl_")) in E.
  destruct (subset_mark_dot (FilteredFiles.filter_out_subsets f) (String x e))
    as [t Ht].
  destruct (subset_mark_dot (FilteredFiles.filter_out_subsets g) (String x' e'))
    as [t' Ht'].
  pose proof E as E0. rewrite Ht, Ht' in E0.
  apply free_of_split in E0 as [Hd _]; [|apply format_d_free..].
  rewrite Hd in E. apply (inj (String.append _)) in E.
  apply subset_mark_inj in E as [Hb He]; [|done..].
  split; [|done].
  apply (inj pretty) in Hd.
  destruct f, g. cbn in *. by subst.
Qed.

(** X3.  The names of the filtered files are apart from the names of the
    collapsed files of the same object: [filtered_gff_fn],
    [filtered_abundance_fn] and [filtered_rep_fn] for any suffix are none
    of the names of the [CollapsedFiles] part, and they differ from one
    another.  Filtering can therefore not overwrite what collapsing
    wrote. *)
Theorem filtered_names_apart_from_collapsed (f : FilteredFiles.t) (suffix : string) :
  let c := FilteredFiles.base f in
  (FilteredFiles.filtered_gff_fn f ∉ every_name c)
  /\ (FilteredFiles.filtered_abundance_fn f ∉ every_name c)
  /\ (FilteredFiles.filtered_rep_fn f suffix ∉ every_name c)
  /\ FilteredFiles.filtered_gff_fn f <> FilteredFiles.filtered_abundance_fn f
  /\ FilteredFiles.filtered_rep_fn f suffix <> FilteredFiles.filtered_gff_fn f
  /\ FilteredFiles.filtered_rep_fn f suffix <> FilteredFiles.filtered_abundance_fn f.
Proof.
  cbn zeta.
  assert (Hout : forall ending,
             FilteredFiles._filtered_prefix f +:+ ending
             ∉ every_name (FilteredFiles.base f)).
  { intros ending. rewrite filtered_prefix_parts, every_name_endings.
    intros (e & E & He)%list_elem_of_fmap.
    apply (inj (String.append _)) in E.
    apply name_endings_head in He.
    rewrite !append_cons in E.
    destruct e as [|a [|b e]]; try discriminate.
    injection E as <- <- _. discriminate. }
  assert (Hne : forall e1 e2, e1 <> e2 ->
             FilteredFiles._filtered_prefix f +:+ e1
             <> FilteredFiles._filtered_prefix f +:+ e2).
  { intros e1 e2. apply append_ne. }
  unfold FilteredFiles.filtered_gff_fn, FilteredFiles.filtered_abundance_fn,
    FilteredFiles.filtered_rep_fn.
  repeat split; try apply Hout; apply Hne; rewrite ?append_cons; discriminate.
Qed.

(** X4.  For one [CollapsedFiles] part, a filtered name tells the filter
    settings: two [FilteredFiles] objects on the same base that give the
    same [filtered_gff_fn], the same [filtered_abundance_fn] or the same
    [filtered_rep_fn] have the same [min_count] and the same
    [filter_out_subsets] (and, for [filtered_rep_fn], the same suffix); and
    a [filtered_gff_fn] is never a [filtered_abundance_fn] or a
    [filtered_rep_fn], whatever the settings. *)
Theorem filter_settings_separate_names (f g : FilteredFiles.t) :
  FilteredFiles.base f = FilteredFiles.base g ->
  (FilteredFiles.filtered_gff_fn f = FilteredFiles.filtered_gff_fn g -> f = g)
  /\ (FilteredFiles.filtered_abundance_fn f = FilteredFiles.filtered_abundance_fn g ->
      f = g)
  /\ (forall s s',
        FilteredFiles.filtered_rep_fn f s = FilteredFiles.filtered_rep_fn g s' ->
        f = g /\ s = s')
  /\ FilteredFiles.filtered_gff_fn f <> FilteredFiles.filtered_abundance_fn g
  /\ (forall s, FilteredFiles.filtered_rep_fn f s <> FilteredFiles.filtered_gff_fn g)
  /\ (forall s, FilteredFiles.filtered_rep_fn f s <> FilteredFiles.filtered_abundance_fn g).
Proof.
  intros Hbase.
  unfold FilteredFiles.filtered_gff_fn, FilteredFiles.filtered_abundance_fn,
    FilteredFiles.filtered_rep_fn.
  split; [|split; [|split; [|split; [|split]]]].
  - intros E. by apply filtered_name_inj in E as [? _].
  - intros E. by apply filtered_name_inj in E as [? _].
  - intros s s' E. apply filtered_name_inj in E as [Hfg E]; [|done..].
    split; [done|]. by injection E.
  - intros E. apply filtered_name_inj in E as [_ E]; [|done..]. discriminate E.
  - intros s E. apply filtered_name_inj in E as [_ E]; [|done..]. discriminate E.
  - intros s E. apply filtered_name_inj in E as [_ E]; [|done..]. discriminate E.
Qed.

Lemma filter_settings_separate_names_witness :
  FilteredFiles.filtered_gff_fn (FilteredFiles.mk (CollapsedFiles.mk "out" true) 2 true)
  = "out.5merge.collapsed.min_fl_2.no_subsets.gff"
  /\ FilteredFiles.filtered_gff_fn (FilteredFiles.mk (CollapsedFiles.mk "out" true) 2 true)
     <> FilteredFiles.filtered_abundance_fn
          (FilteredFiles.mk (CollapsedFiles.mk "out" true) 20 false).
Proof.
  split; [vm_compute; reflexivity|].
  apply (filter_settings_separate_names
           (FilteredFiles.mk (CollapsedFiles.mk "out" true) 2 true)
           (FilteredFiles.mk (CollapsedFiles.mk "out" true) 20 false)).
  reflexivity.
Defined.

(** ** The loops of [Branch.run], for any engine *)

Lemma number_calls_length (from : Z) (ls : list (list SamRecord)) :
  length (number_calls from ls) = length ls.
Proof. by rewrite <- (number_calls_snd from ls) at 2; rewrite length_map. Qed.

Lemma number_calls_elem (from : Z) (ls : list (list SamRecord))
    (c : Z * list SamRecord) :
  c ∈ number_calls from ls -> snd c ∈ ls.
Proof.
  intros Hc. rewrite <- (number_calls_snd from ls).
  apply list_elem_of_fmap. by exists c.
Qed.

Section LoopsAnyEngine.

Variable collapse_sam_records :
  list SamRecord -> Z -> Z -> bool -> bool -> Z ->
  result (list GffRecord * list GffRecord * list GroupRecord).
Variable self : Branch.t.
Variables allow_extra_5exon skip_5_exon_alt : bool.
Variable tolerate_end : Z.

(** X6.  Empty record lists are skipped: a value of a yielded dict that
    holds no record is not handed to the engine and does not advance
    [cuff_index].  The loops give the same writers, the same counter and
    the same exception when the empty lists are removed beforehand, and
    what the engine would do on an empty list has no bearing on them. *)
Theorem empty_record_lists_are_skipped
    (other_engine : list SamRecord -> Z -> Z -> bool -> bool -> Z ->
                    result (list GffRecord * list GffRecord * list GroupRecord)) :
  (forall records i cov a s t,
     records <> [] ->
     other_engine records i cov a s t = collapse_sam_records records i cov a s t) ->
  (forall values st,
     Branch.run_values collapse_sam_records self allow_extra_5exon skip_5_exon_alt
                       tolerate_end values st
     = Branch.run_values other_engine self allow_extra_5exon skip_5_exon_alt
                         tolerate_end (nonempty values) st)
  /\ (forall strm st,
        Branch.run_stream collapse_sam_records self allow_extra_5exon skip_5_exon_alt
                          tolerate_end strm st
        = Branch.run_stream other_engine self allow_extra_5exon skip_5_exon_alt
                            tolerate_end strm st).
Proof.
  intros Hagree.
  assert (Hne : forall records : list SamRecord,
             (0 <? Z.of_nat (length records)) = true -> records <> []).
  { intros [|r l]; [discriminate|done]. }
  assert (Hsame : forall values st,
             Branch.run_values collapse_sam_records self allow_extra_5exon
                               skip_5_exon_alt tolerate_end values st
             = Branch.run_values other_engine self allow_extra_5exon
                                 skip_5_exon_alt tolerate_end values st).
  { induction values as [|records rest IH]; intros st; cbn; [done|].
    destruct (0 <? Z.of_nat (length records)) eqn:E; [|apply IH].
    rewrite (Hagree _ _ _ _ _ _ (Hne _ E)).
    destruct (collapse_sam_records _ _ _ _ _ _) as [[[good bad] group]|e]; [|done].
    apply IH. }
  split.
  - induction values as [|records rest IH]; intros st;
      cbn [Branch.run_values nonempty List.filter]; [done|].
    destruct (0 <? Z.of_nat (length records)) eqn:E; [|apply IH].
    cbn [Branch.run_values]. rewrite E, (Hagree _ _ _ _ _ _ (Hne _ E)).
    destruct (collapse_sam_records _ _ _ _ _ _) as [[[good bad] group]|e]; [|done].
    apply IH.
  - intros strm st. unfold Branch.run_stream.
    enough (Hev : forall evs st0,
               Branch.run_events collapse_sam_records self allow_extra_5exon
                                 skip_5_exon_alt tolerate_end evs st0
               = Branch.run_events other_engine self allow_extra_5exon
                                   skip_5_exon_alt tolerate_end evs st0)
      by by rewrite Hev.
    induction evs as [|[qid|recs] rest IH]; intros st0; cbn; [done|apply IH|].
    rewrite Hsame.
    destruct (Branch.run_values other_engine _ _ _ _ _ st0) as [st1 [e|]]; [done|].
    apply IH.
Qed.

(** X7.  An exception of the engine ends the loops at once: when the
    loops over some events end with an exception of the engine, they end
    in the same state and with the same exception whatever the generator
    would have produced afterwards, be it more events or an exception of
    its own.  No record of a later group is written, and [cuff_index] is
    not advanced. *)
Theorem engine_error_ends_the_loops (evs : list sam_event)
    (st st' : Branch.loop_state) (e : exn) :
  Branch.run_events collapse_sam_records self allow_extra_5exon skip_5_exon_alt
                    tolerate_end evs st = (st', Some e) ->
  forall (more : list sam_event) (fail : option exn),
    Branch.run_stream collapse_sam_records self allow_extra_5exon skip_5_exon_alt
                      tolerate_end (mkStream (evs ++ more) fail) st
    = (st', Some e).
Proof.
  intros H more fail. unfold Branch.run_stream. cbn [events failure].
  enough (Branch.run_events collapse_sam_records self allow_extra_5exon
            skip_5_exon_alt tolerate_end (evs ++ more) st = (st', Some e)) as ->
    by done.
  revert st H. induction evs as [|[qid|recs] rest IH]; intros st; cbn.
  - discriminate.
  - apply IH.
  - destruct (Branch.run_values _ _ _ _ _ _ st) as [st1 [e1|]]; [done|apply IH].
Qed.

End LoopsAnyEngine.

(** ** What the loops of [Branch.run] hand to the writers *)

Section LoopsOutput.

Variable collapse_sam_records :
  list SamRecord -> Z -> Z -> bool -> bool -> Z ->
  result (list GffRecord * list GffRecord * list GroupRecord).
Variable self : Branch.t.
Variables allow_extra_5exon skip_5_exon_alt : bool.
Variable tolerate_end : Z.

(** X8.  What the loops of [Branch.run] hand to the writers, for any
    engine.  When the loops end without an exception, on writers opened on
    names that are not empty, then the generator ended without an
    exception, the engine was called on the non-empty record lists of the
    stream in arrival order with [cuff_index] 1, 2, ..., every call
    returned, the counter ends one past the number of calls, and the
    writers were handed what the generator asked to ignore and what the
    calls returned, in call order. *)
Theorem loops_write_what_the_engine_returns (strm : Stream) (f1 f2 f3 f4 : string)
    (st' : Branch.loop_state) :
  f1 <> "" -> f2 <> "" -> f3 <> "" -> f4 <> "" ->
  Branch.run_stream collapse_sam_records self allow_extra_5exon skip_5_exon_alt
    tolerate_end strm
    (Branch.mkLoop 1 (mkWriters (open_writer f1) (open_writer f2)
                                (open_writer f3) (open_writer f4)))
  = (st', None) ->
  let calls := number_calls 1 (nonempty_lists (events strm)) in
  let call := engine_call collapse_sam_records self allow_extra_5exon
                          skip_5_exon_alt tolerate_end in
  failure strm = None
  /\ map fst calls = seqZ 1 (Z.of_nat (length calls))
  /\ Branch.cuff_index st' = 1 + Z.of_nat (length calls)
  /\ Forall (fun c => snd c <> [] /\ is_ok (call c) = true) calls
  /\ buffer (ignored_ids_writer (Branch.writers st')) = ignored_of (events strm)
  /\ buffer (good_gff_writer (Branch.writers st'))
     = flat_map (good_of collapse_sam_records self allow_extra_5exon
                         skip_5_exon_alt tolerate_end) calls
  /\ buffer (bad_gff_writer (Branch.writers st'))
     = flat_map (bad_of collapse_sam_records self allow_extra_5exon
                        skip_5_exon_alt tolerate_end) calls
  /\ buffer (group_writer (Branch.writers st'))
     = flat_map (group_of collapse_sam_records self allow_extra_5exon
                          skip_5_exon_alt tolerate_end) calls.
Proof.
  intros N1 N2 N3 N4 Hst. cbn zeta.
  unfold Branch.run_stream in Hst.
  destruct (Branch.run_events _ _ _ _ _ _ _) as [st1 e1] eqn:E1.
  destruct e1 as [e|]; [discriminate|]. injection Hst as -> Hfail.
  apply run_events_called in E1
    as [(ids & _ & Hids & Hig) (done & _ & Hall & Hok & Hidx & Hg & Hb & Hgr)].
  specialize (Hids eq_refl). specialize (Hall eq_refl). subst ids done.
  cbn [Branch.writers Branch.cuff_index ignored_ids_writer good_gff_writer
         bad_gff_writer group_writer] in Hok, Hidx, Hig, Hg, Hb, Hgr.
  split; [done|].
  split; [by rewrite number_calls_fst, number_calls_length|].
  split; [by rewrite number_calls_length|].
  split.
  - apply Forall_forall. intros c Hc. split.
    + apply number_calls_elem in Hc.
      pose proof (nonempty_lists_nonempty (events strm)) as Hne.
      rewrite Forall_forall in Hne. by apply Hne.
    + rewrite Forall_forall in Hok. by apply Hok.
  - rewrite Hig, Hg, Hb, Hgr.
    rewrite (buffer_put_records f4 _ (open_writer (T:=GroupRecord) f4)),
      (buffer_put_records f3 _ (open_writer (T:=GffRecord) f3)),
      (buffer_put_records f2 _ (open_writer (T:=GffRecord) f2)),
      (buffer_put_records f1 _ (open_writer (T:=string) f1))
      by by apply open_writer_open_on.
    by rewrite !buffer_open_writer.
Qed.

End LoopsOutput.

(** ** [CollapseIsoformsRunner.run], for any collaborators *)

Lemma bind_ok_tt {S B} (m : St S unit) (k : unit -> St S B) (s s' : S) :
  m s = (Ok tt, s') -> (m ≫= k) s = k tt s'.
Proof. apply bind_ok. Qed.

(** The file names a call asks its callee to write: [Branch.run] opens its
    four names for writing, [collapse_fuzzy_junctions] is given
    [fuzzy_gff_filename] and [fuzzy_group_filename], [ln] its destination
    and [pick_rep] its [output_filename]. *)
Definition call_outputs (c : call) : list string :=
  match c with
  | CheckIdsUnique _ => []
  | BranchNew _ _ _ _ _ => []
  | BranchRun _ _ ignored_ids_fn good_gff_fn bad_gff_fn group_fn =>
      [ignored_ids_fn; good_gff_fn; bad_gff_fn; group_fn]
  | CollapseFuzzyJunctions _ _ fuzzy_gff_filename fuzzy_group_filename _ _ =>
      [fuzzy_gff_filename; fuzzy_group_filename]
  | Ln _ dst => [dst]
  | PickRep _ _ _ output_filename _ _ => [output_filename]
  end.

Section RunnerStages.

Import CollapseIsoformsRunner.

Variable check_ids_unique : string -> F unit.
Variable name_to_len_dict : string -> F (gmap string Z).
Variable iter_gmap_sam :
  gmap string node -> string -> gmap string Z -> Q -> Q -> Stream.
Variable collapse_sam_records :
  list SamRecord -> Z -> Z -> bool -> bool -> Z ->
  result (list GffRecord * list GffRecord * list GroupRecord).
Variable collapse_fuzzy_junctions :
  string -> string -> string -> string -> bool -> Z -> F unit.
Variable ln : string -> string -> F unit.
Variable pick_rep : string -> string -> string -> string -> bool -> string -> F unit.

Let go :=
  run check_ids_unique name_to_len_dict iter_gmap_sam collapse_sam_records
      collapse_fuzzy_junctions ln pick_rep.

(** The statements of [run] before the comment [# Pick up representative]:
    validation, [Branch], the fuzzy stage when it is enabled, and the
    links. *)
Definition collapse_and_link (self : t) : M unit :=
  let c := base self in
  validate_inputs check_ids_unique self ;;
  log (BranchNew (isoform_filename self) (sam_filename self)
                 (min_flnc_coverage self) (min_aln_coverage self)
                 (min_aln_identity self)) ;;
  b ← Branch.init name_to_len_dict (isoform_filename self) (sam_filename self)
        (min_flnc_coverage self) (min_aln_coverage self) (min_aln_identity self);
  log (BranchRun (allow_extra_5exon self) (skip_5_exon_alt self)
                 (CollapsedFiles.ignored_ids_txt_fn c)
                 (CollapsedFiles.good_unfuzzy_gff_fn c)
                 (CollapsedFiles.bad_unfuzzy_gff_fn c)
                 (CollapsedFiles.unfuzzy_group_fn c)) ;;
  Branch.run iter_gmap_sam collapse_sam_records b
    (allow_extra_5exon self) (skip_5_exon_alt self) default_tolerate_end
    (CollapsedFiles.ignored_ids_txt_fn c)
    (CollapsedFiles.good_unfuzzy_gff_fn c)
    (CollapsedFiles.bad_unfuzzy_gff_fn c)
    (CollapsedFiles.unfuzzy_group_fn c) ;;
  (if shall_collapse_fuzzy_junctions self then
     log (CollapseFuzzyJunctions
            (CollapsedFiles.good_unfuzzy_gff_fn c)
            (CollapsedFiles.unfuzzy_group_fn c)
            (CollapsedFiles.good_fuzzy_gff_fn c)
            (CollapsedFiles.fuzzy_group_fn c)
            (allow_extra_5exon self) (max_fuzzy_junction self)) ;;
     on_files (collapse_fuzzy_junctions
                 (CollapsedFiles.good_unfuzzy_gff_fn c)
                 (CollapsedFiles.unfuzzy_group_fn c)
                 (CollapsedFiles.good_fuzzy_gff_fn c)
                 (CollapsedFiles.fuzzy_group_fn c)
                 (allow_extra_5exon self) (max_fuzzy_junction self)) ;;
     link_outputs ln self (CollapsedFiles.good_fuzzy_gff_fn c)
                          (CollapsedFiles.fuzzy_group_fn c)
   else
     link_outputs ln self (CollapsedFiles.good_unfuzzy_gff_fn c)
                          (CollapsedFiles.unfuzzy_group_fn c)).

(** The statements of [run] from that comment on. *)
Definition pick_representatives (self : t) : M unit :=
  let c := base self in
  let pick_least_err_instead := negb (allow_extra_5exon self) in
  output_filename ← lift (CollapsedFiles.rep_fn c (suffix self));
  log (PickRep (isoform_filename self) (CollapsedFiles.good_gff_fn c)
               (CollapsedFiles.group_fn c) output_filename
               pick_least_err_instead (CollapsedFiles.bad_gff_fn c)) ;;
  on_files (pick_rep (isoform_filename self) (CollapsedFiles.good_gff_fn c)
                     (CollapsedFiles.group_fn c) output_filename
                     pick_least_err_instead (CollapsedFiles.bad_gff_fn c)).

(** [run] is the one after the other. *)
Lemma run_splits (self : t) (w : world) :
  go self w = (collapse_and_link self ;; pick_representatives self) w.
Proof.
  unfold go, run, collapse_and_link, pick_representatives. cbn zeta.
  rewrite !bind_unfold.
  destruct (validate_inputs _ self w) as [[[]|e] w1]; [|done].
  rewrite !bind_unfold.
  destruct (log _ w1) as [[[]|e] w2]; [|done].
  rewrite !bind_unfold.
  destruct (Branch.init _ _ _ _ _ _ w2) as [[b|e] w3]; [|done].
  rewrite !bind_unfold.
  destruct (log _ w3) as [[[]|e] w4]; [|done].
  rewrite !bind_unfold.
  destruct (Branch.run _ _ _ _ _ _ _ _ _ _ w4) as [[[]|e] w5]; [|done].
  rewrite !bind_unfold.
  match goal with
  | |- context [(if ?b then ?m1 else ?m2) w5] =>
      destruct ((if b then m1 else m2) w5) as [[[]|e] w6]
  end; done.
Qed.

(** X9.  An unsupported suffix is found out only after the collapsing
    work.  When the suffix is none of [fasta], [fastq] and
    [contigset.xml], [run] does not return; the picker is not called; and
    when validation, [Branch], the fuzzy stage and the links all went
    through, [run] raises [AssertionError] and leaves everything they wrote
    and linked in place. *)
Theorem unsupported_suffix_is_found_after_collapsing (self : t) (w : world) :
  suffix self ∉ CollapsedFiles.rep_suffixes ->
  fst (go self w) <> Ok tt
  /\ (forall w1, collapse_and_link self w = (Ok tt, w1) ->
                 go self w = (Raise AssertionError, w1))
  /\ (forall i g gr o p b,
        PickRep i g gr o p b ∈ journal (snd (go self w)) ->
        PickRep i g gr o p b ∈ journal w).
Proof.
  intros Hs.
  assert (Hrep : CollapsedFiles.rep_fn (base self) (suffix self) = Raise AssertionError).
  { unfold CollapsedFiles.rep_fn. by rewrite bool_decide_eq_false_2. }
  assert (Hpick : forall w1, pick_representatives self w1 = (Raise AssertionError, w1)).
  { intros w1. unfold pick_representatives. cbn zeta. by rewrite Hrep. }
  split; [|split].
  - rewrite run_splits, bind_unfold.
    destruct (collapse_and_link self w) as [[[]|e] w1]; [|done].
    by rewrite Hpick.
  - intros w1 H1. by rewrite run_splits, (bind_ok_tt _ _ _ _ H1), Hpick.
  - intros i g gr o p b Hin.
    destruct (go self w) as [r w'] eqn:E.
    destruct (proj1 (journals_run _ _ _ _ _ _ _ self _ _ _ E)) as (l' & [k Hk] & Hj).
    cbn [snd] in Hin. rewrite Hj in Hin.
    apply elem_of_app in Hin as [Hin|Hin]; [done|exfalso].
    assert (Hall : PickRep i g gr o p b ∈ collapsing_calls self ++ picking_calls self).
    { rewrite Hk. apply elem_of_app. by left. }
    apply pick_rep_call_inv in Hall as (_ & _ & _ & Hok & _).
    by rewrite Hrep in Hok.
Qed.

(** X10.  The bad GFF name the picker is handed is the name of a file no
    stage is asked for.  In any run, no call is asked to write or to link
    [bad_gff_fn] or [bad_fuzzy_gff_fn]: [Branch.run] is told to write the
    bad candidates to [bad_unfuzzy_gff_fn], the fuzzy stage and the links
    concern good GFF and group files only.  Still every call of the picker
    carries [bad_gff_filename = bad_gff_fn]. *)
Theorem bad_gff_fn_is_asked_of_no_stage (self : t) (fs : gmap string node)
    (r : result unit) (w' : world) :
  go self (mkWorld fs []) = (r, w') ->
  let c := base self in
  (forall k, k ∈ journal w' ->
     (CollapsedFiles.bad_gff_fn c ∉ call_outputs k)
     /\ (CollapsedFiles.bad_fuzzy_gff_fn c ∉ call_outputs k))
  /\ (forall a s f1 f2 f3 f4,
        BranchRun a s f1 f2 f3 f4 ∈ journal w' ->
        f3 = CollapsedFiles.bad_unfuzzy_gff_fn c)
  /\ (forall i g gr o p b,
        PickRep i g gr o p b ∈ journal w' -> b = CollapsedFiles.bad_gff_fn c).
Proof.
  intros H. cbn zeta. split; [|split].
  - intros k Hk. apply (run_calls_expected _ _ _ _ _ _ _ _ _ _ _ _ H) in Hk.
    revert Hk. unfold collapsing_calls, picking_calls. cbn zeta.
    rewrite elem_of_app. intros [Hk|Hk].
    + revert Hk. cbn [app].
      destruct (0 <? max_fuzzy_junction self); cbn [app];
        rewrite !elem_of_cons, !elem_of_nil; intros Hk;
        repeat (destruct Hk as [->|Hk];
                [cbn [call_outputs]; rewrite ?elem_of_cons, ?elem_of_nil;
                 split; intros Hin;
                 repeat (destruct Hin as [Hin|Hin]; [revert Hin; names_ne|]);
                 done|]); done.
    + destruct (CollapsedFiles.rep_fn _ _) as [out|] eqn:Eout;
        [|by apply elem_of_nil in Hk].
      apply list_elem_of_singleton in Hk as ->. cbn [call_outputs].
      rewrite !list_elem_of_singleton. split; intros Hin; symmetry in Hin; revert Hin.
      * apply (rep_not_final _ _ _ _ Eout).
        unfold final_names. rewrite !elem_of_cons. auto.
      * apply (rep_not_intermediate _ _ _ _ Eout).
        unfold intermediate_names. rewrite !elem_of_cons. auto 10.
  - intros a s f1 f2 f3 f4 Hin.
    apply (run_calls_expected _ _ _ _ _ _ _ _ _ _ _ _ H) in Hin.
    revert Hin. unfold collapsing_calls, picking_calls. cbn zeta.
    rewrite elem_of_app. intros [Hin|Hin].
    + revert Hin. cbn [app].
      destruct (0 <? max_fuzzy_junction self); cbn [app];
        rewrite !elem_of_cons, !elem_of_nil; intros Hin;
        repeat (destruct Hin as [Hin|Hin];
                [try discriminate; by injection Hin as _ _ _ _ -> _|]); done.
    + destruct (CollapsedFiles.rep_fn _ _) as [out|]; [|by apply elem_of_nil in Hin].
      apply list_elem_of_singleton in Hin. discriminate.
  - intros i g gr o p b Hin.
    apply (run_calls_expected _ _ _ _ _ _ _ _ _ _ _ _ H) in Hin.
    by apply pick_rep_call_inv in Hin as (_ & _ & _ & _ & _ & ->).
Qed.

End RunnerStages.

(** ** The further properties on the worked run *)

Lemma empty_record_lists_are_skipped_witness :
  let engine := Collaborators.collapse_sam_records Demo.same_chain Demo.first_chain in
  let other := fun records i cov a s t =>
                 match records with
                 | [] => Raise AssertionError
                 | _ => engine records i cov a s t
                 end in
  let st := Branch.mkLoop 1 (mkWriters None (open_writer "good") (open_writer "bad")
                                       (open_writer "group")) in
  Branch.run_values engine Demo.branch false false 100
                    [[]; [Demo.rec1; Demo.rec2]; []; [Demo.rec3]] st
  = Branch.run_values other Demo.branch false false 100
                      [[Demo.rec1; Demo.rec2]; [Demo.rec3]] st.
Proof.
  cbn zeta.
  refine (proj1 (empty_record_lists_are_skipped
                   (Collaborators.collapse_sam_records Demo.same_chain Demo.first_chain)
                   Demo.branch false false 100
                   (fun records i cov a s t =>
                      match records with
                      | [] => Raise AssertionError
                      | _ => Collaborators.collapse_sam_records
                               Demo.same_chain Demo.first_chain records i cov a s t
                      end) _)
                [[]; [Demo.rec1; Demo.rec2]; []; [Demo.rec3]] _).
  intros [|r l] i cov a s t Hne; [by destruct Hne|reflexivity].
Defined.

Lemma engine_error_ends_the_loops_witness :
  let engine := Collaborators.collapse_sam_records Demo.same_chain Demo.first_chain in
  let unsorted_chain :=
    mkSam "q9" "chr1" Plus 100 500 [(300, 500); (100, 200)] (99 # 100) (99 # 100) in
  let st := Branch.mkLoop 1 (mkWriters None (open_writer "good") (open_writer "bad")
                                       (open_writer "group")) in
  Branch.run_stream engine Demo.branch false false 100
    (mkStream ([Yield [(Plus, [unsorted_chain])]] ++ [Yield [(Plus, [Demo.rec1])]])
              (Some (UnsortedInputError "q0")))
    st
  = (st, Some (ExonChainError "q9")).
Proof.
  cbn zeta.
  apply (engine_error_ends_the_loops
           (Collaborators.collapse_sam_records Demo.same_chain Demo.first_chain)
           Demo.branch false false 100).
  vm_compute. reflexivity.
Defined.

Lemma unsupported_suffix_is_found_after_collapsing_witness :
  let self := CollapseIsoformsRunner.init (fun f => (f, "gff")) "in.fasta" "in.sam"
                "out" (90 # 100) (90 # 100) 2 0 false false in
  let stages := collapse_and_link Collaborators.check_ids_unique
                  Collaborators.name_to_len_dict Collaborators.iter_gmap_sam
                  (Collaborators.collapse_sam_records Demo.same_chain Demo.first_chain)
                  Demo.copy_fuzzy Collaborators.ln self (mkWorld Demo.disk []) in
  (CollapseIsoformsRunner.suffix self ∉ CollapsedFiles.rep_suffixes)
  /\ stages = (Ok tt, snd stages)
  /\ CollapseIsoformsRunner.run Collaborators.check_ids_unique
       Collaborators.name_to_len_dict Collaborators.iter_gmap_sam
       (Collaborators.collapse_sam_records Demo.same_chain Demo.first_chain)
       Demo.copy_fuzzy Collaborators.ln (Collaborators.pick_rep Demo.no_discrepancy)
       self (mkWorld Demo.disk [])
     = (Raise AssertionError, snd stages).
Proof.
  cbn zeta.
  assert (Hs : "gff" ∉ CollapsedFiles.rep_suffixes).
  { unfold CollapsedFiles.rep_suffixes. rewrite !elem_of_cons, elem_of_nil.
    intros [E|[E|[E|[]]]]; discriminate E. }
  split; [exact Hs|].
  assert (H : forall m : result unit * world, fst m = Ok tt -> m = (Ok tt, snd m))
    by (intros [r w] E; cbn in E; by subst).
  split; [apply H; vm_compute; reflexivity|].
  apply (proj1 (proj2 (unsupported_suffix_is_found_after_collapsing
                         Collaborators.check_ids_unique Collaborators.name_to_len_dict
                         Collaborators.iter_gmap_sam
                         (Collaborators.collapse_sam_records Demo.same_chain
                                                             Demo.first_chain)
                         Demo.copy_fuzzy Collaborators.ln
                         (Collaborators.pick_rep Demo.no_discrepancy)
                         (CollapseIsoformsRunner.init (fun f => (f, "gff"))
                            "in.fasta" "in.sam" "out" (90 # 100) (90 # 100) 2 0
                            false false)
                         (mkWorld Demo.disk []) Hs))).
  apply H. vm_compute. reflexivity.
Defined.

Lemma bad_gff_fn_is_asked_of_no_stage_witness :
  Demo.run 5 false Demo.disk
  = (fst (Demo.run 5 false Demo.disk), snd (Demo.run 5 false Demo.disk))
  /\ forall k, k ∈ journal (snd (Demo.run 5 false Demo.disk)) ->
       ("out.no5merge.collapsed.bad.gff" ∉ call_outputs k)
       /\ ("out.no5merge.collapsed.bad.gff.fuzzy" ∉ call_outputs k).
Proof.
  assert (H : Demo.run 5 false Demo.disk
              = (fst (Demo.run 5 false Demo.disk),
                 snd (Demo.run 5 false Demo.disk)))
    by (vm_compute; reflexivity).
  split; [exact H|].
  exact (proj1 (bad_gff_fn_is_asked_of_no_stage
                  Collaborators.check_ids_unique Collaborators.name_to_len_dict
                  Collaborators.iter_gmap_sam
                  (Collaborators.collapse_sam_records Demo.same_chain
                                                      Demo.first_chain)
                  Demo.copy_fuzzy Collaborators.ln
                  (Collaborators.pick_rep Demo.no_discrepancy)
                  (Demo.runner 5 false) Demo.disk _ _ H)).
Defined.

(** ** [Polish.validate_inputs] *)

Section PolishValidation.

Import Polish.

Variable path_exists : string -> bool.

Lemma message_nonempty (a : ascii) (s t : string) :
  String.eqb (String a s +:+ t) "" = false.
Proof. reflexivity. Qed.

(** X11.  [Polish.validate_inputs] reports the last check that failed,
    and never that [bas_fofn] is missing.  It returns exactly when the
    three attributes are strings naming existing paths.  When several
    checks fail, the [ValueError] carries the message of the last one, in
    the order root directory, non-full-length reads, bas fofn.  When
    [bas_fofn] is [None] the call ends in [TypeError], raised by
    [op.exists(None)] before the [ValueError] is reached: the message
    ["bas_fofn must be specified."] is never delivered. *)
Theorem polish_validation_reports_the_last_failure (self : t) :
  let outcome := snd (validate_inputs path_exists self) in
  (outcome = inr tt <->
     exists d f b,
       root_dir self = Some d /\ nfl_fa self = Some f /\ bas_fofn self = Some b
       /\ path_exists d = true /\ path_exists f = true /\ path_exists b = true)
  /\ (bas_fofn self = None -> outcome = inl TypeError)
  /\ outcome <> inl (ValueError "bas_fofn must be specified.")
  /\ (forall d f b,
        root_dir self = Some d -> nfl_fa self = Some f -> bas_fofn self = Some b ->
        (path_exists b = false ->
           outcome = inl (ValueError ("Failed to find bas fofn " +:+ b +:+ "!")))
        /\ (path_exists b = true -> path_exists f = false ->
              outcome
              = inl (ValueError ("Failed to find non-full-length reads " +:+ f +:+ "!")))
        /\ (path_exists b = true -> path_exists f = true -> path_exists d = false ->
              outcome
              = inl (ValueError ("Root dir " +:+ d +:+ " is not an existing directory!")))).
Proof.
  cbn zeta. destruct self as [[d|] [f|] [b|]]; unfold validate_inputs; cbn;
    try (split; [split; [discriminate|by intros (? & ? & ? & ? & ? & ? & _)]|];
         split; [done|]; split; [discriminate|];
         intros ? ? ?; discriminate).
  destruct (path_exists d) eqn:Ed, (path_exists f) eqn:Ef, (path_exists b) eqn:Eb;
    cbn; rewrite ?message_nonempty; cbn;
    (split; [split; [try discriminate; try (intros _; by exists d, f, b)
                    |intros (d' & f' & b' & [= <-] & [= <-] & [= <-] & ? & ? & ?);
                     congruence]|]);
    (split; [discriminate|]);
    (split; [discriminate|]);
    intros d' f' b' [= <-] [= <-] [= <-]; repeat split; congruence.
Qed.

End PolishValidation.

(** ** The argument checks of [tofu_wrap.py] *)

Section TofuChecks.

Import TofuWrap.

Variable gmap_db_and_name_from_ds : string -> error + (option string * option string).
Variable path_exists : string -> bool.
Variable guess_is_bam : string -> error + bool.
Variable check_blasr : error + unit.

Lemma output_extensions_split (fn : string) :
  existsb (endswith fn) output_extensions
  = existsb (endswith fn) [".fa"; ".fasta"] || existsb (endswith fn) [".fq"; ".fastq"].
Proof.
  unfold output_extensions. cbn [existsb].
  by rewrite !orb_false_r, orb_assoc.
Qed.

(** The choice of step (5) raises exactly on the names the format check
    of [_sanity_check_args] refuses. *)
Lemma select_in_isoforms_ok (fa fq fn : string) :
  existsb (endswith fn) output_extensions = true ->
  select_in_isoforms fa fq fn
  = inr (if existsb (endswith fn) [".fa"; ".fasta"] then fa else fq).
Proof.
  rewrite output_extensions_split. unfold select_in_isoforms.
  destruct (existsb (endswith fn) [".fa"; ".fasta"]); [done|].
  cbn [orb]. by intros ->.
Qed.

(** X12.  What a passed [_sanity_check_args] guarantees.  When the check
    returns, [args.quiver] is true whatever the caller chose, [nfl_fa] and
    [bas_fofn] are given and unchanged, a [gmap_ds] has replaced the
    [gmap_db] and [gmap_name] of the caller by what
    [gmap_db_and_name_from_ds] gave, the GMAP directory exists, and the
    output name ends in [.fa], [.fasta], [.fq] or [.fastq]; the choice of
    the input isoforms in step (5) of [args_runner] can then not raise its
    own [ValueError], and takes the FASTA file exactly for [.fa] and
    [.fasta]. *)
Theorem sanity_check_settles_the_output_format (args args' : Args) :
  _sanity_check_args gmap_db_and_name_from_ds path_exists guess_is_bam check_blasr args
  = inr args' ->
  quiver args' = true
  /\ nfl_fa args' = nfl_fa args /\ nfl_fa args <> None
  /\ bas_fofn args' = bas_fofn args /\ bas_fofn args <> None
  /\ collapsed_filtered_fn args' = collapsed_filtered_fn args
  /\ (forall ds, gmap_ds args = Some ds ->
        gmap_db_and_name_from_ds ds = inr (gmap_db args', gmap_name args'))
  /\ (gmap_ds args = None ->
        gmap_db args' = gmap_db args /\ gmap_name args' = gmap_name args)
  /\ (exists db, gmap_db args' = Some db /\ path_exists db = true)
  /\ (forall all_hq_fa all_hq_fq,
        select_in_isoforms all_hq_fa all_hq_fq (collapsed_filtered_fn args')
        = inr (if existsb (endswith (collapsed_filtered_fn args')) [".fa"; ".fasta"]
               then all_hq_fa else all_hq_fq)).
Proof.
  unfold _sanity_check_args. destruct args as [nfl bas q db name ds fn]. cbn.
  destruct nfl as [nfl|]; [|discriminate].
  destruct bas as [bas|]; [|discriminate].
  assert (Hrest : forall a : Args,
    nfl_fa a = Some nfl -> bas_fofn a = Some bas -> quiver a = true ->
    collapsed_filtered_fn a = fn ->
    match gmap_db a with
    | Some db0 =>
        if negb (path_exists db0)
        then inl (IOError "GMAP DB location not valid: %s. Quit." db0)
        else
          match gmap_name a with
          | Some name0 =>
              if negb (path_exists (op_join db0 name0))
              then inl (IOError "GMAP name not valid: %s. Quit." name0)
              else
                match guess_is_bam bas with
                | inl e => inl e
                | inr true =>
                    if negb (existsb (endswith (collapsed_filtered_fn a)) output_extensions)
                    then inl (ValueError ("Output file " +:+ collapsed_filtered_fn a
                                          +:+ " must be FASTA or FASTQ!"))
                    else match check_blasr with
                         | inl e => inl e
                         | inr _ => inr a
                         end
                | inr false =>
                    inl (ValueError
                           ("--bas_fofn " +:+ bas
                            +:+ " must be either BAM or subreadset.xml."
                            +:+ "Bax.h5 must be converted to BAM using bax2bam first! "
                            +:+ "Multiple BAM files can be merged to a BAM FOFN or dataset xml."))
                end
          | None => inl AttributeError
          end
    | None => inl TypeError
    end = inr args' ->
    args' = a
    /\ (exists db0, gmap_db a = Some db0 /\ path_exists db0 = true)
    /\ existsb (endswith fn) output_extensions = true).
  { intros a _ _ _ Hfn.
    destruct (gmap_db a) as [db0|]; [|discriminate].
    destruct (path_exists db0) eqn:Edb; [|discriminate]. cbn [negb].
    destruct (gmap_name a) as [name0|]; [|discriminate].
    destruct (path_exists (op_join db0 name0)); [|discriminate]. cbn [negb].
    destruct (guess_is_bam bas) as [e|[|]]; try discriminate.
    rewrite Hfn.
    destruct (existsb (endswith fn) output_extensions); [|discriminate]. cbn [negb].
    destruct check_blasr as [e|[]]; [discriminate|].
    intros [= <-]. split; [done|]. split; [by exists db0|done]. }
  assert (Hgoal : forall a : Args,
    nfl_fa a = Some nfl -> bas_fofn a = Some bas -> quiver a = true ->
    collapsed_filtered_fn a = fn ->
    (forall ds0, ds = Some ds0 ->
       gmap_db_and_name_from_ds ds0 = inr (gmap_db a, gmap_name a)) ->
    (ds = None -> gmap_db a = db /\ gmap_name a = name) ->
    (exists db0, gmap_db a = Some db0 /\ path_exists db0 = true) ->
    existsb (endswith fn) output_extensions = true ->
    quiver a = true
    /\ nfl_fa a = Some nfl /\ Some nfl <> None
    /\ bas_fofn a = Some bas /\ Some bas <> None
    /\ collapsed_filtered_fn a = fn
    /\ (forall ds0, ds = Some ds0 ->
          gmap_db_and_name_from_ds ds0 = inr (gmap_db a, gmap_name a))
    /\ (ds = None -> gmap_db a = db /\ gmap_name a = name)
    /\ (exists db0, gmap_db a = Some db0 /\ path_exists db0 = true)
    /\ (forall all_hq_fa all_hq_fq,
          select_in_isoforms all_hq_fa all_hq_fq (collapsed_filtered_fn a)
          = inr (if existsb (endswith (collapsed_filtered_fn a)) [".fa"; ".fasta"]
                 then all_hq_fa else all_hq_fq))).
  { intros a H1 H2 H3 H4 H5 H6 H7 H8. repeat split; try done.
    - by apply H6.
    - by apply H6.
    - intros fa fq. rewrite H4. by apply select_in_isoforms_ok. }
  destruct ds as [ds0|].
  - intros H.
    destruct db, name;
      (destruct (gmap_db_and_name_from_ds ds0) as [e|[db1 name1]] eqn:Eds;
       [discriminate|];
       apply Hrest in H as (-> & Hdb & Hext); [|done..];
       apply Hgoal; try done;
       intros ds1 [= <-]; exact Eds).
  - intros H.
    destruct db as [db0|], name as [name0|]; try discriminate;
      apply Hrest in H as (-> & Hdb & Hext); try done;
      apply Hgoal; try done.
Qed.

End TofuChecks.

Lemma sanity_check_settles_the_output_format_witness :
  let from_ds := fun ds : string =>
                   inr (Some "/refs/hg38", Some "hg38") : TofuWrap.error + _ in
  let args := TofuWrap.mkArgs (Some "nfl.fasta") (Some "subreads.xml") false
                (Some "/elsewhere") None (Some "gmap_ds.xml") "tofu_out.fastq" in
  let checked := TofuWrap.mkArgs (Some "nfl.fasta") (Some "subreads.xml") true
                   (Some "/refs/hg38") (Some "hg38") (Some "gmap_ds.xml")
                   "tofu_out.fastq" in
  TofuWrap._sanity_check_args from_ds (fun _ => true) (fun _ => inr true) (inr tt) args
  = inr checked
  /\ TofuWrap.select_in_isoforms "all.hq.fasta" "all.hq.fastq" "tofu_out.fastq"
     = inr "all.hq.fastq".
Proof.
  cbn zeta.
  assert (H : TofuWrap._sanity_check_args
                (fun ds : string =>
                   inr (Some "/refs/hg38", Some "hg38") : TofuWrap.error + _)
                (fun _ => true) (fun _ => inr true) (inr tt)
                (TofuWrap.mkArgs (Some "nfl.fasta") (Some "subreads.xml") false
                   (Some "/elsewhere") None (Some "gmap_ds.xml") "tofu_out.fastq")
              = inr (TofuWrap.mkArgs (Some "nfl.fasta") (Some "subreads.xml") true
                       (Some "/refs/hg38") (Some "hg38") (Some "gmap_ds.xml")
                       "tofu_out.fastq"))
    by reflexivity.
  split; [exact H|].
  exact (proj2 (proj2 (proj2 (proj2 (proj2 (proj2 (proj2 (proj2 (proj2
           (sanity_check_settles_the_output_format _ _ _ _ _ _ H)))))))))
           "all.hq.fasta" "all.hq.fastq").
Defined.

(** * The stages of a run *)

(** ** C3: the picking policy *)

Lemma CandId_eqb_eq (a b : CandId) : CandId_eqb a b = true <-> a = b.
Proof.
  destruct a as [c1 i1], b as [c2 i2]. unfold CandId_eqb. cbn.
  rewrite andb_true_iff, !Z.eqb_eq. split; [by intros [-> ->]|by intros [= -> ->]].
Qed.

Section Policy.

Import Collaborators.

Variable discrepancy : GffRecord -> string -> Z.

(** The good GFF annotates the group. *)
Definition annotated (gff : list GffRecord) (grp : GroupRecord) : bool :=
  bool_decide (is_Some (find (fun g => CandId_eqb (gff_id g) (group_name grp)) gff)).

(** [r] is the representative the policy of [allow_extra_5exon] chooses
    for a group the good GFF annotates.  With [allow_extra_5exon] no member
    has a longer sequence than the representative; without it no member
    has a smaller discrepancy; in both cases a member that ties with the
    representative has no smaller query id. *)
Definition chosen_by_policy (allow_extra_5exon : bool) (seqs : gmap string string)
    (gff : list GffRecord) (groups : list GroupRecord) (r : RepRecord) : Prop :=
  exists grp g,
    grp ∈ groups
    /\ find (fun g => CandId_eqb (gff_id g) (group_name grp)) gff = Some g
    /\ rep_group r = group_name grp
    /\ rep_qid r ∈ group_members grp
    /\ seqs !! rep_qid r = Some (rep_seq r)
    /\ forall x, x ∈ group_members grp ->
         if allow_extra_5exon then
           exists sx, seqs !! x = Some sx
             /\ ((String.length sx < String.length (rep_seq r))%nat
                 \/ (String.length sx = String.length (rep_seq r)
                     /\ String.le (rep_qid r) x))
         else
           discrepancy g (rep_qid r) < discrepancy g x
           \/ (discrepancy g (rep_qid r) = discrepancy g x
               /\ String.le (rep_qid r) x).

Lemma pick_one_chosen (allow : bool) (seqs : gmap string string)
    (g : GffRecord) (grp : GroupRecord) (r : RepRecord) :
  pick_one discrepancy (negb allow) seqs g grp = Ok r ->
  rep_group r = group_name grp
  /\ rep_qid r ∈ group_members grp
  /\ seqs !! rep_qid r = Some (rep_seq r)
  /\ forall x, x ∈ group_members grp ->
       if allow then
         exists sx, seqs !! x = Some sx
           /\ ((String.length sx < String.length (rep_seq r))%nat
               \/ (String.length sx = String.length (rep_seq r)
                   /\ String.le (rep_qid r) x))
       else
         discrepancy g (rep_qid r) < discrepancy g x
         \/ (discrepancy g (rep_qid r) = discrepancy g x
             /\ String.le (rep_qid r) x).
Proof.
  unfold pick_one.
  destruct (pick_rep_group _ grp) as [q|e] eqn:Eq; [|discriminate].
  assert (Hne : group_members grp <> []).
  { intros E. unfold pick_rep_group in Eq. by rewrite E in Eq. }
  destruct (pick_rep_group_ok (policy_score discrepancy (negb allow) seqs g) grp Hne)
    as (q' & Hq' & Hin & Hmin).
  rewrite Eq in Hq'. injection Hq' as <-.
  destruct (if negb allow then None else find _ _) as [m|] eqn:Efind; [discriminate|].
  destruct (seqs !! q) as [s|] eqn:Es; [|discriminate].
  intros [= <-]. cbn [rep_group rep_qid rep_seq].
  split; [done|]. split; [done|]. split; [done|].
  intros x Hx. specialize (Hmin x Hx).
  unfold no_worse, policy_score in Hmin.
  destruct allow; cbn [negb] in *; cbv iota; [|exact Hmin].
  assert (is_Some (seqs !! x)) as [sx Hsx].
  { destruct (seqs !! x) as [sx|] eqn:Ex; [by eexists|exfalso].
    apply find_none with (x := x) in Efind; [|by apply list_elem_of_In].
    rewrite Ex in Efind. rewrite bool_decide_eq_false_2 in Efind; [done|].
    by intros [? ?]. }
  exists sx. split; [done|].
  unfold length_score in Hmin. rewrite Es, Hsx in Hmin.
  destruct Hmin as [H|[H L]]; [left; lia|right; split; [lia|done]].
Qed.

(** The picker emits one representative for each group the good GFF
    annotates, in the order of the group file, and each is the choice of
    the policy. *)
Lemma pick_all_chosen (allow : bool) (seqs : gmap string string)
    (gff : list GffRecord) (groups : list GroupRecord) (reps : list RepRecord) :
  pick_all discrepancy (negb allow) seqs gff groups = Ok reps ->
  map rep_group reps = map group_name (List.filter (annotated gff) groups)
  /\ Forall (chosen_by_policy allow seqs gff groups) reps.
Proof.
  revert reps. induction groups as [|grp rest IH]; intros reps; cbn [pick_all].
  - intros [= <-]. split; [done|constructor].
  - cbn [List.filter]. unfold annotated at 1.
    destruct (find _ gff) as [g|] eqn:Eg.
    + rewrite bool_decide_eq_true_2 by by eexists.
      destruct (pick_one _ _ _ g grp) as [r|e] eqn:Er; [|discriminate].
      destruct (pick_all _ _ _ _ rest) as [rs|e]; [|discriminate].
      intros [= <-]. destruct (IH rs eq_refl) as [Hids Hall].
      apply pick_one_chosen in Er as (Hr1 & Hr2 & Hr3 & Hr4).
      split; [cbn [map]; by rewrite Hr1, Hids|].
      constructor.
      * exists grp, g. split; [left|done].
      * eapply Forall_impl; [exact Hall|].
        intros r' (grp' & g' & Hin & Hrest). exists grp', g'.
        split; [by right|done].
    + rewrite bool_decide_eq_false_2 by by intros [? ?].
      intros H. destruct (IH reps H) as [Hids Hall]. split; [done|].
      eapply Forall_impl; [exact Hall|].
      intros r' (grp' & g' & Hin & Hrest). exists grp', g'.
      split; [by right|done].
Qed.

(** What the picker does on files it can read. *)
Lemma pick_rep_reads (iso gff_fn group_fn out : string) (p : bool) (bad : string)
    (fs : gmap string node) (seqs : list (string * string))
    (gff : list GffRecord) (groups : list GroupRecord) :
  resolve fs iso = Some (Isoforms seqs) ->
  resolve fs gff_fn = Some (GffFile gff) ->
  resolve fs group_fn = Some (GroupFile groups) ->
  pick_rep discrepancy iso gff_fn group_fn out p bad fs
  = match pick_all discrepancy p (list_to_map seqs) gff groups with
    | Ok reps => (Ok tt, <[out := Regular (RepFile reps)]> fs)
    | Raise e => (Raise e, fs)
    end.
Proof.
  intros H1 H2 H3.
  unfold pick_rep, read_isoforms, read_file, write_file, lift.
  rewrite !bind_unfold, H1. cbn. rewrite !bind_unfold, H2. cbn.
  rewrite !bind_unfold, H3. cbn. rewrite bind_unfold.
  by destruct (pick_all _ _ _ _ _).
Qed.

End Policy.

Section PickingPolicy.

Import CollapseIsoformsRunner.

Variable check_ids_unique : string -> F unit.
Variable name_to_len_dict : string -> F (gmap string Z).
Variable iter_gmap_sam :
  gmap string node -> string -> gmap string Z -> Q -> Q -> Stream.
Variable collapse_sam_records :
  list SamRecord -> Z -> Z -> bool -> bool -> Z ->
  result (list GffRecord * list GffRecord * list GroupRecord).
Variable collapse_fuzzy_junctions :
  string -> string -> string -> string -> bool -> Z -> F unit.
Variable ln : string -> string -> F unit.
Variable discrepancy : GffRecord -> string -> Z.

Let go :=
  run check_ids_unique name_to_len_dict iter_gmap_sam collapse_sam_records
      collapse_fuzzy_junctions ln.
Let stages :=
  collapse_and_link check_ids_unique name_to_len_dict iter_gmap_sam
    collapse_sam_records collapse_fuzzy_junctions ln.

(** Once the collapsing stages and the links went through, [run] is the
    one call of the picker. *)
Lemma run_is_the_call_of_the_picker
    (pick_rep : string -> string -> string -> string -> bool -> string -> F unit)
    (self : t) (w w1 : world) (out : string) :
  stages self w = (Ok tt, w1) ->
  CollapsedFiles.rep_fn (base self) (suffix self) = Ok out ->
  let c := base self in
  let picked :=
    pick_rep (isoform_filename self) (CollapsedFiles.good_gff_fn c)
             (CollapsedFiles.group_fn c) out (negb (allow_extra_5exon self))
             (CollapsedFiles.bad_gff_fn c) (files w1) in
  go pick_rep self w
  = (fst picked,
     mkWorld (snd picked)
             (journal w1 ++
              [PickRep (isoform_filename self) (CollapsedFiles.good_gff_fn c)
                       (CollapsedFiles.group_fn c) out
                       (negb (allow_extra_5exon self))
                       (CollapsedFiles.bad_gff_fn c)])).
Proof.
  intros H1 Hout. cbn zeta. unfold go.
  rewrite run_splits, (bind_ok_tt _ _ _ _ H1).
  unfold pick_representatives. cbn zeta. rewrite Hout.
  rewrite bind_unfold. unfold lift. rewrite bind_unfold. cbn [log].
  unfold on_files. cbn [files journal].
  by destruct (pick_rep _ _ _ _ _ _ _).
Qed.

(** C3.  The picking policy comes from [allow_extra_5exon] alone.  Once
    the collapsing stages and the links went through and [rep_fn] accepted
    the suffix, [run] calls the picker, once, on the files they left, with
    [pick_least_err_instead = not allow_extra_5exon], and ends as that call
    ends; how a picker behaves under the other value of the flag has no
    bearing on the run.  With the picker of the design document the run
    returns exactly when the picker finds a representative for every group
    the final good GFF annotates; the representative file then holds one
    record for each such group, in the order of the group file: with
    [allow_extra_5exon] a member no member of the group has a longer
    sequence than, without it a member no member has a smaller discrepancy
    than, and among the members that tie the one with the
    lexicographically smallest query id.  The choice does not depend on
    the order of the members. *)
Theorem picking_policy_follows_allow_extra_5exon (self : t) (w w1 : world)
    (out : string) :
  stages self w = (Ok tt, w1) ->
  CollapsedFiles.rep_fn (base self) (suffix self) = Ok out ->
  let c := base self in
  let flag := negb (allow_extra_5exon self) in
  let the_call :=
    PickRep (isoform_filename self) (CollapsedFiles.good_gff_fn c)
            (CollapsedFiles.group_fn c) out flag (CollapsedFiles.bad_gff_fn c) in
  (forall pick_rep,
     let picked :=
       pick_rep (isoform_filename self) (CollapsedFiles.good_gff_fn c)
                (CollapsedFiles.group_fn c) out flag
                (CollapsedFiles.bad_gff_fn c) (files w1) in
     go pick_rep self w
     = (fst picked, mkWorld (snd picked) (journal w1 ++ [the_call])))
  /\ (forall pick1 pick2,
        (forall i g gr o b fs, pick1 i g gr o flag b fs = pick2 i g gr o flag b fs) ->
        go pick1 self w = go pick2 self w)
  /\ (forall seqs gff groups,
        resolve (files w1) (isoform_filename self) = Some (Isoforms seqs) ->
        resolve (files w1) (CollapsedFiles.good_gff_fn c) = Some (GffFile gff) ->
        resolve (files w1) (CollapsedFiles.group_fn c) = Some (GroupFile groups) ->
        let ran := go (Collaborators.pick_rep discrepancy) self w in
        match Collaborators.pick_all discrepancy flag (list_to_map seqs) gff groups with
        | Ok reps =>
            fst ran = Ok tt
            /\ journal (snd ran) = journal w1 ++ [the_call]
            /\ resolve (files (snd ran)) out = Some (RepFile reps)
            /\ map rep_group reps
               = map group_name (List.filter (annotated gff) groups)
            /\ Forall (chosen_by_policy discrepancy (allow_extra_5exon self)
                                        (list_to_map seqs) gff groups) reps
        | Raise e =>
            ran = (Raise e, mkWorld (files w1) (journal w1 ++ [the_call]))
        end)
  /\ (forall score g1 g2,
        group_name g1 = group_name g2 ->
        group_members g1 ≡ₚ group_members g2 ->
        Collaborators.pick_rep_group score g1 = Collaborators.pick_rep_group score g2).
Proof.
  intros H1 Hout. cbn zeta. split; [|split; [|split]].
  - intros pick_rep. by apply run_is_the_call_of_the_picker.
  - intros pick1 pick2 Hagree.
    rewrite (run_is_the_call_of_the_picker pick1 self w w1 out H1 Hout).
    rewrite (run_is_the_call_of_the_picker pick2 self w w1 out H1 Hout).
    cbn zeta. by rewrite Hagree.
  - intros seqs gff groups Hs Hg Hgr.
    rewrite (run_is_the_call_of_the_picker _ self w w1 out H1 Hout). cbn zeta.
    rewrite (pick_rep_reads discrepancy _ _ _ _ _ _ _ seqs gff groups Hs Hg Hgr).
    destruct (Collaborators.pick_all _ _ _ _ _) as [reps|e] eqn:Epick; [|done].
    cbn [fst snd files journal].
    apply pick_all_chosen in Epick as [Hids Hall].
    split; [done|]. split; [done|].
    split; [apply resolve_regular, lookup_insert_eq|]. done.
  - intros score g1 g2. apply pick_rep_group_perm.
Qed.

End PickingPolicy.

(** ** C7: the stages run left to right *)

Section StageOrder.

Import CollapseIsoformsRunner.

Variable check_ids_unique : string -> F unit.
Variable name_to_len_dict : string -> F (gmap string Z).
Variable iter_gmap_sam :
  gmap string node -> string -> gmap string Z -> Q -> Q -> Stream.
Variable collapse_sam_records :
  list SamRecord -> Z -> Z -> bool -> bool -> Z ->
  result (list GffRecord * list GffRecord * list GroupRecord).
Variable collapse_fuzzy_junctions :
  string -> string -> string -> string -> bool -> Z -> F unit.
Variable ln : string -> string -> F unit.
Variable pick_rep : string -> string -> string -> string -> bool -> string -> F unit.

Let go :=
  run check_ids_unique name_to_len_dict iter_gmap_sam collapse_sam_records
      collapse_fuzzy_junctions ln pick_rep.

Lemma on_files_ok_inv {A} (f : F A) (w w' : world) (a : A) :
  on_files f w = (Ok a, w') ->
  f (files w) = (Ok a, files w') /\ journal w' = journal w.
Proof.
  unfold on_files. destruct (f (files w)) as [r fs]. by intros [= -> <-].
Qed.

Lemma link_outputs_ok_inv (self : t) (good_src group_src : string) (w w' : world) :
  link_outputs ln self good_src group_src w = (Ok tt, w') ->
  exists fs5 fs6,
    ln good_src (CollapsedFiles.good_gff_fn (base self)) (files w) = (Ok tt, fs5)
    /\ ln good_src (CollapsedFiles.gff_fn (base self)) fs5 = (Ok tt, fs6)
    /\ ln group_src (CollapsedFiles.group_fn (base self)) fs6 = (Ok tt, files w').
Proof.
  unfold link_outputs. cbn zeta. intros H.
  apply bind_ok_inv in H as ([] & w1 & Hlog & H). apply log_inv in Hlog as ->.
  apply bind_ok_inv in H as ([] & w2 & H5 & H). apply on_files_ok_inv in H5 as [H5 _].
  apply bind_ok_inv in H as ([] & w3 & Hlog & H). apply log_inv in Hlog as ->.
  apply bind_ok_inv in H as ([] & w4 & H6 & H). apply on_files_ok_inv in H6 as [H6 _].
  apply bind_ok_inv in H as ([] & w5 & Hlog & H). apply log_inv in Hlog as ->.
  apply on_files_ok_inv in H as [H7 _].
  cbn [files] in *. eauto.
Qed.

(** C7.  The stages run left to right, each on the files the one before
    it left.  Whatever the collaborators are, a run that returns has found
    both inputs, then called the id check on the files it was given, then
    the length lookup of [Branch] on the files the check left, then
    [Branch.run] on the files the lookup left, which returned; then, when
    fuzzy merging is enabled, [collapse_fuzzy_junctions] on the files
    [Branch.run] left, and otherwise nothing; then the three links, one
    after the other; and last the picker on the files the links left, the
    run ending with the files the picker left.  The picker is handed the
    final good GFF and group names, which name no file of a collapsing
    stage, and besides them the isoform file, which the id check and the
    length lookup were handed before, and [bad_gff_fn].  Of a run that does
    not return the calls are an initial part of these, in this order. *)
Theorem stages_run_left_to_right (self : t) (w : world) (r : result unit)
    (w' : world) :
  go self w = (r, w') ->
  let c := base self in
  let iso := isoform_filename self in
  let sam := sam_filename self in
  let fuzzy := 0 <? max_fuzzy_junction self in
  let good_src := if fuzzy then CollapsedFiles.good_fuzzy_gff_fn c
                  else CollapsedFiles.good_unfuzzy_gff_fn c in
  let group_src := if fuzzy then CollapsedFiles.fuzzy_group_fn c
                   else CollapsedFiles.unfuzzy_group_fn c in
  let f1 := CollapsedFiles.ignored_ids_txt_fn c in
  let f2 := CollapsedFiles.good_unfuzzy_gff_fn c in
  let f3 := CollapsedFiles.bad_unfuzzy_gff_fn c in
  let f4 := CollapsedFiles.unfuzzy_group_fn c in
  (exists calls,
     calls `prefix_of` collapsing_calls self ++ picking_calls self
     /\ journal w' = journal w ++ calls)
  /\ (r = Ok tt ->
      exists (fs1 fs2 fs3 fs4 fs5 fs6 fs7 : gmap string node) (d : gmap string Z)
             (out : string),
        op_exists (files w) iso = true
        /\ op_exists (files w) sam = true
        /\ check_ids_unique iso (files w) = (Ok tt, fs1)
        /\ name_to_len_dict iso fs1 = (Ok d, fs2)
        /\ (exists j,
              Branch.run iter_gmap_sam collapse_sam_records
                (Branch.mk iso d sam (min_flnc_coverage self) (min_aln_coverage self)
                           (min_aln_identity self))
                (allow_extra_5exon self) (skip_5_exon_alt self) default_tolerate_end
                f1 f2 f3 f4 (mkWorld fs2 j)
              = (Ok tt, mkWorld fs3 j))
        /\ (if fuzzy then
              collapse_fuzzy_junctions f2 f4 (CollapsedFiles.good_fuzzy_gff_fn c)
                (CollapsedFiles.fuzzy_group_fn c) (allow_extra_5exon self)
                (max_fuzzy_junction self) fs3 = (Ok tt, fs4)
            else fs4 = fs3)
        /\ ln good_src (CollapsedFiles.good_gff_fn c) fs4 = (Ok tt, fs5)
        /\ ln good_src (CollapsedFiles.gff_fn c) fs5 = (Ok tt, fs6)
        /\ ln group_src (CollapsedFiles.group_fn c) fs6 = (Ok tt, fs7)
        /\ CollapsedFiles.rep_fn c (suffix self) = Ok out
        /\ pick_rep iso (CollapsedFiles.good_gff_fn c) (CollapsedFiles.group_fn c) out
                    (negb (allow_extra_5exon self)) (CollapsedFiles.bad_gff_fn c) fs7
           = (Ok tt, files w')
        /\ (CollapsedFiles.good_gff_fn c ∉ intermediate_names c)
        /\ (CollapsedFiles.group_fn c ∉ intermediate_names c)
        /\ (out ∉ intermediate_names c)
        /\ (out ∉ final_names c)
        /\ journal w' = journal w ++ collapsing_calls self ++ picking_calls self).
Proof.
  intros H. cbn zeta. split.
  { destruct (proj1 (journals_run _ _ _ _ _ _ _ self _ _ _ H)) as (l' & Hpre & Hj).
    by exists l'. }
  intros ->.
  pose proof (proj2 (journals_run _ _ _ _ _ _ _ self _ _ _ H) tt eq_refl) as Hj.
  revert H. unfold go, run. cbn zeta. intros H.
  apply bind_ok_inv in H as ([] & w1 & Hval & H).
  apply bind_ok_inv in H as ([] & w2 & Hlog & H). apply log_inv in Hlog as ->.
  apply bind_ok_inv in H as (b & w3 & Hinit & H).
  apply bind_ok_inv in H as ([] & w4 & Hlog & H). apply log_inv in Hlog as ->.
  apply bind_ok_inv in H as ([] & w5 & Hrun & H).
  apply bind_ok_inv in H as ([] & w6 & Hlink & H).
  apply bind_ok_inv in H as (out & w7 & Hout & H).
  unfold lift in Hout.
  destruct (CollapsedFiles.rep_fn _ _) as [out'|] eqn:Erep; [|discriminate].
  injection Hout as -> ->.
  apply bind_ok_inv in H as ([] & w8 & Hlog & H). apply log_inv in Hlog as ->.
  apply on_files_ok_inv in H as [Hpick _]. cbn [files] in Hpick.
  (* validation *)
  unfold validate_inputs in Hval. rewrite bind_unfold in Hval. cbn [get_files] in Hval.
  destruct (op_exists (files w) (isoform_filename self)) eqn:Eiso;
    [|discriminate]. cbn [negb] in Hval.
  destruct (op_exists (files w) (sam_filename self)) eqn:Esam;
    [|discriminate]. cbn [negb] in Hval.
  apply bind_ok_inv in Hval as ([] & w0 & Hlog & Hval). apply log_inv in Hlog as ->.
  apply on_files_ok_inv in Hval as [Hcheck _]. cbn [files] in Hcheck.
  (* Branch.__init__ *)
  unfold Branch.init in Hinit.
  apply bind_ok_inv in Hinit as (d & w0 & Hlen & Hret).
  apply on_files_ok_inv in Hlen as [Hlen _]. cbn [files] in Hlen.
  injection Hret as <- ->.
  (* Branch.run *)
  pose proof (proj2 (journals_branch_run iter_gmap_sam collapse_sam_records
                       _ _ _ _ _ _ _ _ _ _ _ Hrun) tt eq_refl) as Hj5.
  rewrite app_nil_r in Hj5.
  assert (Hrun' : w5 = mkWorld (files w5) (journal w3 ++
                     [BranchRun (allow_extra_5exon self) (skip_5_exon_alt self)
                        (CollapsedFiles.ignored_ids_txt_fn (base self))
                        (CollapsedFiles.good_unfuzzy_gff_fn (base self))
                        (CollapsedFiles.bad_unfuzzy_gff_fn (base self))
                        (CollapsedFiles.unfuzzy_group_fn (base self))])).
  { destruct w5 as [fs5' j5]. cbn [journal files] in *. by rewrite Hj5. }
  rewrite Hrun' in Hrun.
  (* the merger and the links *)
  assert (Hstage : exists fs4 fs5 fs6,
             (if 0 <? max_fuzzy_junction self then
                collapse_fuzzy_junctions
                  (CollapsedFiles.good_unfuzzy_gff_fn (base self))
                  (CollapsedFiles.unfuzzy_group_fn (base self))
                  (CollapsedFiles.good_fuzzy_gff_fn (base self))
                  (CollapsedFiles.fuzzy_group_fn (base self))
                  (allow_extra_5exon self) (max_fuzzy_junction self) (files w5)
                = (Ok tt, fs4)
              else fs4 = files w5)
             /\ ln (if 0 <? max_fuzzy_junction self
                    then CollapsedFiles.good_fuzzy_gff_fn (base self)
                    else CollapsedFiles.good_unfuzzy_gff_fn (base self))
                   (CollapsedFiles.good_gff_fn (base self)) fs4 = (Ok tt, fs5)
             /\ ln (if 0 <? max_fuzzy_junction self
                    then CollapsedFiles.good_fuzzy_gff_fn (base self)
                    else CollapsedFiles.good_unfuzzy_gff_fn (base self))
                   (CollapsedFiles.gff_fn (base self)) fs5 = (Ok tt, fs6)
             /\ ln (if 0 <? max_fuzzy_junction self
                    then CollapsedFiles.fuzzy_group_fn (base self)
                    else CollapsedFiles.unfuzzy_group_fn (base self))
                   (CollapsedFiles.group_fn (base self)) fs6 = (Ok tt, files w7)).
  { unfold shall_collapse_fuzzy_junctions in Hlink.
    destruct (0 <? max_fuzzy_junction self).
    - apply bind_ok_inv in Hlink as ([] & w9 & Hlog & Hlink).
      apply log_inv in Hlog as ->.
      apply bind_ok_inv in Hlink as ([] & w10 & Hfz & Hlink).
      apply on_files_ok_inv in Hfz as [Hfz _]. cbn [files] in Hfz.
      apply link_outputs_ok_inv in Hlink as (fs5 & fs6 & L1 & L2 & L3).
      by exists (files w10), fs5, fs6.
    - apply link_outputs_ok_inv in Hlink as (fs5 & fs6 & L1 & L2 & L3).
      by exists (files w5), fs5, fs6. }
  destruct Hstage as (fs4 & fs5 & fs6 & Hfz & L1 & L2 & L3).
  exists (files w1), (files w3), (files w5), fs4, fs5, fs6, (files w7), d, out.
  do 4 (split; [done|]).
  split; [eexists; exact Hrun|].
  do 6 (split; [done|]).
  split.
  { intros Hin.
    eapply (final_not_intermediate (base self)); try exact Hin; try reflexivity.
    unfold final_names. rewrite !elem_of_cons. auto. }
  split.
  { intros Hin.
    eapply (final_not_intermediate (base self)); try exact Hin; try reflexivity.
    unfold final_names. rewrite !elem_of_cons. auto. }
  split; [intros Hin; by apply (rep_not_intermediate (base self) _ _ out Erep)|].
  split; [intros Hin; by apply (rep_not_final (base self) _ _ out Erep)|].
  exact Hj.
Qed.

End StageOrder.

(** ** C8: every candidate has a member *)






Section MergerMembers.

Import Collaborators.

Variable merged_id : list GffRecord -> CandId.
Variable merged_chain : bool -> list GffRecord -> list (Z * Z).





End MergerMembers.

(** *** No stage of the design document raises [EmptyGroupError] early *)







(** *** The loops *)

Section LoopErrors.

Variable collapse_sam_records :
  list SamRecord -> Z -> Z -> bool -> bool -> Z ->
  result (list GffRecord * list GffRecord * list GroupRecord).
Variable self : Branch.t.
Variables allow_extra_5exon skip_5_exon_alt : bool.
Variable tolerate_end : Z.




End LoopErrors.

(** *** The run *)

Section EngineAgree.

Import CollapseIsoformsRunner.

Variable check_ids_unique : string -> F unit.
Variable name_to_len_dict : string -> F (gmap string Z).
Variable iter_gmap_sam :
  gmap string node -> string -> gmap string Z -> Q -> Q -> Stream.
Variable collapse_fuzzy_junctions :
  string -> string -> string -> string -> bool -> Z -> F unit.
Variable ln : string -> string -> F unit.
Variable pick_rep : string -> string -> string -> string -> bool -> string -> F unit.


End EngineAgree.

Section Members.

Import CollapseIsoformsRunner.

Variable compatible : bool -> bool -> Z -> SamRecord -> SamRecord -> bool.
Variable representative_chain : list SamRecord -> list (Z * Z).
Variable collapse_fuzzy_junctions :
  string -> string -> string -> string -> bool -> Z -> F unit.
Variable discrepancy : GffRecord -> string -> Z.

Let engine := Collaborators.collapse_sam_records compatible representative_chain.

Let go :=
  run Collaborators.check_ids_unique Collaborators.name_to_len_dict
      Collaborators.iter_gmap_sam engine collapse_fuzzy_junctions
      Collaborators.ln (Collaborators.pick_rep discrepancy).







End Members.

(** * A worked run with fuzzy junctions *)

(** Two pairs of alignments on [chr1], strand [+], whose exon chains differ
    by three and two bases at the one junction, and a fifth alignment
    further along.  Collapsing uses exact equality of exon chains, so the
    unfuzzy stage keeps the pairs apart; the merger of the design document
    joins them. *)
Module DemoFuzzy.

Import Collaborators.

(** A merged candidate takes the id and the chain of its first
    constituent. *)
Definition first_id (set : list GffRecord) : CandId :=
  match set with
  | [] => mkId 0 0
  | g :: _ => gff_id g
  end.

Definition chain_of_first (allow_extra_5exon : bool) (set : list GffRecord)
    : list (Z * Z) :=
  match set with
  | [] => []
  | g :: _ => gff_exons g
  end.

Definition rec5 : SamRecord :=
  mkSam "q5" "chr1" Plus 100 500 [(100, 203); (298, 500)] (99 # 100) (99 # 100).
Definition rec6 : SamRecord :=
  mkSam "q6" "chr1" Plus 100 500 [(100, 203); (298, 500)] (99 # 100) (99 # 100).

Definition records : list SamRecord :=
  [Demo.rec1; Demo.rec2; rec5; rec6; Demo.rec3].

Definition disk : gmap string node :=
  <["in.fasta" := Regular (Isoforms [("q1", "ACGT"); ("q2", "ACGTA");
                                     ("q3", "AC"); ("q5", "ACGTAC");
                                     ("q6", "A")])]>
    (<["in.sam" := Regular (SamFile records)]> ∅).

(** The disk of [Demo] with a longer sequence for [q1]. *)
Definition disk_longer_q1 : gmap string node :=
  <["in.fasta" := Regular (Isoforms [("q1", "ACGTACGT"); ("q2", "ACGTA");
                                     ("q3", "AC"); ("q4", "A")])]> Demo.disk.

Definition run (max_fuzzy_junction : Z) (allow_extra_5exon : bool)
    (fs : gmap string node) : result unit * world :=
  CollapseIsoformsRunner.run check_ids_unique name_to_len_dict iter_gmap_sam
    (collapse_sam_records Demo.same_chain Demo.first_chain)
    (collapse_fuzzy_junctions first_id chain_of_first) ln
    (pick_rep Demo.no_discrepancy)
    (Demo.runner max_fuzzy_junction allow_extra_5exon)
    (mkWorld fs []).

End DemoFuzzy.

Example example_unfuzzy_groups :
  resolve (files (snd (DemoFuzzy.run 5 true DemoFuzzy.disk)))
          "out.5merge.collapsed.group.txt.unfuzzy"
  = Some (GroupFile [mkGroup (mkId 1 1) ["q1"; "q2"];
                     mkGroup (mkId 1 2) ["q5"; "q6"];
                     mkGroup (mkId 2 1) ["q3"]]).
Proof. vm_compute. reflexivity. Qed.

Example example_fuzzy_groups :
  resolve (files (snd (DemoFuzzy.run 5 true DemoFuzzy.disk)))
          "out.5merge.collapsed.group.txt"
  = Some (GroupFile [mkGroup (mkId 1 1) ["q1"; "q2"; "q5"; "q6"]]).
Proof. vm_compute. reflexivity. Qed.

Example example_fuzzy_good :
  resolve (files (snd (DemoFuzzy.run 5 true DemoFuzzy.disk)))
          "out.5merge.collapsed.good.gff"
  = Some (GffFile [mkGff (mkId 1 1) "chr1" Plus [(100, 200); (300, 500)]]).
Proof. vm_compute. reflexivity. Qed.

Example example_fuzzy_representatives :
  DemoFuzzy.run 5 true DemoFuzzy.disk
  = (Ok tt, snd (DemoFuzzy.run 5 true DemoFuzzy.disk))
  /\ resolve (files (snd (DemoFuzzy.run 5 true DemoFuzzy.disk)))
             "out.5merge.collapsed.rep.fasta"
     = Some (RepFile [mkRep (mkId 1 1) "q5" "ACGTAC"]).
Proof. split; vm_compute; reflexivity. Qed.

Example example_narrow_tolerance :
  resolve (files (snd (DemoFuzzy.run 2 true DemoFuzzy.disk)))
          "out.5merge.collapsed.group.txt"
  = Some (GroupFile [mkGroup (mkId 1 1) ["q1"; "q2"];
                     mkGroup (mkId 1 2) ["q5"; "q6"]]).
Proof. vm_compute. reflexivity. Qed.

(** ** The theorems on the worked runs, continued *)

Lemma loops_write_what_the_engine_returns_witness :
  let engine := Collaborators.collapse_sam_records Demo.same_chain Demo.first_chain in
  Demo.loops Demo.stream = (fst (Demo.loops Demo.stream), None)
  /\ Branch.cuff_index (fst (Demo.loops Demo.stream)) = 3
  /\ buffer (ignored_ids_writer (Branch.writers (fst (Demo.loops Demo.stream))))
     = ["q4"]
  /\ buffer (group_writer (Branch.writers (fst (Demo.loops Demo.stream))))
     = flat_map (group_of engine Demo.branch false false 100)
                [(1, [Demo.rec1; Demo.rec2]); (2, [Demo.rec3])].
Proof.
  cbn zeta.
  assert (H : Demo.loops Demo.stream = (fst (Demo.loops Demo.stream), None))
    by (vm_compute; reflexivity).
  split; [exact H|].
  assert (N : forall s : string, String.eqb s "" = false -> s <> "")
    by (intros s E; by apply String.eqb_neq).
  pose proof (loops_write_what_the_engine_returns
                (Collaborators.collapse_sam_records Demo.same_chain Demo.first_chain)
                Demo.branch false false 100 Demo.stream
                "ignored" "good" "bad" "group" _
                (N "ignored" eq_refl) (N "good" eq_refl) (N "bad" eq_refl)
                (N "group" eq_refl) H) as (_ & _ & Hidx & _ & Hig & _ & _ & Hgr).
  split; [rewrite Hidx; vm_compute; reflexivity|].
  split; [rewrite Hig; vm_compute; reflexivity|].
  rewrite Hgr. vm_compute. reflexivity.
Defined.

Lemma picking_policy_follows_allow_extra_5exon_witness :
  let self := Demo.runner 0 true in
  let stages :=
    collapse_and_link Collaborators.check_ids_unique Collaborators.name_to_len_dict
      Collaborators.iter_gmap_sam
      (Collaborators.collapse_sam_records Demo.same_chain Demo.first_chain)
      Demo.copy_fuzzy Collaborators.ln self (mkWorld Demo.disk []) in
  let seqs := [("q1", "ACGT"); ("q2", "ACGTA"); ("q3", "AC"); ("q4", "A")] in
  let gff := [mkGff (mkId 1 1) "chr1" Plus [(100, 200); (300, 500)]] in
  let groups := [mkGroup (mkId 1 1) ["q1"; "q2"]; mkGroup (mkId 2 1) ["q3"]] in
  stages = (Ok tt, snd stages)
  /\ CollapsedFiles.rep_fn (CollapseIsoformsRunner.base self)
                           (CollapseIsoformsRunner.suffix self)
     = Ok "out.5merge.collapsed.rep.fasta"
  /\ resolve (files (snd stages)) "in.fasta" = Some (Isoforms seqs)
  /\ resolve (files (snd stages)) "out.5merge.collapsed.good.gff" = Some (GffFile gff)
  /\ resolve (files (snd stages)) "out.5merge.collapsed.group.txt"
     = Some (GroupFile groups)
  /\ fst (Demo.run 0 true Demo.disk) = Ok tt
  /\ journal (snd (Demo.run 0 true Demo.disk))
     = journal (snd stages)
       ++ [PickRep "in.fasta" "out.5merge.collapsed.good.gff"
                   "out.5merge.collapsed.group.txt" "out.5merge.collapsed.rep.fasta"
                   false "out.5merge.collapsed.bad.gff"]
  /\ resolve (files (snd (Demo.run 0 true Demo.disk))) "out.5merge.collapsed.rep.fasta"
     = Some (RepFile [mkRep (mkId 1 1) "q2" "ACGTA"])
  /\ Forall (chosen_by_policy Demo.no_discrepancy true (list_to_map seqs) gff groups)
            [mkRep (mkId 1 1) "q2" "ACGTA"].
Proof.
  cbn zeta.
  set (stages := collapse_and_link _ _ _ _ _ _ _ _).
  assert (H1 : stages = (Ok tt, snd stages)) by (vm_compute; reflexivity).
  assert (H2 : CollapsedFiles.rep_fn (CollapseIsoformsRunner.base (Demo.runner 0 true))
                 (CollapseIsoformsRunner.suffix (Demo.runner 0 true))
               = Ok "out.5merge.collapsed.rep.fasta") by (vm_compute; reflexivity).
  assert (Hs : resolve (files (snd stages)) "in.fasta"
               = Some (Isoforms [("q1", "ACGT"); ("q2", "ACGTA"); ("q3", "AC");
                                 ("q4", "A")])) by (vm_compute; reflexivity).
  assert (Hg : resolve (files (snd stages)) "out.5merge.collapsed.good.gff"
               = Some (GffFile [mkGff (mkId 1 1) "chr1" Plus [(100, 200); (300, 500)]]))
    by (vm_compute; reflexivity).
  assert (Hgr : resolve (files (snd stages)) "out.5merge.collapsed.group.txt"
                = Some (GroupFile [mkGroup (mkId 1 1) ["q1"; "q2"];
                                   mkGroup (mkId 2 1) ["q3"]]))
    by (vm_compute; reflexivity).
  do 5 (split; [assumption|]).
  pose proof (proj1 (proj2 (proj2
                (picking_policy_follows_allow_extra_5exon
                   Collaborators.check_ids_unique Collaborators.name_to_len_dict
                   Collaborators.iter_gmap_sam
                   (Collaborators.collapse_sam_records Demo.same_chain Demo.first_chain)
                   Demo.copy_fuzzy Collaborators.ln Demo.no_discrepancy
                   (Demo.runner 0 true) (mkWorld Demo.disk []) (snd stages)
                   "out.5merge.collapsed.rep.fasta" H1 H2)))
                _ _ _ Hs Hg Hgr) as H.
  cbn zeta in H.
  assert (E : Collaborators.pick_all Demo.no_discrepancy
                (negb (CollapseIsoformsRunner.allow_extra_5exon (Demo.runner 0 true)))
                (list_to_map [("q1", "ACGT"); ("q2", "ACGTA"); ("q3", "AC");
                              ("q4", "A")])
                [mkGff (mkId 1 1) "chr1" Plus [(100, 200); (300, 500)]]
                [mkGroup (mkId 1 1) ["q1"; "q2"]; mkGroup (mkId 2 1) ["q3"]]
              = Ok [mkRep (mkId 1 1) "q2" "ACGTA"]) by (vm_compute; reflexivity).
  rewrite E in H. destruct H as (Hok & Hj & Hrep & _ & Hall).
  split; [exact Hok|]. split; [exact Hj|]. split; [exact Hrep|]. exact Hall.
Defined.

Lemma stages_run_left_to_right_witness :
  let ran := DemoFuzzy.run 5 true DemoFuzzy.disk in
  ran = (Ok tt, snd ran)
  /\ exists fs3 fs4 fs7 : gmap string node,
       resolve fs3 "out.5merge.collapsed.group.txt.unfuzzy"
       = Some (GroupFile [mkGroup (mkId 1 1) ["q1"; "q2"];
                          mkGroup (mkId 1 2) ["q5"; "q6"];
                          mkGroup (mkId 2 1) ["q3"]])
       /\ Collaborators.collapse_fuzzy_junctions
            DemoFuzzy.first_id DemoFuzzy.chain_of_first
            "out.5merge.collapsed.good.gff.unfuzzy"
            "out.5merge.collapsed.group.txt.unfuzzy"
            "out.5merge.collapsed.good.gff.fuzzy"
            "out.5merge.collapsed.group.txt.fuzzy" true 5 fs3
          = (Ok tt, fs4)
       /\ Collaborators.pick_rep Demo.no_discrepancy "in.fasta"
            "out.5merge.collapsed.good.gff" "out.5merge.collapsed.group.txt"
            "out.5merge.collapsed.rep.fasta" false "out.5merge.collapsed.bad.gff" fs7
          = (Ok tt, files (snd ran)).
Proof.
  cbn zeta.
  assert (H : DemoFuzzy.run 5 true DemoFuzzy.disk
              = (Ok tt, snd (DemoFuzzy.run 5 true DemoFuzzy.disk)))
    by (vm_compute; reflexivity).
  split; [exact H|].
  destruct (proj2 (stages_run_left_to_right
                     Collaborators.check_ids_unique Collaborators.name_to_len_dict
                     Collaborators.iter_gmap_sam
                     (Collaborators.collapse_sam_records Demo.same_chain
                                                         Demo.first_chain)
                     (Collaborators.collapse_fuzzy_junctions
                        DemoFuzzy.first_id DemoFuzzy.chain_of_first)
                     Collaborators.ln (Collaborators.pick_rep Demo.no_discrepancy)
                     (Demo.runner 5 true) (mkWorld DemoFuzzy.disk []) _ _ H) eq_refl)
    as (fs1 & fs2 & fs3 & fs4 & fs5 & fs6 & fs7 & d & out
        & _ & _ & Hcheck & Hlen & [calls Hrun] & Hfz & _ & _ & _ & Hout & Hpick & _).
  exists fs3, fs4, fs7.
  assert (Eout : out = "out.5merge.collapsed.rep.fasta").
  { vm_compute in Hout. by injection Hout as <-. }
  subst out.
  split; [|split; [exact Hfz|exact Hpick]].
  vm_compute in Hcheck. injection Hcheck as <-.
  vm_compute in Hlen. injection Hlen as <- <-.
  vm_compute in Hrun. injection Hrun as <-.
  vm_compute. reflexivity.
Defined.

(** The picker reads the isoform file: two runs whose final good GFF and
    group files are the same, record for record, end with different
    representatives when the isoform files differ in the length of one
    sequence. *)
Lemma stages_run_left_to_right_counterexample :
  let one := Demo.run 0 true Demo.disk in
  let other := Demo.run 0 true DemoFuzzy.disk_longer_q1 in
  let good := [mkGff (mkId 1 1) "chr1" Plus [(100, 200); (300, 500)]] in
  let groups := [mkGroup (mkId 1 1) ["q1"; "q2"]; mkGroup (mkId 2 1) ["q3"]] in
  let the_call :=
    PickRep "in.fasta" "out.5merge.collapsed.good.gff" "out.5merge.collapsed.group.txt"
            "out.5merge.collapsed.rep.fasta" false "out.5merge.collapsed.bad.gff" in
  fst one = Ok tt
  /\ fst other = Ok tt
  /\ resolve (files (snd one)) "out.5merge.collapsed.good.gff" = Some (GffFile good)
  /\ resolve (files (snd other)) "out.5merge.collapsed.good.gff" = Some (GffFile good)
  /\ resolve (files (snd one)) "out.5merge.collapsed.group.txt" = Some (GroupFile groups)
  /\ resolve (files (snd other)) "out.5merge.collapsed.group.txt"
     = Some (GroupFile groups)
  /\ last (journal (snd one)) = Some the_call
  /\ last (journal (snd other)) = Some the_call
  /\ resolve (files (snd one)) "out.5merge.collapsed.rep.fasta"
     = Some (RepFile [mkRep (mkId 1 1) "q2" "ACGTA"])
  /\ resolve (files (snd other)) "out.5merge.collapsed.rep.fasta"
     = Some (RepFile [mkRep (mkId 1 1) "q1" "ACGTACGT"]).
Proof. cbn zeta. repeat split; vm_compute; reflexivity. Qed.

